(** * markify: the heuristic Markdown transformer and the rule-based rewriter

    A shallow embedding of [lib/markdownTransformer.ts] (class
    [MarkdownTransformer]: [analyzeTextStructure], [analyzeHeading],
    [isTitleCase], [detectListType], [blocksToMarkdown], [transform]), of
    [lib/documentProcessors.ts] ([processDocument], [validateMarkdown]) and
    of the helper [validateAndCorrect] of [app/api/convert/route.ts],
    followed by the properties proved of them.

    Modelling conventions.
    - A JavaScript string is a [string]; one [ascii] stands for one UTF-16
      code unit below 256 (the Latin-1 range).  Code units from 256 on are
      outside the model: the character classes list their members under 256.
    - Every regular expression of the source is written out as the function
      that computes its leftmost, greedy, backtracking match; the comment of
      each function quotes the regular expression and says why the greedy
      choice loses no match.
    - The mutable locals of a [forEach] body become a state record threaded
      through a left fold.  A pushed block is never written again (after each
      [push] the local [currentBlock] is reassigned), so blocks are values.
    - [processDocument] can throw: it returns an [Outcome].  Its
      [headingDepth] is any JavaScript number, fractions, NaN and the
      infinities included.

    Layout: the JavaScript primitives, the three source files, the
    vocabulary of the statements, then the lemmas and theorems. *)

From Stdlib Require Import Bool Arith List Lia ZArith Ascii String.
From Stdlib Require Import Numbers.DecimalString.
From Stdlib Require Import QArith Qround.
Import ListNotations.
Close Scope Q_scope.
Open Scope string_scope.

(* ===================================================================== *)
(** ** JavaScript string primitives *)
(* ===================================================================== *)

Module JS.

(** The line feed, ["\n"]. *)
Definition LF : ascii := "010"%char.
Definition CR : ascii := "013"%char.
Definition TAB : ascii := "009"%char.
Definition nl : string := String LF "".

Definition inRange (lo hi : nat) (c : ascii) : bool :=
  let n := nat_of_ascii c in ((lo <=? n) && (n <=? hi))%nat.

(** [WhiteSpace] and [LineTerminator] of ECMAScript, as used by
    [String.prototype.trim] and by the class [\s]: TAB, LF, VT, FF, CR,
    SP and NBSP (the members below 256). *)
Definition isSpace (c : ascii) : bool :=
  let n := nat_of_ascii c in
  (inRange 9 13 c) || (n =? 32)%nat || (n =? 160)%nat.

(** [LineTerminator]: what [.] refuses and what [^] follows under the
    [m] flag (LF and CR below 256). *)
Definition isLineTerminator (c : ascii) : bool :=
  let n := nat_of_ascii c in ((n =? 10) || (n =? 13))%nat.

Definition isDigit : ascii -> bool := inRange 48 57.   (* \d, [0-9] *)
Definition isUpper : ascii -> bool := inRange 65 90.   (* [A-Z] *)
Definition isLower : ascii -> bool := inRange 97 122.  (* [a-z] *)
Definition isAlpha (c : ascii) : bool := isUpper c || isLower c.
(** [\w] and [[a-zA-Z0-9_]]. *)
Definition isWord (c : ascii) : bool :=
  isAlpha c || isDigit c || Ascii.eqb c "_".

(** Membership of a character in a short literal class such as [[-*+]]. *)
Fixpoint oneOf (cls : string) (c : ascii) : bool :=
  match cls with
  | "" => false
  | String d r => Ascii.eqb c d || oneOf r c
  end.

(** Lower-casing of an ASCII letter; the [i] flag compares through it. *)
Definition lower (c : ascii) : ascii :=
  if isUpper c then ascii_of_nat (nat_of_ascii c + 32) else c.

Definition eqbCI (a b : ascii) : bool := Ascii.eqb (lower a) (lower b).

(** The longest prefix of characters in a class, and what follows it:
    a greedy [c*]. *)
Fixpoint skipWhile (p : ascii -> bool) (s : string) : string :=
  match s with
  | "" => ""
  | String c r => if p c then skipWhile p r else s
  end.

Fixpoint takeWhile (p : ascii -> bool) (s : string) : string :=
  match s with
  | "" => ""
  | String c r => if p c then String c (takeWhile p r) else ""
  end.

Fixpoint forallb (p : ascii -> bool) (s : string) : bool :=
  match s with
  | "" => true
  | String c r => p c && forallb p r
  end.

Definition isEmpty (s : string) : bool :=
  match s with "" => true | _ => false end.

(** [s.trimStart()], [s.trimEnd()], [s.trim()]. *)
Definition trimStart (s : string) : string := skipWhile isSpace s.

Fixpoint trimEnd (s : string) : string :=
  match s with
  | "" => ""
  | String c r =>
      match trimEnd r with
      | "" => if isSpace c then "" else String c ""
      | r' => String c r'
      end
  end.

Definition trim (s : string) : string := trimEnd (trimStart s).

(** [s.startsWith(p)] and [s.endsWith(p)]. *)
Fixpoint startsWith (p s : string) : bool :=
  match p with
  | "" => true
  | String a p' =>
      match s with
      | String c s' => Ascii.eqb a c && startsWith p' s'
      | "" => false
      end
  end.

(** [s.slice(n)]. *)
Fixpoint drop (n : nat) (s : string) : string :=
  match n, s with
  | O, _ => s
  | S k, String _ r => drop k r
  | S _, "" => ""
  end.

Fixpoint endsWith (p s : string) : bool :=
  String.eqb s p ||
  match s with
  | "" => false
  | String _ r => endsWith p r
  end.

(** [s.split(sep)] for a one-character separator: never empty. *)
Fixpoint split (sep : ascii) (s : string) : list string :=
  match s with
  | "" => [""]
  | String c r =>
      if Ascii.eqb c sep then "" :: split sep r
      else match split sep r with
           | [] => [String c ""]
           | w :: ws => String c w :: ws
           end
  end.

(** [c.repeat(n)] for a natural count. *)
Fixpoint repeat (c : ascii) (n : nat) : string :=
  match n with
  | O => ""
  | S k => String c (repeat c k)
  end.

(** Case-insensitive removal of a literal prefix: [Some rest] when [s]
    starts with [w] up to the case of ASCII letters. *)
Fixpoint stripPrefixCI (w s : string) : option string :=
  match w with
  | "" => Some s
  | String a w' =>
      match s with
      | "" => None
      | String c s' => if eqbCI a c then stripPrefixCI w' s' else None
      end
  end.

Definition equalsCI (w s : string) : bool :=
  match stripPrefixCI w s with
  | Some "" => true
  | _ => false
  end.

(** A JavaScript number that [parseInt] returns and a list index holds:
    an integer or NaN. *)
Inductive number : Type :=
| NaN
| Num (z : Z).

(** Truthiness of a number: [0] and [NaN] are falsy. *)
Definition truthy (n : number) : bool :=
  match n with
  | NaN => false
  | Num z => negb (Z.eqb z 0)
  end.

Definition digitVal (c : ascii) : Z := Z.of_nat (nat_of_ascii c - 48).

Fixpoint digitsVal (acc : Z) (s : string) : Z :=
  match s with
  | "" => acc
  | String c r => if isDigit c then digitsVal (10 * acc + digitVal c) r else acc
  end.

(** [parseInt(s, 10)]: leading white space, an optional sign, then the
    longest run of decimal digits; NaN when that run is empty. *)
Definition parseInt (s : string) : number :=
  let t := trimStart s in
  let '(neg, u) :=
    match t with
    | String "-" r => (true, r)
    | String "+" r => (false, r)
    | _ => (false, t)
    end in
  match u with
  | String c _ =>
      if isDigit c
      then Num (if neg then Z.opp (digitsVal 0 u) else digitsVal 0 u)
      else NaN
  | "" => NaN
  end.

(** Decimal rendering of an integer, as a template literal prints it. *)
Definition showZ (z : Z) : string := NilZero.string_of_int (Z.to_int z).

Definition showNumber (n : number) : string :=
  match n with
  | NaN => "NaN"
  | Num z => showZ z
  end.

End JS.

Import JS.

(* ===================================================================== *)
(** ** lib/markdownTransformer.ts *)
(* ===================================================================== *)

(** [Block.type]; the member ['list'] is spelled [list_item] here. *)
Inductive BlockType : Type :=
| heading
| paragraph
| list_item
| code
| quote.

Inductive ListType : Type :=
| bullet
| numbered.

(** [Block.metadata]: every field is optional ([None] is [undefined]). *)
Record Metadata : Type := mkMetadata {
  level : option nat;
  listType : option ListType;
  listIndex : option number
}.

Record Block : Type := mkBlock {
  type : BlockType;
  content : string;
  metadata : option Metadata
}.

Definition BlockType_eqb (a b : BlockType) : bool :=
  match a, b with
  | heading, heading | paragraph, paragraph | list_item, list_item
  | code, code | quote, quote => true
  | _, _ => false
  end.

Definition ListType_eqb (a b : ListType) : bool :=
  match a, b with
  | bullet, bullet | numbered, numbered => true
  | _, _ => false
  end.

(** The block literals of [analyzeTextStructure]. *)
Definition codeBlock (c : string) : Block := mkBlock code c None.
Definition quoteBlock (c : string) : Block := mkBlock quote c None.
Definition paragraphBlock (c : string) : Block := mkBlock paragraph c None.
Definition headingBlock (c : string) (lvl : option nat) : Block :=
  mkBlock heading c (Some (mkMetadata lvl None None)).
Definition listBlock (c : string) (t : ListType) (i : option number) : Block :=
  mkBlock list_item c (Some (mkMetadata None (Some t) i)).

(** *** The list patterns *)

(** The four entries of [this.listPatterns], in order. *)
Inductive ListPattern : Type :=
| BulletPoints      (* /^\s*([-*+])\s+/ *)
| NumberedLists     (* /^\s*\d+[\.)]\s+/ *)
| LetteredLists     (* /^\s*[a-zA-Z][\.)]\s+/ *)
| ParenNumbers.     (* /^\s*\(\d+\)\s+/ *)

Definition listPatterns : list ListPattern :=
  [BulletPoints; NumberedLists; LetteredLists; ParenNumbers].

(** The result of a successful [line.match(pattern)]: capture group 1
    ([None] when the pattern has no group, as [match[1]] is then
    [undefined]) and the text after the match, which is what
    [line.replace(pattern, '')] leaves since every pattern is anchored. *)
Record Match : Type := mkMatch {
  group1 : option string;
  after : string
}.

(** [\s+] at the head of [s]: at least one white-space character, then all
    that follow. *)
Definition spaces1 (s : string) : option string :=
  match s with
  | String c r => if isSpace c then Some (skipWhile isSpace r) else None
  | "" => None
  end.

(** [\d+] at the head of [s]. *)
Definition digits1 (s : string) : option string :=
  match s with
  | String c r => if isDigit c then Some (skipWhile isDigit r) else None
  | "" => None
  end.

(** One character of a class at the head of [s]. *)
Definition one (p : ascii -> bool) (s : string) : option (ascii * string) :=
  match s with
  | String c r => if p c then Some (c, r) else None
  | "" => None
  end.

(** Each quantified class of these patterns is disjoint from the class that
    follows it, so the greedy choice is the only one that can succeed and
    no backtracking is lost. *)
Definition matchListPattern (p : ListPattern) (line : string) : option Match :=
  let s := skipWhile isSpace line in
  match p with
  | BulletPoints =>
      match one (oneOf "-*+") s with
      | Some (c, r) =>
          match spaces1 r with
          | Some rest => Some (mkMatch (Some (String c "")) rest)
          | None => None
          end
      | None => None
      end
  | NumberedLists =>
      match digits1 s with
      | Some r =>
          match one (oneOf ".)") r with
          | Some (_, r') =>
              match spaces1 r' with
              | Some rest => Some (mkMatch None rest)
              | None => None
              end
          | None => None
          end
      | None => None
      end
  | LetteredLists =>
      match one isAlpha s with
      | Some (_, r) =>
          match one (oneOf ".)") r with
          | Some (_, r') =>
              match spaces1 r' with
              | Some rest => Some (mkMatch None rest)
              | None => None
              end
          | None => None
          end
      | None => None
      end
  | ParenNumbers =>
      match one (oneOf "(") s with
      | Some (_, r) =>
          match digits1 r with
          | Some r' =>
              match one (oneOf ")") r' with
              | Some (_, r'') =>
                  match spaces1 r'' with
                  | Some rest => Some (mkMatch None rest)
                  | None => None
                  end
              | None => None
              end
          | None => None
          end
      | None => None
      end
  end.

(** [line.replace(pattern, '')]. *)
Definition replacePattern (p : ListPattern) (line : string) : string :=
  match matchListPattern p line with
  | Some m => after m
  | None => line
  end.

(** [/^\s*\d+[\.)]/.test(line)], the check that decides the kind. *)
Definition digitMarker (line : string) : bool :=
  match digits1 (skipWhile isSpace line) with
  | Some r =>
      match one (oneOf ".)") r with
      | Some _ => true
      | None => false
      end
  | None => false
  end.

Record ListMatch : Type := mkListMatch {
  lm_type : ListType;
  lm_pattern : ListPattern;
  lm_index : option string
}.

Fixpoint detectListTypeIn (pats : list ListPattern) (line : string)
  : option ListMatch :=
  match pats with
  | [] => None
  | p :: ps =>
      match matchListPattern p line with
      | Some m =>
          Some (mkListMatch (if digitMarker line then numbered else bullet)
                            p (group1 m))
      | None => detectListTypeIn ps line
      end
  end.

Definition detectListType (line : string) : option ListMatch :=
  detectListTypeIn listPatterns line.

(** *** Heading heuristics *)

(** [line.match(/^(#{1,6})\s+(R)/)] where [R] is the starred dot, any run
    of characters other than line terminators: the pair of
    [atxMatch[1].length] and [atxMatch[2]].  With seven or more [#], or with
    no white space after them, no shorter run of [#] helps, since the next
    character is then [#] again. *)
Definition atxMatch (line : string) : option (nat * string) :=
  let hashes := takeWhile (Ascii.eqb "#") line in
  let n := String.length hashes in
  if ((1 <=? n) && (n <=? 6))%nat then
    match spaces1 (skipWhile (Ascii.eqb "#") line) with
    | Some rest => Some (n, takeWhile (fun c => negb (isLineTerminator c)) rest)
    | None => None
    end
  else None.

(** [/^ccc+$/.test(s)] for a character [c]: three or more [c], nothing
    else. *)
Definition underline (c : ascii) (s : string) : bool :=
  (3 <=? String.length s)%nat && forallb (Ascii.eqb c) s.

(** [/^p[cls]+$/] for a literal prefix [p]. *)
Definition tagged (p : string) (cls : ascii -> bool) (s : string) : bool :=
  if startsWith p s then
    let r := drop (String.length p) s in
    negb (isEmpty r) && forallb cls r
  else false.

(** [(\s+by\s+\w+)?$] on what follows the keyword. *)
Definition byTail (r : string) : bool :=
  isEmpty r ||
  match spaces1 r with
  | Some r1 =>
      match stripPrefixCI "by" r1 with
      | Some r2 =>
          match spaces1 r2 with
          | Some r3 => negb (isEmpty r3) && forallb isWord r3
          | None => false
          end
      | None => false
      end
  | None => false
  end.

(** [\s*(flair|info|details)?$]. *)
Definition flairTail (r : string) : bool :=
  let r1 := skipWhile isSpace r in
  isEmpty r1 || existsb (fun w => equalsCI w r1) ["flair"; "info"; "details"].

(** [s?\s*(flair|info|details)?$]: with or without the optional [s]. *)
Definition roleTail (r : string) : bool :=
  flairTail r ||
  match r with
  | String c r' => eqbCI c "s" && flairTail r'
  | "" => false
  end.

(** One of the alternatives [ws], then a tail. *)
Definition keywordThen (ws : list string) (tail : string -> bool) (s : string)
  : bool :=
  existsb (fun w => match stripPrefixCI w s with
                    | Some r => tail r
                    | None => false
                    end) ws.

(** [this.metadataPatterns]: the pattern table in insertion order, each
    entry a test and a level. *)
Definition metadataPatterns : list ((string -> bool) * nat) :=
  [ (tagged "r/" isWord, 1);                 (* /^r\/[a-zA-Z0-9_]+$/ *)
    (tagged "/r/" isWord, 1);                (* /^\/r\/[a-zA-Z0-9_]+$/ *)
    (keywordThen ["About"; "Description"; "Overview"; "Rules"; "Information"]
       isEmpty, 2);
    (keywordThen ["Created"; "Members"; "Online"; "Public"; "Private";
                  "Restricted"] isEmpty, 3);
    (keywordThen ["Rank"; "Status"; "Category"; "Type"] byTail, 3);
    (keywordThen ["User"; "Moderator"; "Admin"; "Author"] roleTail, 4);
    (tagged "u/" (fun c => isWord c || Ascii.eqb c "-"), 4) ].
                                             (* /^u\/[a-zA-Z0-9_-]+$/ *)

Fixpoint firstPattern (tbl : list ((string -> bool) * nat)) (line : string)
  : option nat :=
  match tbl with
  | [] => None
  | (test, lvl) :: rest => if test line then Some lvl else firstPattern rest line
  end.

(** [/^[A-Z][a-z]/.test(word) || /^[A-Z]+$/.test(word)]. *)
Definition titleWord (word : string) : bool :=
  match word with
  | String a (String b _) => isUpper a && isLower b
  | _ => false
  end
  || (negb (isEmpty word) && forallb isUpper word).

(** [isTitleCase]: [titleCaseWords.length / words.length > 0.6].  Both
    counts are below 2^53, and 0.6 is the double nearest to 3/5, so the
    floating-point test holds exactly when [5 * k > 3 * n]. *)
Definition isTitleCase (line : string) : bool :=
  let words := split " " line in
  let titleCaseWords := filter titleWord words in
  (3 * List.length words <? 5 * List.length titleCaseWords)%nat.

Record HeadingAnalysis : Type := mkHeadingAnalysis {
  isHeading : bool;
  headingText : string;
  remainingContent : string;
  ha_level : option nat
}.

(** The Setext test of [analyzeHeading]: the level that the line after
    [index] gives, when there is one and it is an underline. *)
Definition setextLevel (lines : list string) (index : nat) : option nat :=
  if (index <? List.length lines - 1)%nat then
    let nextLine := nth (index + 1) lines "" in
    if underline "=" nextLine then Some 1%nat
    else if underline "-" nextLine then Some 2%nat
    else None
  else None.

Definition analyzeHeading (line : string) (lines : list string) (index : nat)
  : HeadingAnalysis :=
  (* Check for ATX-style headings *)
  match atxMatch line with
  | Some (n, text) => mkHeadingAnalysis true (trim text) "" (Some n)
  | None =>
      (* Check for Setext-style headings (underlines) *)
      match setextLevel lines index with
      | Some lvl => mkHeadingAnalysis true (trim line) "" (Some lvl)
      | None =>
          (* Check for pattern-based headings *)
          match firstPattern metadataPatterns line with
          | Some lvl => mkHeadingAnalysis true (trim line) "" (Some lvl)
          | None =>
              (* Check if line is in Title Case and not too long *)
              if isTitleCase line && (String.length line <? 60)%nat
              then mkHeadingAnalysis true (trim line) "" (Some 2%nat)
              else mkHeadingAnalysis false "" line None
          end
      end
  end.

(** *** The block assembler *)

(** The locals of [analyzeTextStructure] that its [forEach] callback
    mutates. *)
Record State : Type := mkState {
  blocks : list Block;
  currentBlock : option Block;
  inCodeBlock : bool;
  codeBlockContent : string
}.

Definition initialState : State := mkState [] None false "".

(** [blocks.push(b)]. *)
Definition push (bs : list Block) (b : Block) : list Block := bs ++ [b].

(** [blocks.push(currentBlock)] under [if (currentBlock)]. *)
Definition pushOpen (bs : list Block) (cur : option Block) : list Block :=
  match cur with
  | Some b => push bs b
  | None => bs
  end.

(** [trimmedLine.replace(/^>\s?/, '')] for a line that starts with [>]. *)
Definition stripQuoteMarker (s : string) : string :=
  match s with
  | String ">" r =>
      match r with
      | String c r' => if isSpace c then r' else r
      | "" => ""
      end
  | _ => s
  end.

(** The body of the [forEach] callback: one line, its index, the whole
    array.  Past the first two tests [inCodeBlock] is false, and no later
    branch assigns it. *)
Definition processLine (lines : list string) (st : State) (line : string)
  (index : nat) : State :=
  let trimmedLine := trim line in
  (* Handle code blocks *)
  if startsWith "```" trimmedLine then
    if inCodeBlock st
    then mkState (push (blocks st) (codeBlock (codeBlockContent st)))
                 (currentBlock st) false ""
    else mkState (blocks st) (currentBlock st) true (codeBlockContent st)
  else if inCodeBlock st then
    mkState (blocks st) (currentBlock st) true
            (codeBlockContent st ++ line ++ nl)
  (* Handle empty lines *)
  else if isEmpty trimmedLine then
    match currentBlock st with
    | Some b =>
        if negb (BlockType_eqb (type b) list_item)
        then mkState (push (blocks st) b) None false (codeBlockContent st)
        else st
    | None => st
    end
  (* Handle blockquotes *)
  else if startsWith ">" trimmedLine then
    let quoteContent := stripQuoteMarker trimmedLine in
    match currentBlock st with
    | Some b =>
        if BlockType_eqb (type b) quote
        then mkState (blocks st)
               (Some (mkBlock (type b) (content b ++ nl ++ quoteContent)
                              (metadata b)))
               false (codeBlockContent st)
        else mkState (push (blocks st) b) (Some (quoteBlock quoteContent))
               false (codeBlockContent st)
    | None =>
        mkState (blocks st) (Some (quoteBlock quoteContent))
                false (codeBlockContent st)
    end
  else
    (* Handle lists *)
    match detectListType line with
    | Some listMatch =>
        let '(bs, cur) :=
          match currentBlock st with
          | Some b =>
              if negb (BlockType_eqb (type b) list_item)
              then (push (blocks st) b, None)
              else (blocks st, Some b)
          | None => (blocks st, None)
          end in
        let listItemContent := trim (replacePattern (lm_pattern listMatch) line) in
        let idx :=
          match lm_type listMatch with
          | numbered =>
              Some (parseInt (match lm_index listMatch with
                              | Some "" | None => "1"
                              | Some i => i
                              end))
          | bullet => None
          end in
        mkState (push bs (listBlock listItemContent (lm_type listMatch) idx))
                cur false (codeBlockContent st)
    | None =>
        (* Handle headings *)
        let headingAnalysis := analyzeHeading trimmedLine lines index in
        if isHeading headingAnalysis then
          let bs := pushOpen (blocks st) (currentBlock st) in
          let bs' := push bs (headingBlock (headingText headingAnalysis)
                                           (ha_level headingAnalysis)) in
          if negb (isEmpty (remainingContent headingAnalysis))
          then mkState bs'
                 (Some (paragraphBlock (remainingContent headingAnalysis)))
                 false (codeBlockContent st)
          else mkState bs' None false (codeBlockContent st)
        else
          (* Handle regular paragraphs *)
          match currentBlock st with
          | None =>
              mkState (blocks st) (Some (paragraphBlock trimmedLine))
                      false (codeBlockContent st)
          | Some b =>
              if BlockType_eqb (type b) paragraph
              then mkState (blocks st)
                     (Some (mkBlock (type b) (content b ++ " " ++ trimmedLine)
                                    (metadata b)))
                     false (codeBlockContent st)
              else mkState (push (blocks st) b)
                     (Some (paragraphBlock trimmedLine))
                     false (codeBlockContent st)
          end
    end.

(** [lines.forEach((line, index) => ...)] from index [i] on. *)
Fixpoint forEachFrom (all : list string) (i : nat) (rest : list string)
  (st : State) : State :=
  match rest with
  | [] => st
  | line :: rest' => forEachFrom all (S i) rest' (processLine all st line i)
  end.

Definition analyzeTextStructure (text : string) : list Block :=
  let lines := split LF text in
  let st := forEachFrom lines 0 lines initialState in
  pushOpen (blocks st) (currentBlock st).

(** *** The renderer *)

Record RenderState : Type := mkRenderState {
  markdown : string;
  r_listType : option ListType;
  listStarted : bool
}.

Definition blockLevel (b : Block) : option nat :=
  match metadata b with Some m => level m | None => None end.
Definition blockListType (b : Block) : option ListType :=
  match metadata b with Some m => listType m | None => None end.
Definition blockListIndex (b : Block) : option number :=
  match metadata b with Some m => listIndex m | None => None end.

(** [listType !== block.metadata?.listType]: the local is [null] or a
    kind, the field [undefined] or a kind, and [null !== undefined]. *)
Definition listTypeDiffers (cur blk : option ListType) : bool :=
  match cur, blk with
  | Some a, Some b => negb (ListType_eqb a b)
  | _, _ => true
  end.

Definition renderBlock (rs : RenderState) (block : Block) : RenderState :=
  match type block with
  | heading =>
      let lvl := match blockLevel block with
                 | Some (S n) => S n
                 | _ => 1%nat
                 end in
      mkRenderState
        (markdown rs ++ JS.repeat "#" lvl ++ " " ++ content block ++ nl ++ nl)
        (r_listType rs) (listStarted rs)
  | paragraph =>
      mkRenderState (markdown rs ++ content block ++ nl ++ nl)
                    (r_listType rs) (listStarted rs)
  | list_item =>
      let lt :=
        if negb (listStarted rs)
           || listTypeDiffers (r_listType rs) (blockListType block)
        then match blockListType block with
             | Some t => Some t
             | None => Some bullet
             end
        else r_listType rs in
      let prefix :=
        match lt, blockListIndex block with
        | Some numbered, Some i =>
            if truthy i then showNumber i ++ ". " else "- "
        | _, _ => "- "
        end in
      mkRenderState (markdown rs ++ prefix ++ content block ++ nl) lt true
  | code =>
      mkRenderState
        (markdown rs ++ "```" ++ nl ++ content block ++ "```" ++ nl ++ nl)
        (r_listType rs) (listStarted rs)
  | quote =>
      mkRenderState (markdown rs ++ "> " ++ content block ++ nl ++ nl)
                    (r_listType rs) (listStarted rs)
  end.

Definition blocksToMarkdown (bs : list Block) : string :=
  trim (markdown (fold_left renderBlock bs (mkRenderState "" None false))).

Definition transform (text : string) : string :=
  blocksToMarkdown (analyzeTextStructure text).

(** A text from its lines: [lines.join("\n")]. *)
Fixpoint joinLines (ls : list string) : string :=
  match ls with
  | [] => ""
  | [l] => l
  | l :: rest => l ++ nl ++ joinLines rest
  end.

(* ===================================================================== *)
(** ** lib/documentProcessors.ts *)
(* ===================================================================== *)

Inductive ListStyle : Type := ls_bullet | ls_numbered.
Inductive ParagraphSpacing : Type := single | double.
Inductive EmphasisStyle : Type := asterisk | underscore.
Inductive CodeBlockStyle : Type := indented | fenced.

(** A JavaScript [number] that a caller supplies: NaN, an infinity, or a
    finite value.  Every finite double is a rational, and on finite values
    the two operations applied to [headingDepth] ([Math.min] and the
    integer conversion of [repeat]) are exact, so a finite value is a [Q];
    the two zeros are one value, which both operations treat alike. *)
Inductive Float64 : Type :=
| NotANumber
| Infinite (negative : bool)
| Finite (q : Q).

(** An integer as a [number]. *)
Definition int (z : Z) : Float64 := Finite (inject_Z z).

(** [Math.min(a, b)]. *)
Definition mathMin (a b : Float64) : Float64 :=
  match a, b with
  | NotANumber, _ => NotANumber
  | _, NotANumber => NotANumber
  | Infinite true, _ => Infinite true
  | _, Infinite true => Infinite true
  | Infinite false, _ => b
  | _, Infinite false => a
  | Finite p, Finite q => if Qle_bool p q then a else b
  end.

(** The integer conversion of a finite count: the fraction is dropped,
    towards zero. *)
Definition truncate (q : Q) : Z :=
  if Qle_bool 0 q then Qfloor q else Qceiling q.

(** [StructureConfig].  [headingDepth] is a [number]; the four string
    unions admit no value besides their members. *)
Record StructureConfig : Type := mkConfig {
  headingDepth : Float64;
  listStyle : ListStyle;
  paragraphSpacing : ParagraphSpacing;
  emphasisStyle : EmphasisStyle;
  codeBlockStyle : CodeBlockStyle
}.

(** What a call can end in: a value, or a thrown exception.  The only
    [throw] reachable from [processDocument] is the [RangeError] of
    [String.prototype.repeat] on a negative or infinite count. *)
Inductive Exception : Type := RangeError.

Inductive Outcome (A : Type) : Type :=
| Returned (a : A)
| Thrown (e : Exception).
Arguments Returned {A} a.
Arguments Thrown {A} e.

Definition bind {A B : Type} (m : Outcome A) (k : A -> Outcome B) : Outcome B :=
  match m with
  | Returned a => k a
  | Thrown e => Thrown e
  end.

Notation "x <- m ;; k" := (bind m (fun x => k))
  (at level 61, m at next level, right associativity).

(** [c.repeat(count)]: the count is converted to an integer (NaN counts
    as 0, a fraction is dropped); a negative or an infinite count throws.
    So does a count too large for a string; behind [Math.min(_, 3)] the
    count is 3 at most. *)
Definition repeatCount (c : ascii) (count : Float64) : Outcome string :=
  match count with
  | NotANumber => Returned ""
  | Infinite _ => Thrown RangeError
  | Finite q =>
      if (truncate q <? 0)%Z then Thrown RangeError
      else Returned (JS.repeat c (Z.to_nat (truncate q)))
  end.

(** [[^.!?]*[:.\n]] scanned from the head of [s]: the star runs up to the
    first of [.], [!], [?]; the closing class matches at the first [:],
    [.] or line feed, which must come no later than that. *)
Fixpoint scanHeader (s : string) : bool :=
  match s with
  | "" => false
  | String c r =>
      if oneOf ":." c || Ascii.eqb c LF then true
      else if oneOf "!?" c then false
      else scanHeader r
  end.

(** [/^[A-Z][^.!?]*[:.\n]/.test(s)]. *)
Definition headerTest (s : string) : bool :=
  match s with
  | String c r => isUpper c && scanHeader r
  | "" => false
  end.

(** The lookahead [(?=\n[A-Z][^.!?]*[:.\n])] at the head of [s]. *)
Definition headerAhead (s : string) : bool :=
  match s with
  | String c r => Ascii.eqb c LF && headerTest r
  | "" => false
  end.

Definition consHead (c : ascii) (pieces : list string) : list string :=
  match pieces with
  | [] => [String c ""]
  | w :: ws => String c w :: ws
  end.

(** The pieces of [s] when [s] starts at a position after the first: a
    zero-width match ends the running piece. *)
Fixpoint splitInside (s : string) : list string :=
  match s with
  | "" => [""]
  | String c r =>
      if headerAhead s then "" :: consHead c (splitInside r)
      else consHead c (splitInside r)
  end.

(** [text.split(/(?=\n[A-Z][^.!?]*[:.\n])/g)]: a cut before every line
    feed that the lookahead accepts, never at position 0. *)
Definition splitSections (text : string) : list string :=
  match text with
  | "" => [""]
  | String c r => consHead c (splitInside r)
  end.

(** A match of [d([^ch]+)d] at the head of [s], where the delimiter [d]
    is made of the character [ch]: the captured run. *)
Definition matchDelimited (d : string) (ch : ascii) (s : string)
  : option string :=
  if startsWith d s then
    let r := drop (String.length d) s in
    let x := takeWhile (fun c => negb (Ascii.eqb c ch)) r in
    if negb (isEmpty x) && startsWith d (drop (String.length x) r)
    then Some x else None
  else None.

(** [s.replace(/d([^ch]+)d/g, o + '$1' + o)].  [skip] counts the characters
    of [s] that the previous match still covers. *)
Fixpoint replaceFrom (d : string) (ch : ascii) (o : string) (skip : nat)
  (s : string) : string :=
  match s with
  | "" => ""
  | String c r =>
      match skip with
      | S k => replaceFrom d ch o k r
      | O =>
          match matchDelimited d ch s with
          | Some x =>
              o ++ x ++ o
                ++ replaceFrom d ch o
                     (String.length d + String.length x + String.length d - 1) r
          | None => String c (replaceFrom d ch o 0 r)
          end
      end
  end.

Definition replaceDelimited (d : string) (ch : ascii) (o : string)
  (s : string) : string := replaceFrom d ch o 0 s.

(** The emphasis step of the line loop. *)
Definition convertEmphasis (style : EmphasisStyle) (line : string) : string :=
  match style with
  | asterisk =>
      let line := replaceDelimited "_" "_" "*" line in
      replaceDelimited "__" "_" "**" line
  | underscore =>
      let line := replaceDelimited "*" "*" "_" line in
      replaceDelimited "**" "*" "__" line
  end.

(** [/^\d+\./]: [Some rest] with what follows the match. *)
Definition numberDot (line : string) : option string :=
  match digits1 line with
  | Some (String "." r) => Some r
  | _ => None
  end.

(** [/^[-*•]/]; the bullet character U+2022 lies outside the modelled
    range. *)
Definition bulletHead (line : string) : option string :=
  match one (oneOf "-*") line with
  | Some (_, r) => Some r
  | None => None
  end.

(** [/^( {4}|\t)/]. *)
Definition indentHead (line : string) : option string :=
  match line with
  | String " " (String " " (String " " (String " " r))) => Some r
  | String c r => if Ascii.eqb c TAB then Some r else None
  | "" => None
  end.

Definition isSome {A : Type} (o : option A) : bool :=
  match o with Some _ => true | None => false end.

Definition fenceLine : string := "```" ++ nl.

(** The locals that the inner [forEach] of [processDocument] mutates. *)
Record DocState : Type := mkDocState {
  d_markdown : string;
  currentParagraph : string
}.

Definition rewriteLine (config : StructureConfig) (st : DocState)
  (rawLine : string) : DocState :=
  let line := trim rawLine in
  let markdown := d_markdown st in
  (* Convert lists *)
  let line :=
    match numberDot line with
    | Some rest =>
        match listStyle config with
        | ls_bullet => "* " ++ trim rest
        | ls_numbered => line
        end
    | None =>
        match bulletHead line with
        | Some rest =>
            match listStyle config with
            | ls_numbered =>
                let listNumber :=
                  (List.length (filter (fun l => isSome (numberDot l))
                                       (split LF markdown)) + 1)%nat in
                showZ (Z.of_nat listNumber) ++ ". " ++ trim rest
            | ls_bullet => line
            end
        | None => line
        end
    end in
  (* Convert emphasis *)
  let line := convertEmphasis (emphasisStyle config) line in
  (* Handle code blocks *)
  let '(markdown, line) :=
    match indentHead line with
    | Some rest =>
        match codeBlockStyle config with
        | fenced =>
            (if negb (endsWith fenceLine markdown)
             then markdown ++ fenceLine else markdown, rest)
        | indented => (markdown, line)
        end
    | None =>
        match codeBlockStyle config with
        | fenced =>
            if endsWith fenceLine markdown
            then (markdown ++ fenceLine ++ nl, line)
            else (markdown, line)
        | indented => (markdown, line)
        end
    end in
  (* Add to current paragraph or create new one *)
  if isEmpty line then
    if negb (isEmpty (currentParagraph st)) then
      mkDocState
        (markdown ++ currentParagraph st ++ nl
           ++ match paragraphSpacing config with double => nl | single => "" end)
        ""
    else mkDocState markdown (currentParagraph st)
  else
    mkDocState markdown
      (currentParagraph st
         ++ (if negb (isEmpty (currentParagraph st)) then " " else "") ++ line).

(** The body of the outer [forEach]: one section appended to [markdown]. *)
Definition processSection (config : StructureConfig) (markdown : string)
  (section : string) : Outcome string :=
  let lines := split LF (trim section) in
  let currentLine := hd "" lines in
  (* Detect and convert headers *)
  afterHeader <-
    (if headerTest currentLine then
       hashes <- repeatCount "#" (mathMin (headingDepth config) (int 3)) ;;
       Returned (markdown ++ hashes ++ " " ++ trim currentLine ++ nl ++ nl,
                 tl lines)
     else Returned (markdown, lines)) ;;
  let '(markdown, lines) := afterHeader in
  (* Process remaining content *)
  let st := fold_left (rewriteLine config) lines (mkDocState markdown "") in
  (* Add final paragraph *)
  Returned
    (if negb (isEmpty (currentParagraph st))
     then d_markdown st ++ currentParagraph st ++ nl ++ nl
     else d_markdown st).

Fixpoint processSections (config : StructureConfig) (markdown : string)
  (sections : list string) : Outcome string :=
  match sections with
  | [] => Returned markdown
  | section :: rest =>
      markdown' <- processSection config markdown section ;;
      processSections config markdown' rest
  end.

Definition processDocument (text : string) (config : StructureConfig)
  : Outcome string :=
  markdown <- processSections config "" (splitSections text) ;;
  Returned (trim markdown).

(** *** validateMarkdown *)

(** [#{1,6} [^\n]+] at a line start. *)
Definition headerAt (s : string) : bool :=
  let n := String.length (takeWhile (Ascii.eqb "#") s) in
  ((1 <=? n) && (n <=? 6))%nat &&
  match skipWhile (Ascii.eqb "#") s with
  | String " " (String c _) => negb (Ascii.eqb c LF)
  | _ => false
  end.

(** [/^#{1,6} [^\n]+/m.test(s)]: under the [m] flag [^] holds at the start
    and after every line terminator. *)
Fixpoint headerSomewhere (atLineStart : bool) (s : string) : bool :=
  match s with
  | "" => false
  | String c r =>
      (atLineStart && headerAt s) || headerSomewhere (isLineTerminator c) r
  end.

Fixpoint countChar (ch : ascii) (s : string) : nat :=
  match s with
  | "" => 0
  | String c r => (if Ascii.eqb c ch then 1 else 0) + countChar ch r
  end.

(** [(s.match(/```/g) || []).length]: matches do not overlap. *)
Fixpoint countFences (s : string) : nat :=
  match s with
  | String "`" (String "`" (String "`" r)) => S (countFences r)
  | String _ r => countFences r
  | "" => 0
  end.

Definition validateMarkdown (markdown : string) : bool :=
  let hasValidHeaders := headerSomewhere true markdown in
  let hasBalancedEmphasis := Nat.even (countChar "*" markdown) in
  let hasBalancedCodeBlocks := Nat.even (countFences markdown) in
  hasValidHeaders && hasBalancedEmphasis && hasBalancedCodeBlocks.

(* ===================================================================== *)
(** ** app/api/convert/route.ts *)
(* ===================================================================== *)

(** [validateAndCorrect], the helper that the route applies to the answer
    of the text-generation service.  Its local [patterns] is computed and
    never read, so it is left out. *)

(** [\s*\n] after the first line feed of [/\n\s*\n/]: the star is greedy
    and backs off to the last line feed of the run of white space; what
    follows that line feed. *)
Fixpoint lastLineFeed (r : string) : option string :=
  match r with
  | String c r' =>
      if isSpace c then
        match lastLineFeed r' with
        | Some rest => Some rest
        | None => if Ascii.eqb c LF then Some r' else None
        end
      else None
  | "" => None
  end.

(** A match of [/\n\s*\n/] at the head of [s]: what follows it. *)
Definition blankLine (s : string) : option string :=
  match s with
  | String c r => if Ascii.eqb c LF then lastLineFeed r else None
  | "" => None
  end.

(** [s.split(/\n\s*\n/)].  [skip] counts the characters of [s] that the
    previous match still covers.  The pattern matches no empty string, so
    the result is never empty. *)
Fixpoint splitBlank (skip : nat) (s : string) : list string :=
  match s with
  | "" => [""]
  | String c r =>
      match skip with
      | S k => splitBlank k r
      | O =>
          match blankLine s with
          | Some rest =>
              "" :: splitBlank (String.length r - String.length rest) r
          | None => consHead c (splitBlank 0 r)
          end
      end
  end.

(** [text.split(/\n\s*\n/).map(p => p.trim())]. *)
Definition paragraphsOf (text : string) : list string :=
  map trim (splitBlank 0 text).

(** The class [[#*_`\-\d.]]. *)
Definition isMarkup (c : ascii) : bool := oneOf "#*_`-." c || isDigit c.

(** [s.replace(/[cls]/g, '')]. *)
Fixpoint removeAll (cls : ascii -> bool) (s : string) : string :=
  match s with
  | "" => ""
  | String c r => if cls c then removeAll cls r else String c (removeAll cls r)
  end.

(** [p.replace(/[#*_`\-\d.]/g, '').trim()]. *)
Definition stripMarkup (p : string) : string := trim (removeAll isMarkup p).

(** [hay.includes(needle)]. *)
Fixpoint includes (needle hay : string) : bool :=
  startsWith needle hay ||
  match hay with
  | String _ r => includes needle r
  | "" => false
  end.

(** [.*[:.]\s*$] on what follows the first character: some [:] or [.]
    with no line terminator before it and only white space after it. *)
Fixpoint headerTail (r : string) : bool :=
  match r with
  | "" => false
  | String c r' =>
      (oneOf ":." c && forallb isSpace r')
      || (negb (isLineTerminator c) && headerTail r')
  end.

(** [/^[A-Z].*[:.]\s*$/.test(s)]. *)
Definition looksLikeHeader (s : string) : bool :=
  match s with
  | String c r => isUpper c && headerTail r
  | "" => false
  end.

(** The branch for a paragraph without a counterpart: a header mark, then
    a bullet mark.  Of the class [[-•]] only [-] lies in the modelled
    range: a paragraph that starts with U+2022 is no string of the model,
    and what is proved of this branch is stated so that it reads the same
    with either marker. *)
Definition basicMarkdown (originalParagraph : string) : string :=
  let corrected :=
    if looksLikeHeader originalParagraph
    then "## " ++ originalParagraph else originalParagraph in
  match corrected with
  | String "-" (String c r) => if isSpace c then "* " ++ r else corrected
  | _ => corrected
  end.

(** The callback of [originalParagraphs.map].  The paragraph that [find]
    returns is tested for truthiness, and the empty string is falsy. *)
Definition correctParagraph (formattedParagraphs : list string)
  (originalParagraph : string) : string :=
  match find (fun fp => includes (stripMarkup originalParagraph)
                                 (stripMarkup fp))
             formattedParagraphs with
  | Some formattedParagraph =>
      if negb (isEmpty formattedParagraph) then formattedParagraph
      else basicMarkdown originalParagraph
  | None => basicMarkdown originalParagraph
  end.

Definition validateAndCorrect (original formatted : string) : string :=
  let originalParagraphs := paragraphsOf original in
  let formattedParagraphs := paragraphsOf formatted in
  String.concat (nl ++ nl)
    (map (correctParagraph formattedParagraphs) originalParagraphs).

(* ===================================================================== *)
(** ** Vocabulary of the statements *)
(* ===================================================================== *)

(** *** Characters and lines *)

(** Every character of the modelled range. *)
Definition allAscii : list ascii := map ascii_of_nat (seq 0 256).

(** No character of [s] is [ch]. *)
Definition lacks (ch : ascii) (s : string) : Prop :=
  forallb (fun c => negb (Ascii.eqb c ch)) s = true.

(** [s] holds no line feed: it is one line of a text. *)
Definition noLF (s : string) : Prop :=
  forallb (fun c => negb (Ascii.eqb c LF)) s = true.

(** Lines, each followed by a line feed. *)
Fixpoint concatNl (ls : list string) : string :=
  match ls with
  | [] => ""
  | l :: rest => l ++ nl ++ concatNl rest
  end.

(** One non-empty line without surrounding white space and without a line
    terminator inside. *)
Definition cleanLine (c : string) : Prop :=
  c <> "" /\ trim c = c /\
  forallb (fun ch => negb (isLineTerminator ch)) c = true.

(** Whether the position after [pre] is a line start under the [m] flag,
    [b] telling whether the position before [pre] is one. *)
Fixpoint endsLine (b : bool) (pre : string) : bool :=
  match pre with
  | "" => b
  | String c r => endsLine (isLineTerminator c) r
  end.

(** *** The classifier *)

(** A line that toggles code mode: [trimmedLine.startsWith('```')]. *)
Definition isFenceLine (line : string) : bool :=
  startsWith "```" (trim line).

Definition fenceLines (text : string) : list string :=
  filter isFenceLine (split LF text).

(** A line that gets as far as the heading analysis outside code mode:
    not a fence, not blank, not a quote, not a list item. *)
Definition reachesHeading (line : string) : Prop :=
  startsWith "```" (trim line) = false /\
  isEmpty (trim line) = false /\
  startsWith ">" (trim line) = false /\
  detectListType line = None.

(** A line that the classifier takes for plain text when a blank line
    follows it. *)
Definition plainText (c : string) : Prop :=
  startsWith "```" c = false /\
  startsWith ">" c = false /\
  detectListType c = None /\
  atxMatch c = None /\
  firstPattern metadataPatterns c = None /\
  isTitleCase c && (String.length c <? 60)%nat = false.

(** A capitalized word as the specification words it: the first letter
    upper case, the rest lower case. *)
Definition capitalizedWord (w : string) : bool :=
  match w with
  | String a r => isUpper a && forallb isLower r
  | "" => false
  end.

Definition allUppercaseWord (w : string) : bool :=
  negb (isEmpty w) && forallb isUpper w.

(** More than 60% of the space-separated words of [line] are capitalized
    or all upper case. *)
Definition mostlyCapitalized (line : string) : Prop :=
  let words := split " " line in
  (3 * List.length words
     < 5 * List.length
           (filter (fun w => capitalizedWord w || allUppercaseWord w) words))%nat.

(** *** States of the assembler *)

(** The state after the first [n] lines of [text]. *)
Definition stateAfter (text : string) (n : nat) : State :=
  let lines := split LF text in
  forEachFrom lines 0 (firstn n lines) initialState.

(** The state between two blocks: nothing open, not in code mode. *)
Definition betweenBlocks (bs : list Block) : State := mkState bs None false "".

(** The kinds that the open slot [currentBlock] may hold. *)
Definition openKind (cur : option Block) : Prop :=
  match cur with
  | None => True
  | Some b => type b = paragraph \/ type b = quote
  end.

(** A property of the open block, when there is one. *)
Definition openSatisfies (P : Block -> Prop) (cur : option Block) : Prop :=
  match cur with
  | None => True
  | Some b => P b
  end.

(** Every finished block and the open block satisfy [P]. *)
Definition stateSatisfies (P : Block -> Prop) (st : State) : Prop :=
  Forall P (blocks st) /\ openSatisfies P (currentBlock st).

(** A numbered list item carries the index 1. *)
Definition indexIsOne (b : Block) : Prop :=
  blockListType b = Some numbered -> blockListIndex b = Some (Num 1).

Definition noCode (bs : list Block) : Prop :=
  Forall (fun b => type b <> code) bs.

(** The value of the flag [inCodeBlock]. *)
Definition codeFlagIs (v : bool) (st : State) : Prop := inCodeBlock st = v.

(** *** Rendered text *)




(** The blocks that the renderer prints in a form the analysis reads back
    unchanged. *)
Inductive stableBlock : Block -> Prop :=
| stable_heading (lvl : nat) (c : string) :
    (1 <= lvl <= 6)%nat -> cleanLine c ->
    stableBlock (headingBlock c (Some lvl))
| stable_paragraph (c : string) :
    cleanLine c -> plainText c ->
    stableBlock (paragraphBlock c)
| stable_bullet (c : string) :
    cleanLine c ->
    stableBlock (listBlock c bullet None)
| stable_numbered (c : string) :
    cleanLine c ->
    stableBlock (listBlock c numbered (Some (Num 1)))
| stable_code (ls : list string) :
    Forall (fun l => noLF l /\ isFenceLine l = false) ls ->
    stableBlock (codeBlock (concatNl ls))
| stable_quote (c : string) :
    c <> "" -> trimEnd c = c -> noLF c ->
    stableBlock (quoteBlock c).

(** The marker that the renderer puts before a list item. *)
Definition listPrefix (b : Block) : string :=
  match blockListType b, blockListIndex b with
  | Some numbered, Some i => if truthy i then showNumber i ++ ". " else "- "
  | _, _ => "- "
  end.

(** The lines that the renderer prints for a block. *)
Definition blockLines (b : Block) : list string :=
  match type b with
  | heading =>
      [ JS.repeat "#" (match blockLevel b with Some (S n) => S n | _ => 1%nat end)
          ++ " " ++ content b; "" ]
  | paragraph => [ content b; "" ]
  | list_item => [ listPrefix b ++ content b ]
  | code => ("```" :: removelast (split LF (content b)) ++ [ "```"; "" ])%list
  | quote => [ "> " ++ content b; "" ]
  end.

(** *** The rewriter *)

(** [{ ...config, headingDepth: d }]. *)
Definition withDepth (d : Float64) (config : StructureConfig) : StructureConfig :=
  mkConfig d (listStyle config) (paragraphSpacing config)
           (emphasisStyle config) (codeBlockStyle config).

(** *** Blocks of an analysis *)

(** A non-empty text without white space at either end. *)
Definition trimmedText (c : string) : Prop := c <> "" /\ trim c = c.

(** What a block of each kind carries. *)
Definition wellFormed (b : Block) : Prop :=
  match type b with
  | heading =>
      (exists n, metadata b = Some (mkMetadata (Some n) None None)
                 /\ (1 <= n <= 6)%nat)
      /\ trimmedText (content b)
  | paragraph => metadata b = None /\ trimmedText (content b)
  | list_item =>
      (exists t i, metadata b = Some (mkMetadata None (Some t) i))
      /\ trim (content b) = content b
  | code | quote => metadata b = None
  end.

(** Whether a block is a code block. *)
Definition isCode (b : Block) : bool := BlockType_eqb (type b) code.

(** The number of code blocks among the finished blocks. *)
Definition codeCountIs (n : nat) (st : State) : Prop :=
  List.length (filter isCode (blocks st)) = n.

(** *** Running text and quotes *)

(** A line of running text: outside code mode the classifier takes it for
    neither a fence, a blank line, a quote, a list item nor a heading, and
    it underlines no line before it. *)
Definition proseLine (line : string) : Prop :=
  noLF line /\ reachesHeading line /\
  atxMatch (trim line) = None /\
  firstPattern metadataPatterns (trim line) = None /\
  isTitleCase (trim line) && (String.length (trim line) <? 60)%nat = false /\
  underline "=" line = false /\ underline "-" line = false.

(** The text that a paragraph gathers: each further line after a space. *)
Definition mergeLines (first : string) (more : list string) : string :=
  fold_left (fun acc l => acc ++ " " ++ l) more first.

(** The text that a quote gathers: each further line after a line feed. *)
Definition mergeQuote (first : string) (more : list string) : string :=
  fold_left (fun acc l => acc ++ nl ++ l) more first.

(** The lines of groups of lines, with one blank line between two
    groups. *)
Fixpoint paragraphLines (groups : list (list string)) : list string :=
  match groups with
  | [] => []
  | [g] => g
  | g :: rest => (g ++ "" :: paragraphLines rest)%list
  end.

(** The paragraph that the lines of one group merge into. *)
Definition groupParagraph (g : list string) : Block :=
  paragraphBlock (mergeLines (trim (hd "" g)) (map trim (tl g))).

(** A group of running text: one line of it at least. *)
Definition proseGroup (g : list string) : Prop :=
  g <> [] /\ Forall proseLine g.

(** A word: no white space in it. *)
Definition oneWord (w : string) : Prop :=
  forallb (fun c => negb (isSpace c)) w = true.

(** *** List lines *)

(** The markers that the four list patterns accept, each with the kind
    that the digit check gives it. *)
Inductive listMarker : string -> ListType -> Prop :=
| marker_bullet (m : ascii) :
    oneOf "-*+" m = true ->
    listMarker (String m "") bullet
| marker_number (d : string) (p : ascii) :
    d <> "" -> forallb isDigit d = true -> oneOf ".)" p = true ->
    listMarker (d ++ String p "") numbered
| marker_letter (a p : ascii) :
    isAlpha a = true -> oneOf ".)" p = true ->
    listMarker (String a (String p "")) bullet
| marker_paren (d : string) :
    d <> "" -> forallb isDigit d = true ->
    listMarker ("(" ++ d ++ ")") bullet.

(** A list line as written: a marker, a space, the text. *)
Record ListLine : Type := mkListLine {
  ll_marker : string;
  ll_type : ListType;
  ll_text : string
}.

Definition goodItem (it : ListLine) : Prop :=
  listMarker (ll_marker it) (ll_type it) /\ cleanLine (ll_text it).

Definition writtenItem (it : ListLine) : string :=
  ll_marker it ++ " " ++ ll_text it.

(** The marker that the renderer prints for an item of an analysis. *)
Definition canonicalMarker (t : ListType) : string :=
  match t with
  | bullet => "- "
  | numbered => "1. "
  end.

Definition normalItem (it : ListLine) : string :=
  canonicalMarker (ll_type it) ++ ll_text it.

(** The block that the analysis makes of a list line. *)
Definition itemBlock (it : ListLine) : Block :=
  listBlock (ll_text it) (ll_type it)
            match ll_type it with
            | numbered => Some (Num 1)
            | bullet => None
            end.

(** The class of the first visible character that each list pattern
    asks for. *)
Definition markerClass (p : ListPattern) (c : ascii) : bool :=
  match p with
  | BulletPoints => oneOf "-*+" c
  | NumberedLists => isDigit c
  | LetteredLists => isAlpha c
  | ParenNumbers => oneOf "(" c
  end.

(** *** Sections *)

(** The test that [processDocument] applies to the first line of a
    section. *)
Definition sectionHasHeader (section : string) : bool :=
  headerTest (hd "" (split LF (trim section))).

(** A section cut off by the lookahead starts with a line feed and an upper
    case letter. *)
Definition startsHeaderLine (s : string) : Prop :=
  exists c r, s = String LF (String c r) /\ isUpper c = true.

(** *** Lines of the rewriter *)

(** [{ ...config, codeBlockStyle: s }]. *)
Definition withCodeBlockStyle (s : CodeBlockStyle) (config : StructureConfig)
  : StructureConfig :=
  mkConfig (headingDepth config) (listStyle config) (paragraphSpacing config)
           (emphasisStyle config) s.

(** The line as the code-block step of [rewriteLine] meets it: trimmed,
    then through the list step and the emphasis step. *)
Definition rewrittenLine (config : StructureConfig) (markdown rawLine : string)
  : string :=
  let line := trim rawLine in
  let line :=
    match numberDot line with
    | Some rest =>
        match listStyle config with
        | ls_bullet => "* " ++ trim rest
        | ls_numbered => line
        end
    | None =>
        match bulletHead line with
        | Some rest =>
            match listStyle config with
            | ls_numbered =>
                let listNumber :=
                  (List.length (filter (fun l => isSome (numberDot l))
                                       (split LF markdown)) + 1)%nat in
                showZ (Z.of_nat listNumber) ++ ". " ++ trim rest
            | ls_bullet => line
            end
        | None => line
        end
    end in
  convertEmphasis (emphasisStyle config) line.

(** A text that is empty or starts with a character that is not white
    space. *)
Definition visibleHead (s : string) : Prop :=
  match s with
  | "" => True
  | String c _ => isSpace c = false
  end.

(** No back-tick in the written text nor in the open paragraph. *)
Definition noBacktick (st : DocState) : Prop :=
  lacks "`" (d_markdown st) /\ lacks "`" (currentParagraph st).

(** A text of plain words: not empty, trimmed, one line, without
    back-ticks, underscores and asterisks. *)
Definition plainWords (x : string) : Prop :=
  x <> "" /\ trim x = x /\ noLF x /\
  lacks "`" x /\ lacks "_" x /\ lacks "*" x.

(** A paragraph of one line that the rewriter takes for running text:
    plain words that start with no list marker and no upper case letter. *)
Definition plainInput (p : string) : Prop :=
  plainWords p /\ numberDot p = None /\ bulletHead p = None /\
  match p with
  | String c _ => isUpper c = false
  | "" => True
  end.

(** What [paragraphSpacing] adds after the line feed that ends a
    paragraph. *)
Definition spacing (config : StructureConfig) : string :=
  match paragraphSpacing config with
  | double => nl
  | single => ""
  end.

(** The written text once blank lines have ended the paragraphs [ps]. *)
Definition flushed (config : StructureConfig) (markdown : string)
  (ps : list string) : string :=
  fold_left (fun acc p => acc ++ p ++ nl ++ spacing config) ps markdown.

(** A line of a paragraph of the rewriter: trimmed, not empty, one line,
    starting with no upper case letter. *)
Definition paragraphLine (l : string) : Prop :=
  trimmedText l /\ noLF l /\
  match l with
  | String c _ => isUpper c = false
  | "" => True
  end.

(** *** The renderer *)

(** What the renderer appends for a block when nothing precedes it. *)
Definition printed (b : Block) : string :=
  markdown (renderBlock (mkRenderState "" None false) b).

(** *** Lines and the blocks they complete *)

(** Line [n] of [text], counted from 0. *)
Definition lineAt (text : string) (n : nat) : string :=
  nth n (split LF text) "".

(** The list item made from a line that [detectListType] matched. *)
Definition listItemOf (lm : ListMatch) (line : string) : Block :=
  listBlock (trim (replacePattern (lm_pattern lm) line))
            (lm_type lm)
            match lm_type lm with
            | numbered =>
                Some (parseInt match lm_index lm with
                               | Some "" | None => "1"
                               | Some i => i
                               end)
            | bullet => None
            end.

(** The heading made from the analysis of a line. *)
Definition headingOf (ha : HeadingAnalysis) : Block :=
  headingBlock (headingText ha) (ha_level ha).

(** The analysis of line [n] of [text]. *)
Definition headingAt (text : string) (n : nat) : HeadingAnalysis :=
  analyzeHeading (trim (lineAt text n)) (split LF text) n.

(** *** Paragraphs of the correction *)

(** A paragraph without its leading list marker:
    [p.replace(/^[-•]\s/, '')]. *)
Definition withoutBullet (p : string) : string :=
  match p with
  | String "-" (String c r) => if isSpace c then r else p
  | _ => p
  end.

(** *** Markers through the transformer *)













(** *** Header lines of the rewriter *)

(** The depths on which the [repeat] of the header step throws: minus
    infinity and every finite depth of -1 or less.  Above -1 the integer
    conversion gives 0 or more; NaN counts as 0; plus infinity is capped
    at 3 by [Math.min]. *)
Definition depthThrows (d : Float64) : bool :=
  match d with
  | NotANumber => false
  | Infinite negative => negative
  | Finite q => Qle_bool q (inject_Z (-1))
  end.

(** The level of the headers written for a finite depth: the depth without
    its fraction, capped at 3. *)
Definition headerLevel (q : Q) : nat := Z.to_nat (Z.min (truncate q) 3).

(** The header line written for a section. *)
Definition headerLineOf (level : nat) (section : string) : string :=
  JS.repeat "#" level ++ " " ++ trim (hd "" (split LF (trim section))).

(** *** Inputs of the examples *)

(** A configuration whose heading depth lies outside 1..6. *)
Definition depthNine : StructureConfig :=
  mkConfig (int 9) ls_bullet single asterisk fenced.

(** A heading, a list item and a code block, with asterisks in each. *)
Definition fencedAndStarred : string :=
  "# T *x*" ++ nl ++ "- a **b**" ++ nl ++ "```js" ++ nl
  ++ "y = 2 * 3 * 4" ++ nl ++ "```".

(** A title of 59 characters followed by two spaces. *)
Definition paddedTitle : string :=
  "Alpha Beta Gamma Delta Epsilon Zeta Eta Theta Iota Kappa Mu  ".


(** A quote of two lines. *)
Definition twoLineQuote : string := "> a" ++ nl ++ "> b".

(** A text with one block of every kind. *)
Definition sampleDocument : string :=
  "# Title" ++ nl ++ nl ++ "some text here" ++ nl ++ "- item" ++ nl
  ++ "1. one" ++ nl ++ "```" ++ nl ++ "code" ++ nl ++ "```" ++ nl ++ "> quote".

(** *** Tactics *)

(** Case analysis on any test that occurs in the goal. *)
Ltac break_match :=
  match goal with
  | |- context [if ?c then _ else _] => destruct c eqn:?
  | |- context [match ?x with _ => _ end] => destruct x eqn:?
  end.

Ltac break_all := repeat (break_match; simpl in *).

(** Case analysis in program order: the test at the head of the state
    expression, innermost scrutinee first. *)
Ltac scrutinee x :=
  lazymatch x with
  | (if ?c then _ else _) => scrutinee c
  | (match ?y with _ => _ end) => scrutinee y
  | _ => destruct x eqn:?
  end.

Ltac head_case :=
  lazymatch goal with
  | |- _ (if ?c then _ else _) => scrutinee c
  | |- _ (match ?x with _ => _ end) => scrutinee x
  end; cbv beta iota zeta.

(* ===================================================================== *)
(** ** The matchers on sample inputs *)
(* ===================================================================== *)

Example trim_sample :
  trim (String TAB "  a b  " ++ nl) = "a b" /\ trim "   " = "".
Proof. split; reflexivity. Qed.

Example split_sample :
  split LF ("a" ++ nl ++ nl ++ "b" ++ nl) = ["a"; ""; "b"; ""] /\
  split " " "a b  c" = ["a"; "b"; ""; "c"] /\
  split LF "" = [""].
Proof. repeat split; reflexivity. Qed.

Example listPattern_samples :
  matchListPattern BulletPoints "  * item" = Some (mkMatch (Some "*") "item") /\
  matchListPattern BulletPoints "*item" = None /\
  matchListPattern NumberedLists "12) item" = Some (mkMatch None "item") /\
  matchListPattern NumberedLists "12 item" = None /\
  matchListPattern LetteredLists "a. item" = Some (mkMatch None "item") /\
  matchListPattern LetteredLists "ab. item" = None /\
  matchListPattern ParenNumbers "(3)  item" = Some (mkMatch None "item") /\
  matchListPattern ParenNumbers "(a) item" = None.
Proof. repeat split; reflexivity. Qed.

Example digitMarker_samples :
  digitMarker " 7.x" = true /\ digitMarker "7 x" = false /\
  digitMarker "a) x" = false.
Proof. repeat split; reflexivity. Qed.

Example atxMatch_samples :
  atxMatch "## Hi there" = Some (2%nat, "Hi there") /\
  atxMatch ("#" ++ String TAB "t") = Some (1%nat, "t") /\
  atxMatch ("# a" ++ String CR "b") = Some (1%nat, "a") /\
  atxMatch "####### x" = None /\
  atxMatch "#x" = None.
Proof. repeat split; reflexivity. Qed.

Example underline_samples :
  underline "=" "===" = true /\ underline "=" "==" = false /\
  underline "-" "-----" = true /\ underline "=" "=== " = false.
Proof. repeat split; reflexivity. Qed.

Example metadataPatterns_samples :
  firstPattern metadataPatterns "r/rocq_lang" = Some 1%nat /\
  firstPattern metadataPatterns "/r/abc" = Some 1%nat /\
  firstPattern metadataPatterns "r/" = None /\
  firstPattern metadataPatterns "about" = Some 2%nat /\
  firstPattern metadataPatterns "About us" = None /\
  firstPattern metadataPatterns "MEMBERS" = Some 3%nat /\
  firstPattern metadataPatterns "Type by name" = Some 3%nat /\
  firstPattern metadataPatterns "Type by" = None /\
  firstPattern metadataPatterns "Admins Info" = Some 4%nat /\
  firstPattern metadataPatterns "moderatordetails" = Some 4%nat /\
  firstPattern metadataPatterns "u/some-one" = Some 4%nat.
Proof. repeat split; reflexivity. Qed.

Example isTitleCase_samples :
  titleWord "Hello" = true /\ titleWord "NASA" = true /\
  titleWord "A" = true /\ titleWord "hello" = false /\
  titleWord "H2" = false /\
  isTitleCase "Hello World foo" = true /\
  isTitleCase "A B c d e" = false /\
  isTitleCase "One Two Three four five" = false.
Proof. repeat split; reflexivity. Qed.

Example stripQuoteMarker_samples :
  stripQuoteMarker "> a" = "a" /\ stripQuoteMarker ">a" = "a" /\
  stripQuoteMarker ">  a" = " a" /\ stripQuoteMarker ">" = "".
Proof. repeat split; reflexivity. Qed.

Example parseInt_samples :
  parseInt "  42abc" = Num 42 /\ parseInt "-7" = Num (-7) /\
  parseInt "1" = Num 1 /\ parseInt "-" = NaN /\ parseInt "" = NaN.
Proof. repeat split; reflexivity. Qed.

Example splitSections_sample :
  splitSections ("a" ++ nl ++ "B." ++ nl ++ "C!" ++ nl ++ "D x" ++ nl)
  = ["a"; nl ++ "B." ++ nl ++ "C!"; nl ++ "D x" ++ nl].
Proof. reflexivity. Qed.

Example replaceDelimited_samples :
  replaceDelimited "_" "_" "*" "a _b_ c _d e_ f_" = "a *b* c *d e* f_" /\
  replaceDelimited "_" "_" "*" "___a___" = "__*a*__" /\
  replaceDelimited "__" "_" "**" "__*a*__" = "***a***" /\
  replaceDelimited "__" "_" "**" "x __y__ z" = "x **y** z".
Proof. repeat split; reflexivity. Qed.

Example validateMarkdown_samples :
  validateMarkdown "# T" = true /\
  validateMarkdown ("text" ++ nl ++ "## Sub *x*") = true /\
  validateMarkdown "#T" = false /\
  validateMarkdown "####### T" = false /\
  validateMarkdown "# T *" = false /\
  validateMarkdown ("# T" ++ nl ++ "```") = false /\
  countFences "``````` `" = 2%nat.
Proof. repeat split; reflexivity. Qed.

Example processDocument_sample :
  processDocument
    ("Intro:" ++ nl ++ "1. a" ++ nl ++ "- b" ++ nl ++ nl ++ "Next: x" ++ nl
     ++ "foo _a_ b")
    (mkConfig (int 5) ls_numbered double asterisk fenced)
  = Returned ("### Intro:" ++ nl ++ nl ++ "1. a 1. b" ++ nl ++ nl
              ++ "### Next: x" ++ nl ++ nl ++ "foo *a* b").
Proof. reflexivity. Qed.

(* ===================================================================== *)
(** ** Properties of the block assembler *)
(* ===================================================================== *)

Lemma forEachFrom_app all i xs ys st :
  forEachFrom all i (xs ++ ys)%list st
  = forEachFrom all (i + List.length xs) ys (forEachFrom all i xs st).
Proof.
  revert i st; induction xs as [|x xs IH]; intros i st; simpl.
  - now rewrite Nat.add_0_r.
  - rewrite IH. now rewrite Nat.add_succ_r.
Qed.

Lemma processLine_openKind lines st line i :
  openKind (currentBlock st) ->
  openKind (currentBlock (processLine lines st line i)).
Proof.
  intros H. unfold processLine.
  destruct (currentBlock st) as [b|] eqn:Hcur; simpl in H;
    break_all; subst; simpl; auto;
    try (injection Heqp as <- <-; simpl; auto).
  all: try (rewrite Hcur; simpl; auto).
  all: try (destruct (type b); simpl in *; intuition congruence).
Qed.

Lemma forEachFrom_openKind all i rest st :
  openKind (currentBlock st) ->
  openKind (currentBlock (forEachFrom all i rest st)).
Proof.
  revert i st; induction rest as [|l rest IH]; intros i st H; simpl; auto.
  apply IH, processLine_openKind, H.
Qed.

(** The blocks pushed while one line is processed are the block that was
    open, or a heading, a list item or a code block made from that line. *)
Lemma processLine_emits lines st line i :
  exists emitted,
    blocks (processLine lines st line i) = (blocks st ++ emitted)%list /\
    Forall (fun b => Some b = currentBlock st \/ type b = heading
                     \/ type b = list_item \/ type b = code) emitted.
Proof.
  unfold processLine, push, pushOpen.
  destruct (currentBlock st) as [b|] eqn:Hcur.
  all: break_all; subst; simpl.
  all: try (injection Heqp as <- <-).
  all: unfold push, pushOpen; try rewrite Hcur.
  all: try rewrite <- app_assoc; simpl.
  all: try (eexists; split; [reflexivity|]; repeat constructor; auto; fail).
  all: try (exists []; split; [now rewrite app_nil_r|constructor]).
Qed.

Lemma stateAfter_S text n :
  (n < List.length (split LF text))%nat ->
  stateAfter text (S n)
  = processLine (split LF text) (stateAfter text n)
                (nth n (split LF text) "") n.
Proof.
  intros Hn. unfold stateAfter.
  set (lines := split LF text) in *.
  assert (Hf : firstn (S n) lines = (firstn n lines ++ [nth n lines ""])%list).
  { clear -Hn. revert n Hn. induction lines as [|l ls IH]; intros n Hn; simpl in *.
    - lia.
    - destruct n; simpl; [reflexivity|]. f_equal. apply IH. lia. }
  rewrite Hf, forEachFrom_app. simpl.
  rewrite firstn_length_le by lia. reflexivity.
Qed.

Lemma stateAfter_past text n :
  (List.length (split LF text) <= n)%nat ->
  stateAfter text (S n) = stateAfter text n.
Proof.
  intros Hn. unfold stateAfter.
  rewrite !firstn_all2 by lia. reflexivity.
Qed.

(** *** Unterminated fences *)

Lemma Forall_push (P : Block -> Prop) bs b :
  Forall P bs -> P b -> Forall P (push bs b).
Proof.
  intros Hbs Hb. unfold push. apply Forall_app. split; auto.
Qed.

Lemma processLine_single_fence lines st line i k :
  openKind (currentBlock st) ->
  noCode (blocks st) ->
  ((if isFenceLine line then 1 else 0) + k
     + (if inCodeBlock st then 1 else 0) <= 1)%nat ->
  let st' := processLine lines st line i in
  openKind (currentBlock st') /\ noCode (blocks st') /\
  (k + (if inCodeBlock st' then 1 else 0) <= 1)%nat.
Proof.
  intros Hopen Hno Hk st'. split; [apply processLine_openKind, Hopen|].
  subst st'. unfold processLine, isFenceLine, noCode in *.
  destruct (startsWith "```" (trim line)) eqn:Hf.
  - destruct (inCodeBlock st) eqn:Hin; simpl in *; [lia|]. split; [auto|lia].
  - destruct (inCodeBlock st) eqn:Hin; simpl in *; [split; [auto|lia]|].
    destruct (currentBlock st) as [b|] eqn:Hcur; simpl in Hopen.
    + assert (Hb : type b <> code) by (destruct Hopen as [E|E]; rewrite E; discriminate).
      break_all; try (injection Heqp as <- <-); simpl; split; try lia;
        unfold pushOpen; try rewrite Hcur;
        repeat apply Forall_push; auto; simpl; discriminate.
    + break_all; try (injection Heqp as <- <-); simpl; split; try lia;
        unfold pushOpen; try rewrite Hcur;
        repeat apply Forall_push; auto; simpl; discriminate.
Qed.

Lemma forEachFrom_single_fence all i rest st :
  openKind (currentBlock st) ->
  noCode (blocks st) ->
  (List.length (filter isFenceLine rest)
     + (if inCodeBlock st then 1 else 0) <= 1)%nat ->
  let st' := forEachFrom all i rest st in
  openKind (currentBlock st') /\ noCode (blocks st').
Proof.
  revert i st. induction rest as [|l rest IH]; intros i st Hopen Hno Hk; simpl.
  - auto.
  - simpl in Hk.
    destruct (processLine_single_fence all st l i
                (List.length (filter isFenceLine rest)) Hopen Hno)
      as (H1 & H2 & H3).
    { destruct (isFenceLine l); simpl in *; lia. }
    apply IH; assumption.
Qed.

(** With exactly one fence line, no code block comes out. *)
Lemma single_fence_no_code_block (text : string) :
  List.length (fenceLines text) = 1%nat ->
  Forall (fun b => type b <> code) (analyzeTextStructure text).
Proof.
  intros H. unfold analyzeTextStructure, fenceLines in *.
  destruct (forEachFrom_single_fence (split LF text) 0 (split LF text)
              initialState) as [Hopen Hno].
  - exact I.
  - constructor.
  - simpl. lia.
  - unfold pushOpen.
    destruct (currentBlock _) as [b|] eqn:Hcur; [|exact Hno].
    apply Forall_push; [exact Hno|].
    simpl in Hopen. destruct Hopen as [E|E]; rewrite E; discriminate.
Qed.

(** *** List markers *)

Lemma bullet_char_not_digit c : oneOf "-*+" c = true -> isDigit c = false.
Proof.
  destruct c as [[] [] [] [] [] [] [] []]; simpl; intros H;
    try discriminate; reflexivity.
Qed.

Lemma bullet_match_not_digitMarker line m :
  matchListPattern BulletPoints line = Some m -> digitMarker line = false.
Proof.
  unfold matchListPattern, digitMarker, one, digits1.
  destruct (skipWhile isSpace line) as [|c r]; [discriminate|].
  destruct (oneOf "-*+" c) eqn:Hc; [|discriminate].
  intros _. now rewrite (bullet_char_not_digit c Hc).
Qed.

Lemma numbered_match_digitMarker line m :
  matchListPattern NumberedLists line = Some m -> digitMarker line = true.
Proof.
  unfold matchListPattern, digitMarker.
  destruct (digits1 (skipWhile isSpace line)) as [r|]; [|discriminate].
  destruct (one (oneOf ".)") r) as [[c r']|]; [reflexivity|discriminate].
Qed.

Lemma digitMarker_numbered_match line lm :
  detectListType line = Some lm ->
  digitMarker line = true ->
  lm_pattern lm = NumberedLists.
Proof.
  unfold detectListType, listPatterns, detectListTypeIn.
  destruct (matchListPattern BulletPoints line) as [m|] eqn:Hb.
  - intros _ Hd. rewrite (bullet_match_not_digitMarker _ _ Hb) in Hd.
    discriminate.
  - destruct (matchListPattern NumberedLists line) as [m|] eqn:Hn.
    + intros [= <-] _. reflexivity.
    + (* the digit check needs what the numbered pattern needs, short of the
         closing white space; the two later patterns start with a letter or
         a parenthesis *)
      unfold matchListPattern, digitMarker, one, digits1 in *.
      destruct (skipWhile isSpace line) as [|c r]; [discriminate|].
      destruct (isDigit c) eqn:Hc.
      * assert (Ha : isAlpha c = false /\ oneOf "(" c = false).
        { clear -Hc.
          destruct c as [[] [] [] [] [] [] [] []]; simpl in *;
            try discriminate; split; reflexivity. }
        destruct Ha as [Ha Hp]. rewrite Ha, Hp. discriminate.
      * intros _ Hd. discriminate.
Qed.

Lemma detectListType_type line lm :
  detectListType line = Some lm ->
  lm_type lm = (if digitMarker line then numbered else bullet).
Proof.
  unfold detectListType, listPatterns, detectListTypeIn.
  repeat (destruct (matchListPattern _ line); [intros [= <-]; reflexivity|]).
  discriminate.
Qed.

Lemma detectListTypeIn_match pats line lm :
  detectListTypeIn pats line = Some lm ->
  exists m, matchListPattern (lm_pattern lm) line = Some m
            /\ lm_index lm = group1 m.
Proof.
  induction pats as [|p ps IH]; simpl; [discriminate|].
  destruct (matchListPattern p line) as [m|] eqn:Hm.
  - intros [= <-]. exists m. simpl. auto.
  - exact IH.
Qed.

Lemma group1_only_for_bullets p line m :
  matchListPattern p line = Some m ->
  p <> BulletPoints ->
  group1 m = None.
Proof.
  intros H Hp. destruct p; [congruence| | |];
    unfold matchListPattern in H; revert H; break_all; intros H;
    try discriminate; injection H as <-; reflexivity.
Qed.

Lemma detectListType_numbered_index line lm :
  detectListType line = Some lm ->
  lm_type lm = numbered ->
  lm_index lm = None.
Proof.
  intros H Ht.
  pose proof (detectListType_type _ _ H) as Hty. rewrite Ht in Hty.
  destruct (digitMarker line) eqn:Hd; [|discriminate].
  pose proof (digitMarker_numbered_match _ _ H Hd) as Hp.
  destruct (detectListTypeIn_match _ _ _ H) as (m & Hm & ->).
  apply (group1_only_for_bullets _ _ _ Hm). rewrite Hp. discriminate.
Qed.

Lemma processLine_indexIsOne lines st line i :
  stateSatisfies indexIsOne st ->
  stateSatisfies indexIsOne (processLine lines st line i).
Proof.
  intros [Hbs Hcur].
  assert (Hplain : forall t c, indexIsOne (mkBlock t c None))
    by (intros t c H; discriminate H).
  assert (Hhead : forall c l, indexIsOne (headingBlock c l))
    by (intros c l H; discriminate H).
  assert (Hopen : Forall indexIsOne (pushOpen (blocks st) (currentBlock st))).
  { unfold pushOpen. destruct (currentBlock st); [apply Forall_push|]; auto. }
  unfold processLine; cbv zeta. repeat head_case.
  all: try match goal with
           | H : currentBlock _ = _ |- _ => rewrite H in Hcur; simpl in Hcur
           end.
  all: try (split; assumption).
  all: unfold stateSatisfies, codeBlock, quoteBlock, paragraphBlock;
       cbn [blocks currentBlock openSatisfies].
  all: split; repeat apply Forall_push; auto.
  all: try (match goal with H : currentBlock _ = _ |- _ => rewrite H end;
            assumption).
  (* what is left: the list item made from this line *)
  all: intros Hn; injection Hn as Hn; unfold blockListIndex; simpl.
  all: match goal with
       | H : detectListType _ = Some ?lm |- _ =>
           rewrite Hn; rewrite (detectListType_numbered_index _ _ H Hn)
       end.
  all: reflexivity.
Qed.

Lemma forEachFrom_indexIsOne all i rest st :
  stateSatisfies indexIsOne st ->
  stateSatisfies indexIsOne (forEachFrom all i rest st).
Proof.
  revert i st. induction rest as [|l rest IH]; intros i st H; simpl.
  - exact H.
  - apply IH, processLine_indexIsOne, H.
Qed.

(** C2 (what the code does).  Every numbered list item that the analysis
    yields carries the index 1, whatever digits its marker had: the
    numbered pattern captures no group, so the marker is never parsed. *)
Theorem numbered_item_index_is_one (text : string) (b : Block) :
  In b (analyzeTextStructure text) ->
  blockListType b = Some numbered ->
  blockListIndex b = Some (Num 1).
Proof.
  intros Hin. unfold analyzeTextStructure in Hin.
  destruct (forEachFrom_indexIsOne (split LF text) 0 (split LF text)
              initialState) as [Hbs Hcur].
  { split; [constructor|exact I]. }
  assert (Hall : Forall indexIsOne
            (pushOpen (blocks (forEachFrom (split LF text) 0 (split LF text)
                                 initialState))
                      (currentBlock (forEachFrom (split LF text) 0
                                       (split LF text) initialState)))).
  { unfold pushOpen. destruct (currentBlock _); [apply Forall_push|]; auto. }
  rewrite Forall_forall in Hall. exact (Hall b Hin).
Qed.

Lemma numbered_item_index_is_one_witness :
  blockListIndex (listBlock "second" numbered (Some (Num 1))) = Some (Num 1).
Proof.
  apply (numbered_item_index_is_one ("1. first" ++ nl ++ "2. second")).
  - right. left. reflexivity.
  - reflexivity.
Defined.

(** The failing input of C2: both items carry the index 1. *)
Example numbered_list_example :
  analyzeTextStructure ("1. first" ++ nl ++ "2. second")
  = [ listBlock "first" numbered (Some (Num 1));
      listBlock "second" numbered (Some (Num 1)) ].
Proof. reflexivity. Qed.

(** *** Strings *)

Lemma split_noLF a : noLF a -> split LF a = [a].
Proof.
  unfold noLF. induction a as [|c a IH]; simpl; intros H; [reflexivity|].
  apply andb_true_iff in H as [Hc Ha].
  apply negb_true_iff in Hc. rewrite Hc, (IH Ha). reflexivity.
Qed.

Lemma split_app_LF a b :
  noLF a -> split LF (a ++ String LF b) = a :: split LF b.
Proof.
  unfold noLF. induction a as [|c a IH]; simpl; intros H.
  - reflexivity.
  - apply andb_true_iff in H as [Hc Ha].
    apply negb_true_iff in Hc. rewrite Hc, (IH Ha). reflexivity.
Qed.

Lemma trimEnd_idempotent s : trimEnd (trimEnd s) = trimEnd s.
Proof.
  induction s as [|c s IH]; simpl; [reflexivity|].
  destruct (trimEnd s) as [|d r] eqn:E.
  - destruct (isSpace c) eqn:Hc; simpl; [reflexivity|]. now rewrite Hc.
  - change (trimEnd (String c (String d r)))
      with (match trimEnd (String d r) with
            | "" => if isSpace c then "" else String c ""
            | String d' r' => String c (String d' r')
            end).
    rewrite IH. reflexivity.
Qed.

Lemma trimEnd_head c s :
  isSpace c = false -> exists r, trimEnd (String c s) = String c r.
Proof.
  intros Hc. simpl. destruct (trimEnd s); rewrite ?Hc; eauto.
Qed.

Lemma trimStart_fixed c s :
  isSpace c = false -> trimStart (String c s) = String c s.
Proof. intros Hc. unfold trimStart. simpl. now rewrite Hc. Qed.

Lemma trimStart_cases s :
  trimStart s = "" \/
  exists c r, trimStart s = String c r /\ isSpace c = false.
Proof.
  unfold trimStart. induction s as [|c s IH]; simpl; [now left|].
  destruct (isSpace c) eqn:Hc; [exact IH|]. right. eauto.
Qed.

Lemma trim_cases s :
  trim s = "" \/ exists c r, trim s = String c r /\ isSpace c = false.
Proof.
  unfold trim. destruct (trimStart_cases s) as [E|(c & r & E & Hc)]; rewrite E.
  - now left.
  - right. destruct (trimEnd_head c r Hc) as [r' E']. eauto.
Qed.

Lemma trim_idempotent s : trim (trim s) = trim s.
Proof.
  destruct (trim_cases s) as [E|(c & r & E & Hc)].
  - rewrite E. reflexivity.
  - unfold trim at 1. rewrite E, (trimStart_fixed c r Hc), <- E.
    unfold trim. apply trimEnd_idempotent.
Qed.

(** *** One step of the assembler, branch by branch *)

Lemma processLine_heading lines st line i :
  reachesHeading line ->
  inCodeBlock st = false ->
  isHeading (analyzeHeading (trim line) lines i) = true ->
  remainingContent (analyzeHeading (trim line) lines i) = "" ->
  processLine lines st line i
  = mkState (push (pushOpen (blocks st) (currentBlock st))
                  (headingBlock (headingText (analyzeHeading (trim line) lines i))
                                (ha_level (analyzeHeading (trim line) lines i))))
            None false (codeBlockContent st).
Proof.
  intros (H1 & H2 & H3 & H4) Hin Hh Hr. unfold processLine.
  rewrite H1, Hin, H2, H3, H4, Hh, Hr. reflexivity.
Qed.

Lemma processLine_plain lines st line i :
  reachesHeading line ->
  inCodeBlock st = false ->
  isHeading (analyzeHeading (trim line) lines i) = false ->
  processLine lines st line i
  = match currentBlock st with
    | None => mkState (blocks st) (Some (paragraphBlock (trim line)))
                      false (codeBlockContent st)
    | Some b =>
        if BlockType_eqb (type b) paragraph
        then mkState (blocks st)
               (Some (mkBlock (type b) (content b ++ " " ++ trim line)
                              (metadata b)))
               false (codeBlockContent st)
        else mkState (push (blocks st) b) (Some (paragraphBlock (trim line)))
               false (codeBlockContent st)
    end.
Proof.
  intros (H1 & H2 & H3 & H4) Hin Hh. unfold processLine.
  rewrite H1, Hin, H2, H3, H4, Hh. reflexivity.
Qed.

Lemma analyzeHeading_setext line lines i lvl :
  atxMatch line = None ->
  setextLevel lines i = Some lvl ->
  analyzeHeading line lines i = mkHeadingAnalysis true (trim line) "" (Some lvl).
Proof.
  intros Ha Hs. unfold analyzeHeading. now rewrite Ha, Hs.
Qed.

(** *** Setext underlines *)

(** C3 (what the code does).  When a line is taken for a heading because
    [===] follows it, the underline itself is analysed as the next line and
    comes out as a paragraph of its own. *)
Theorem setext_underline_becomes_paragraph (title : string) :
  noLF title ->
  reachesHeading title ->
  atxMatch (trim title) = None ->
  analyzeTextStructure (title ++ nl ++ "===")
  = [ headingBlock (trim title) (Some 1%nat); paragraphBlock "===" ].
Proof.
  intros Hlf Hreach Hatx. unfold analyzeTextStructure.
  change (title ++ nl ++ "===") with (title ++ String LF "===").
  rewrite (split_app_LF title "===" Hlf).
  change (split LF "===") with ["==="].
  set (lines := [title; "==="]).
  assert (Hs : setextLevel lines 0 = Some 1%nat) by reflexivity.
  pose proof (analyzeHeading_setext (trim title) lines 0 1 Hatx Hs) as Hh.
  simpl forEachFrom.
  rewrite (processLine_heading lines initialState title 0 Hreach eq_refl)
    by (rewrite Hh; reflexivity).
  rewrite Hh. cbn [headingText ha_level]. rewrite trim_idempotent.
  rewrite processLine_plain; try reflexivity.
  repeat split; reflexivity.
Qed.

Lemma setext_underline_becomes_paragraph_witness :
  analyzeTextStructure ("Title" ++ nl ++ "===")
  = [ headingBlock "Title" (Some 1%nat); paragraphBlock "===" ].
Proof.
  apply (setext_underline_becomes_paragraph "Title").
  - reflexivity.
  - repeat split; reflexivity.
  - reflexivity.
Defined.

(** C7.  For a line that the list-pattern check recognises, the kind is
    numbered exactly when the digit-marker check holds, which is exactly
    when the pattern that matched is the numbered one; it is bullet
    otherwise, so lettered and parenthesised markers give bullets. *)
Theorem list_kind_is_numbered_iff_digit_marker :
  (forall line lm,
     detectListType line = Some lm ->
     (lm_type lm = numbered <-> digitMarker line = true) /\
     (lm_type lm = bullet <-> digitMarker line = false) /\
     (digitMarker line = true <-> lm_pattern lm = NumberedLists)) /\
  detectListType "a) item" = Some (mkListMatch bullet LetteredLists None) /\
  detectListType "(1) item" = Some (mkListMatch bullet ParenNumbers None).
Proof.
  split; [|split; reflexivity].
  intros line lm H.
  pose proof (detectListType_type _ _ H) as Hty.
  repeat split.
  - intros Hn. rewrite Hn in Hty. destruct (digitMarker line); congruence.
  - intros Hd. rewrite Hd in Hty. exact Hty.
  - intros Hb. rewrite Hb in Hty. destruct (digitMarker line); congruence.
  - intros Hd. rewrite Hd in Hty. exact Hty.
  - intros Hd. exact (digitMarker_numbered_match _ _ H Hd).
  - intros Hp. destruct (detectListTypeIn_match _ _ _ H) as (m & Hm & _).
    rewrite Hp in Hm. exact (numbered_match_digitMarker _ _ Hm).
Qed.

Lemma list_kind_is_numbered_iff_digit_marker_witness :
  lm_type (mkListMatch numbered NumberedLists None) = numbered
  <-> digitMarker "12) item" = true.
Proof.
  apply (proj1 list_kind_is_numbered_iff_digit_marker "12) item").
  reflexivity.
Defined.

(** *** The title-case fallback *)

Lemma capitalized_is_titleWord w :
  capitalizedWord w || allUppercaseWord w = true -> titleWord w = true.
Proof.
  unfold titleWord, capitalizedWord, allUppercaseWord.
  destruct w as [|a [|b r]]; simpl.
  - discriminate.
  - destruct (isUpper a); simpl; auto.
  - intros H. apply orb_true_iff in H as [H|H].
    + apply andb_true_iff in H as [Ha Hr].
      apply andb_true_iff in Hr as [Hb _]. now rewrite Ha, Hb.
    + rewrite H. apply orb_true_r.
Qed.

Lemma filter_length_le {A} (p q : A -> bool) l :
  (forall x, p x = true -> q x = true) ->
  (List.length (filter p l) <= List.length (filter q l))%nat.
Proof.
  intros Hpq. induction l as [|x l IH]; simpl; [lia|].
  destruct (p x) eqn:Hp.
  - rewrite (Hpq x Hp). simpl. lia.
  - destruct (q x); simpl; lia.
Qed.

Lemma mostlyCapitalized_isTitleCase line :
  mostlyCapitalized line -> isTitleCase line = true.
Proof.
  unfold mostlyCapitalized, isTitleCase. intros H.
  apply Nat.ltb_lt.
  pose proof (filter_length_le _ titleWord (split " " line)
                capitalized_is_titleWord).
  lia.
Qed.

Lemma analyzeHeading_fallback line lines index :
  atxMatch line = None ->
  setextLevel lines index = None ->
  firstPattern metadataPatterns line = None ->
  analyzeHeading line lines index
  = if isTitleCase line && (String.length line <? 60)%nat
    then mkHeadingAnalysis true (trim line) "" (Some 2%nat)
    else mkHeadingAnalysis false "" line None.
Proof.
  intros H1 H2 H3. unfold analyzeHeading. now rewrite H1, H2, H3.
Qed.

(** C8 (as amended).  The length that the fallback tests is that of the
    trimmed line.  Outside code mode, a line that no earlier rule claims (no
    fence, quote or list marker; no ATX, Setext or pattern heading) and
    whose trimmed text has 59 characters, more than 60% of its words
    capitalized or all upper case, is pushed as a level-2 heading; when the
    trimmed text has 61 characters the title-case fallback does not fire
    and the line is plain text. *)
Theorem title_case_fallback_boundary (lines : list string) (st : State)
  (line : string) (i : nat) :
  reachesHeading line ->
  inCodeBlock st = false ->
  atxMatch (trim line) = None ->
  setextLevel lines i = None ->
  firstPattern metadataPatterns (trim line) = None ->
  (String.length (trim line) = 59%nat ->
   mostlyCapitalized (trim line) ->
   analyzeHeading (trim line) lines i
   = mkHeadingAnalysis true (trim line) "" (Some 2%nat) /\
   processLine lines st line i
   = mkState (push (pushOpen (blocks st) (currentBlock st))
                   (headingBlock (trim line) (Some 2%nat)))
             None false (codeBlockContent st)) /\
  (String.length (trim line) = 61%nat ->
   isHeading (analyzeHeading (trim line) lines i) = false /\
   processLine lines st line i
   = match currentBlock st with
     | None => mkState (blocks st) (Some (paragraphBlock (trim line)))
                       false (codeBlockContent st)
     | Some b =>
         if BlockType_eqb (type b) paragraph
         then mkState (blocks st)
                (Some (mkBlock (type b) (content b ++ " " ++ trim line)
                               (metadata b)))
                false (codeBlockContent st)
         else mkState (push (blocks st) b) (Some (paragraphBlock (trim line)))
                false (codeBlockContent st)
     end).
Proof.
  intros Hreach Hin Hatx Hset Hpat.
  pose proof (analyzeHeading_fallback _ _ _ Hatx Hset Hpat) as Hfb.
  split.
  - intros Hlen Hcap.
    rewrite (mostlyCapitalized_isTitleCase _ Hcap), Hlen in Hfb.
    simpl in Hfb. split.
    + rewrite Hfb. now rewrite trim_idempotent.
    + rewrite processLine_heading; auto; rewrite Hfb; auto.
      cbn [headingText ha_level]. now rewrite trim_idempotent.
  - intros Hlen. rewrite Hlen in Hfb.
    rewrite andb_false_r in Hfb. split.
    + now rewrite Hfb.
    + apply processLine_plain; auto. now rewrite Hfb.
Qed.

Lemma title_case_fallback_boundary_witness :
  processLine ["Alpha Beta Gamma Delta Epsilon Zeta Eta Theta Iota Kappa Mu"]
              initialState
              "Alpha Beta Gamma Delta Epsilon Zeta Eta Theta Iota Kappa Mu" 0
  = mkState [headingBlock
               "Alpha Beta Gamma Delta Epsilon Zeta Eta Theta Iota Kappa Mu"
               (Some 2%nat)]
            None false ""
  /\ isHeading
       (analyzeHeading
          "Alpha Beta Gamma Delta Epsilon Zeta Eta Theta Iota Kappa Mu X"
          ["Alpha Beta Gamma Delta Epsilon Zeta Eta Theta Iota Kappa Mu X"] 0)
     = false.
Proof.
  split.
  - apply (proj1 (title_case_fallback_boundary
                    ["Alpha Beta Gamma Delta Epsilon Zeta Eta Theta Iota Kappa Mu"]
                    initialState
                    "Alpha Beta Gamma Delta Epsilon Zeta Eta Theta Iota Kappa Mu"
                    0
                    (conj eq_refl (conj eq_refl (conj eq_refl eq_refl)))
                    eq_refl eq_refl eq_refl eq_refl)).
    + reflexivity.
    + unfold mostlyCapitalized. simpl. lia.
  - apply (proj2 (title_case_fallback_boundary
                    ["Alpha Beta Gamma Delta Epsilon Zeta Eta Theta Iota Kappa Mu X"]
                    initialState
                    "Alpha Beta Gamma Delta Epsilon Zeta Eta Theta Iota Kappa Mu X"
                    0
                    (conj eq_refl (conj eq_refl (conj eq_refl eq_refl)))
                    eq_refl eq_refl eq_refl eq_refl)).
    reflexivity.
Defined.

(** C8 fails as stated: this line has 61 characters, 11 of its 13
    space-separated words are capitalized and no other rule claims it; its
    last two characters are spaces, which the analysis trims before it
    measures, and the line is a level-2 heading by the title-case
    fallback. *)
Lemma padded_line_of_61_is_a_heading :
  String.length paddedTitle = 61%nat /\
  mostlyCapitalized paddedTitle /\
  reachesHeading paddedTitle /\
  atxMatch (trim paddedTitle) = None /\
  setextLevel [paddedTitle] 0 = None /\
  firstPattern metadataPatterns (trim paddedTitle) = None /\
  analyzeHeading (trim paddedTitle) [paddedTitle] 0
  = mkHeadingAnalysis true (trim paddedTitle) "" (Some 2%nat) /\
  analyzeTextStructure paddedTitle
  = [headingBlock "Alpha Beta Gamma Delta Epsilon Zeta Eta Theta Iota Kappa Mu"
                  (Some 2%nat)].
Proof.
  repeat split; try reflexivity.
  unfold mostlyCapitalized. vm_compute. lia.
Qed.

(* ===================================================================== *)
(** ** Properties of the rewriter *)
(* ===================================================================== *)

(** *** Emphasis *)

Lemma takeWhile_lacks ch x s :
  lacks ch x ->
  takeWhile (fun c => negb (Ascii.eqb c ch)) (x ++ String ch s) = x.
Proof.
  unfold lacks. induction x as [|c x IH]; simpl; intros H.
  - now rewrite Ascii.eqb_refl.
  - apply andb_true_iff in H as [Hc Hx]. rewrite Hc, (IH Hx). reflexivity.
Qed.

Lemma drop_app x s : drop (String.length x) (x ++ s) = s.
Proof. induction x as [|c x IH]; simpl; auto. Qed.

Lemma replaceFrom_skip d ch o x k s :
  replaceFrom d ch o (String.length x + k) (x ++ s) = replaceFrom d ch o k s.
Proof. induction x as [|c x IH]; simpl; auto. Qed.

Lemma append_assoc (a b c : string) : (a ++ b) ++ c = a ++ b ++ c.
Proof. induction a as [|x a IH]; simpl; [reflexivity|now rewrite IH]. Qed.

Lemma append_nil_r (a : string) : a ++ "" = a.
Proof. induction a as [|x a IH]; simpl; [reflexivity|now rewrite IH]. Qed.

(** A string in which [d([^ch]+)d] matches nowhere is left as it is. *)
Lemma replaceFrom_unmatched d ch o s :
  (forall k, matchDelimited d ch (drop k s) = None) ->
  replaceFrom d ch o 0 s = s.
Proof.
  induction s as [|c s IH]; simpl; intros H; [reflexivity|].
  pose proof (H 0%nat) as H0. simpl in H0. rewrite H0.
  rewrite IH; [reflexivity|]. intros k. exact (H (S k)).
Qed.

Lemma no_doubled_delimiter_match ch y k :
  lacks ch y ->
  matchDelimited (String ch (String ch "")) ch (drop k (y ++ String ch ""))
  = None.
Proof.
  revert k. unfold lacks. induction y as [|c y IH]; intros k H.
  - unfold matchDelimited. destruct k as [|[|k]]; cbn [drop append startsWith];
      rewrite ?Ascii.eqb_refl; reflexivity.
  - simpl in H. apply andb_true_iff in H as [Hc Hy].
    destruct k as [|k]; [|exact (IH k Hy)].
    apply negb_true_iff in Hc. rewrite Ascii.eqb_sym in Hc.
    unfold matchDelimited. cbn [drop append startsWith].
    now rewrite Hc.
Qed.

Lemma replaceFrom_miss d ch o c r :
  matchDelimited d ch (String c r) = None ->
  replaceFrom d ch o 0 (String c r) = String c (replaceFrom d ch o 0 r).
Proof. intros H. cbn [replaceFrom]. now rewrite H. Qed.

Lemma replaceFrom_hit d ch o c r x :
  matchDelimited d ch (String c r) = Some x ->
  replaceFrom d ch o 0 (String c r)
  = o ++ x ++ o
      ++ replaceFrom d ch o
           (String.length d + String.length x + String.length d - 1) r.
Proof. intros H. cbn [replaceFrom]. now rewrite H. Qed.

Lemma isEmpty_false x : x <> "" -> isEmpty x = false.
Proof. destruct x; [congruence|reflexivity]. Qed.

Lemma lacks_app ch x y : lacks ch x -> lacks ch y -> lacks ch (x ++ y).
Proof.
  unfold lacks. induction x as [|c x IH]; simpl; intros Hx Hy; [exact Hy|].
  apply andb_true_iff in Hx as [Hc Hx]. rewrite Hc. exact (IH Hx Hy).
Qed.

(** With a single-character delimiter [ch], the pattern takes the inner
    pair of a doubled delimiter. *)
Lemma doubled_delimiter_single_pass ch o x :
  x <> "" ->
  lacks ch x ->
  replaceFrom (String ch "") ch o 0
    (String ch (String ch (x ++ String ch (String ch ""))))
  = String ch (o ++ x ++ o ++ String ch "").
Proof.
  intros Hne Hx.
  (* at position 0 the run after the delimiter is empty *)
  rewrite replaceFrom_miss.
  2:{ unfold matchDelimited. cbn [startsWith String.length drop takeWhile].
      rewrite Ascii.eqb_refl. reflexivity. }
  (* at position 1 the run is [x] *)
  rewrite (replaceFrom_hit _ _ _ _ _ x).
  - replace (String.length (String ch "") + String.length x
             + String.length (String ch "") - 1)%nat
      with (String.length x + 1)%nat by (simpl; lia).
    rewrite replaceFrom_skip.
    cbn [replaceFrom]. unfold matchDelimited.
    cbn [startsWith String.length drop takeWhile isEmpty negb andb].
    rewrite Ascii.eqb_refl. reflexivity.
  - unfold matchDelimited. cbn [startsWith String.length drop andb].
    rewrite Ascii.eqb_refl. cbn [andb].
    rewrite (takeWhile_lacks ch x (String ch "") Hx), drop_app.
    rewrite (isEmpty_false x Hne). cbn [negb andb startsWith].
    now rewrite Ascii.eqb_refl.
Qed.

(** What the single-delimiter pass leaves holds no doubled delimiter with
    a run between. *)
Lemma doubled_delimiter_second_pass ch o a y :
  Ascii.eqb ch a = false ->
  lacks ch (String a y) ->
  replaceFrom (String ch (String ch "")) ch o 0
    (String ch (String a y ++ String ch ""))
  = String ch (String a y ++ String ch "").
Proof.
  intros Ha Hy. apply replaceFrom_unmatched. intros k.
  destruct k as [|k].
  - unfold matchDelimited. cbn [drop append startsWith].
    rewrite Ascii.eqb_refl, Ha. reflexivity.
  - cbn [drop]. now apply no_doubled_delimiter_match.
Qed.

Lemma double_underscore_emphasis x :
  x <> "" ->
  lacks "_" x ->
  convertEmphasis asterisk ("__" ++ x ++ "__") = "_*" ++ x ++ "*_".
Proof.
  intros Hne Hx. unfold convertEmphasis, replaceDelimited.
  change ("__" ++ x ++ "__")
    with (String "_" (String "_" (x ++ String "_" (String "_" "")))).
  rewrite (doubled_delimiter_single_pass "_" "*" x Hne Hx).
  change (String "_" ("*" ++ x ++ "*" ++ String "_" ""))
    with (String "_" (String "*" (x ++ "*" ++ String "_" ""))).
  replace (String "*" (x ++ "*" ++ String "_" ""))
    with (String "*" (x ++ "*") ++ String "_" "")
    by (cbn [append]; rewrite append_assoc; reflexivity).
  rewrite (doubled_delimiter_second_pass "_" "**" "*" (x ++ "*")).
  - cbn [append]. rewrite append_assoc. reflexivity.
  - reflexivity.
  - apply (lacks_app "_" "*" (x ++ "*")); [reflexivity|].
    apply lacks_app; [exact Hx|reflexivity].
Qed.

Lemma double_asterisk_emphasis x :
  x <> "" ->
  lacks "*" x ->
  convertEmphasis underscore ("**" ++ x ++ "**") = "*_" ++ x ++ "_*".
Proof.
  intros Hne Hx. unfold convertEmphasis, replaceDelimited.
  change ("**" ++ x ++ "**")
    with (String "*" (String "*" (x ++ String "*" (String "*" "")))).
  rewrite (doubled_delimiter_single_pass "*" "_" x Hne Hx).
  change (String "*" ("_" ++ x ++ "_" ++ String "*" ""))
    with (String "*" (String "_" (x ++ "_" ++ String "*" ""))).
  replace (String "_" (x ++ "_" ++ String "*" ""))
    with (String "_" (x ++ "_") ++ String "*" "")
    by (cbn [append]; rewrite append_assoc; reflexivity).
  rewrite (doubled_delimiter_second_pass "*" "__" "_" (x ++ "_")).
  - cbn [append]. rewrite append_assoc. reflexivity.
  - reflexivity.
  - apply (lacks_app "*" "_" (x ++ "_")); [reflexivity|].
    apply lacks_app; [exact Hx|reflexivity].
Qed.

(** C6 (what the code does).  The single-delimiter substitution runs first
    and takes the inner pair of a doubled delimiter, so under [asterisk]
    [__x__] comes out as [_*x*_], never as [**x**], and under [underscore]
    [**x**] comes out as [*_x_*]; the rewriter turns the line [__word__]
    into [_*word*_]. *)
Theorem double_underscore_is_not_strong (config : StructureConfig)
  (x : string) :
  emphasisStyle config = asterisk ->
  x <> "" ->
  lacks "_" x ->
  lacks "*" x ->
  convertEmphasis (emphasisStyle config) ("__" ++ x ++ "__")
  = "_*" ++ x ++ "*_"
  /\ convertEmphasis underscore ("**" ++ x ++ "**") = "*_" ++ x ++ "_*"
  /\ processDocument "__word__" config = Returned "_*word*_".
Proof.
  intros Hstyle Hne Hu Ha. repeat split.
  - rewrite Hstyle. exact (double_underscore_emphasis x Hne Hu).
  - exact (double_asterisk_emphasis x Hne Ha).
  - destruct config as [d ls ps es cs]. simpl in Hstyle. subst es.
    destruct ls, ps, cs; reflexivity.
Qed.

Lemma double_underscore_is_not_strong_witness :
  convertEmphasis asterisk "__word__" = "_*word*_"
  /\ convertEmphasis underscore "**word**" = "*_word_*"
  /\ processDocument "__word__" (mkConfig (int 2) ls_bullet single asterisk fenced)
     = Returned "_*word*_".
Proof.
  apply (double_underscore_is_not_strong
           (mkConfig (int 2) ls_bullet single asterisk fenced) "word").
  - reflexivity.
  - discriminate.
  - reflexivity.
  - reflexivity.
Defined.

(** The single delimiters are translated as the claim says. *)
Example single_underscore_example :
  processDocument "_word_" (mkConfig (int 2) ls_bullet single asterisk fenced)
  = Returned "*word*"
  /\ processDocument "*word*" (mkConfig (int 2) ls_bullet single underscore fenced)
     = Returned "_word_"
  /\ processDocument "**word**" (mkConfig (int 2) ls_bullet single underscore fenced)
     = Returned "*_word_*".
Proof. repeat split; reflexivity. Qed.

(** *** The steps of one line *)

Lemma rewriteLine_steps config st rawLine :
  rewriteLine config st rawLine
  = let line := rewrittenLine config (d_markdown st) rawLine in
    let '(markdown, line) :=
      match indentHead line with
      | Some rest =>
          match codeBlockStyle config with
          | fenced =>
              (if negb (endsWith fenceLine (d_markdown st))
               then d_markdown st ++ fenceLine else d_markdown st, rest)
          | indented => (d_markdown st, line)
          end
      | None =>
          match codeBlockStyle config with
          | fenced =>
              if endsWith fenceLine (d_markdown st)
              then (d_markdown st ++ fenceLine ++ nl, line)
              else (d_markdown st, line)
          | indented => (d_markdown st, line)
          end
      end in
    if isEmpty line then
      if negb (isEmpty (currentParagraph st)) then
        mkDocState
          (markdown ++ currentParagraph st ++ nl
             ++ match paragraphSpacing config with
                | double => nl
                | single => ""
                end)
          ""
      else mkDocState markdown (currentParagraph st)
    else
      mkDocState markdown
        (currentParagraph st
           ++ (if negb (isEmpty (currentParagraph st)) then " " else "")
           ++ line).
Proof. reflexivity. Qed.

Lemma endsLine_app b x y : endsLine b (x ++ y) = endsLine (endsLine b x) y.
Proof. revert b. induction x as [|c x IH]; intros b; simpl; auto. Qed.

Lemma endsLine_nl b x : endsLine b (x ++ nl) = true.
Proof. rewrite endsLine_app. reflexivity. Qed.

(** *** Configuration values *)

Lemma rewriteLine_withDepth d config st line :
  rewriteLine (withDepth d config) st line = rewriteLine config st line.
Proof. reflexivity. Qed.

Lemma fold_rewriteLine_withDepth d config lines st :
  fold_left (rewriteLine (withDepth d config)) lines st
  = fold_left (rewriteLine config) lines st.
Proof.
  revert st. induction lines as [|l ls IH]; intros st; simpl; [reflexivity|].
  rewrite IH. reflexivity.
Qed.

(** The integer conversion: the identity on integers, monotone, and not
    negative above -1. *)
Lemma truncate_int n : truncate (inject_Z n) = n.
Proof.
  unfold truncate. destruct (Qle_bool _ _); [apply Qfloor_Z|apply Qceiling_Z].
Qed.

Lemma Qle_bool_false p q : Qle_bool p q = false -> (q < p)%Q.
Proof.
  intros H. apply Qnot_le_lt. intros Hle.
  apply Qle_bool_iff in Hle. congruence.
Qed.

Lemma truncate_mono p q : (p <= q)%Q -> (truncate p <= truncate q)%Z.
Proof.
  intros Hpq. unfold truncate.
  destruct (Qle_bool 0 p) eqn:Hp, (Qle_bool 0 q) eqn:Hq.
  - now apply Qfloor_resp_le.
  - apply Qle_bool_iff in Hp. apply Qle_bool_false in Hq.
    exfalso. apply (Qlt_irrefl 0).
    apply Qle_lt_trans with q; [|assumption].
    now apply Qle_trans with p.
  - apply Qle_bool_false in Hp. apply Qle_bool_iff in Hq.
    apply Z.le_trans with 0%Z.
    + change 0%Z with (Qceiling (inject_Z 0)) at 1.
      * apply Qceiling_resp_le. now apply Qlt_le_weak.
    + change 0%Z with (Qfloor (inject_Z 0)).
      now apply Qfloor_resp_le.
  - now apply Qceiling_resp_le.
Qed.

Lemma truncate_nonneg q : (inject_Z (-1) < q)%Q -> (0 <= truncate q)%Z.
Proof.
  intros Hq. unfold truncate. destruct (Qle_bool 0 q) eqn:H0.
  - apply Qle_bool_iff in H0.
    change 0%Z with (Qfloor (inject_Z 0)). now apply Qfloor_resp_le.
  - assert (H : (inject_Z (-1) < inject_Z (Qceiling q))%Q)
      by (apply Qlt_le_trans with q; [assumption|apply Qle_ceiling]).
    rewrite <- Zlt_Qlt in H. lia.
Qed.

(** [Math.min(depth, 3)] and the integer conversion commute. *)
Lemma truncate_min q :
  exists m,
    mathMin (Finite q) (int 3) = Finite m /\
    truncate m = Z.min (truncate q) 3.
Proof.
  unfold mathMin, int. destruct (Qle_bool q (inject_Z 3)) eqn:Hq.
  - exists q. split; [reflexivity|].
    apply Qle_bool_iff in Hq. apply truncate_mono in Hq.
    rewrite truncate_int in Hq. lia.
  - exists (inject_Z 3). split; [reflexivity|].
    apply Qle_bool_false in Hq. apply Qlt_le_weak, truncate_mono in Hq.
    rewrite truncate_int in *. lia.
Qed.

Lemma headerLevel_int n : headerLevel (inject_Z n) = Z.to_nat (Z.min n 3).
Proof. unfold headerLevel. now rewrite truncate_int. Qed.

Lemma headerLevel_deep q : (inject_Z 3 <= q)%Q -> headerLevel q = 3%nat.
Proof.
  intros Hq. unfold headerLevel. apply truncate_mono in Hq.
  rewrite truncate_int in Hq. rewrite Z.min_r by assumption. reflexivity.
Qed.

(** Above -1 the call of [repeat] returns, with [headerLevel] hash signs. *)
Lemma repeatCount_level q :
  (inject_Z (-1) < q)%Q ->
  repeatCount "#" (mathMin (Finite q) (int 3))
  = Returned (JS.repeat "#" (headerLevel q)).
Proof.
  intros Hq. destruct (truncate_min q) as (m & -> & Hm).
  unfold repeatCount, headerLevel. rewrite Hm.
  pose proof (truncate_nonneg q Hq) as H0.
  assert ((Z.min (truncate q) 3 <? 0)%Z = false) as ->
    by (apply Z.ltb_ge; lia).
  reflexivity.
Qed.

(** One line of a section appends whole lines to [markdown], if anything. *)
Lemma rewriteLine_appends config st rawLine :
  exists x,
    d_markdown (rewriteLine config st rawLine) = d_markdown st ++ x /\
    endsLine true x = true.
Proof.
  rewrite rewriteLine_steps. cbv zeta.
  assert (Hnil : d_markdown st = d_markdown st ++ "")
    by (now rewrite append_nil_r).
  pose proof append_assoc as Happ.
  destruct (indentHead _) as [rest|];
    destruct (codeBlockStyle config);
    try destruct (endsWith fenceLine (d_markdown st)); cbn [negb];
    match goal with
    | |- context [isEmpty ?l] => destruct (isEmpty l)
    end;
    try destruct (negb (isEmpty (currentParagraph st)));
    cbn [d_markdown];
    rewrite ?Happ;
    first [ exists ""; split; [exact Hnil|reflexivity]
          | eexists; split; [reflexivity|];
            destruct (paragraphSpacing config);
            rewrite ?endsLine_app; reflexivity ].
Qed.

Lemma fold_rewriteLine_appends config lines st :
  exists x,
    d_markdown (fold_left (rewriteLine config) lines st) = d_markdown st ++ x /\
    endsLine true x = true.
Proof.
  revert st. induction lines as [|l ls IH]; intros st; cbn [fold_left].
  - exists "". split; [now rewrite append_nil_r|reflexivity].
  - destruct (IH (rewriteLine config st l)) as (y & -> & Hy).
    destruct (rewriteLine_appends config st l) as (x & -> & Hx).
    exists (x ++ y). split.
    + now rewrite append_assoc.
    + now rewrite endsLine_app, Hx.
Qed.

(** One section appends whole lines to [markdown]: first the header line,
    when the section starts with one, behind the hash signs that [repeat]
    returned. *)
Lemma processSection_appends config markdown section hashes :
  repeatCount "#" (mathMin (headingDepth config) (int 3)) = Returned hashes ->
  exists x,
    processSection config markdown section = Returned (markdown ++ x) /\
    endsLine true x = true /\
    (sectionHasHeader section = true ->
     exists post,
       x = hashes ++ " " ++ trim (hd "" (split LF (trim section)))
           ++ nl ++ nl ++ post).
Proof.
  intros Hrep. unfold processSection, sectionHasHeader. rewrite Hrep.
  pose proof append_assoc as Happ.
  set (line := hd "" (split LF (trim section))).
  destruct (headerTest line); cbn [bind].
  - set (head := hashes ++ " " ++ trim line ++ nl ++ nl).
    destruct (fold_rewriteLine_appends config (tl (split LF (trim section)))
                (mkDocState (markdown ++ head) "")) as (y & Hy & Ey).
    cbn [d_markdown] in Hy. rewrite Hy.
    assert (Ehead : forall b, endsLine b head = true).
    { intros b. unfold head.
      replace (hashes ++ " " ++ trim line ++ nl ++ nl)
        with ((hashes ++ " " ++ trim line ++ nl) ++ nl)
        by (rewrite !Happ; reflexivity).
      apply endsLine_nl. }
    match goal with
    | |- context [negb (isEmpty ?p)] => destruct (negb (isEmpty p)); set (par := p)
    end.
    + exists (head ++ y ++ par ++ nl ++ nl). split; [|split].
      * now rewrite !Happ.
      * replace (head ++ y ++ par ++ nl ++ nl)
          with ((head ++ y ++ par ++ nl) ++ nl) by (rewrite !Happ; reflexivity).
        apply endsLine_nl.
      * intros _. exists (y ++ par ++ nl ++ nl). unfold head.
        now rewrite !Happ.
    + exists (head ++ y). split; [|split].
      * now rewrite !Happ.
      * now rewrite endsLine_app, Ehead.
      * intros _. exists y. unfold head. now rewrite !Happ.
  - destruct (fold_rewriteLine_appends config (split LF (trim section))
                (mkDocState markdown "")) as (y & Hy & Ey).
    cbn [d_markdown] in Hy. rewrite Hy.
    match goal with
    | |- context [negb (isEmpty ?p)] => destruct (negb (isEmpty p)); set (par := p)
    end.
    + exists (y ++ par ++ nl ++ nl). split; [|split].
      * now rewrite !Happ.
      * replace (y ++ par ++ nl ++ nl)
          with ((y ++ par ++ nl) ++ nl) by (rewrite !Happ; reflexivity).
        apply endsLine_nl.
      * discriminate.
    + exists y. split; [reflexivity|split; [assumption|discriminate]].
Qed.

(** All sections: the result extends [markdown] by whole lines, and every
    section that starts with a header line has its header in it, at the
    start of a line. *)
Lemma processSections_headers config hashes sections markdown :
  repeatCount "#" (mathMin (headingDepth config) (int 3)) = Returned hashes ->
  endsLine true markdown = true ->
  exists x,
    processSections config markdown sections = Returned (markdown ++ x) /\
    endsLine true x = true /\
    forall section,
      In section sections -> sectionHasHeader section = true ->
      exists pre post,
        markdown ++ x
        = pre ++ hashes ++ " " ++ trim (hd "" (split LF (trim section)))
          ++ nl ++ nl ++ post /\
        endsLine true pre = true.
Proof.
  intros Hrep. revert markdown.
  pose proof append_assoc as Happ.
  induction sections as [|s ss IH]; intros markdown Hmd;
    cbn [processSections].
  - exists "". split; [|split; [reflexivity|intros ? []]].
    now rewrite append_nil_r.
  - destruct (processSection_appends config markdown s hashes Hrep)
      as (x & -> & Ex & Hx).
    cbn [bind].
    destruct (IH (markdown ++ x)) as (y & -> & Ey & Hy).
    { now rewrite endsLine_app, Hmd. }
    exists (x ++ y). split; [now rewrite Happ|split].
    + now rewrite endsLine_app, Ex.
    + intros section [<-|Hin] Hh.
      * destruct (Hx Hh) as (post & ->).
        exists markdown, (post ++ y). split; [|assumption].
        now rewrite !Happ.
      * destruct (Hy section Hin Hh) as (pre & post & E & Hpre).
        exists pre, post. split; [|assumption].
        rewrite <- E. now rewrite Happ.
Qed.

Lemma processSection_deep config markdown section q :
  headingDepth config = Finite q ->
  (inject_Z 3 <= q)%Q ->
  processSection config markdown section
  = processSection (withDepth (int 3) config) markdown section.
Proof.
  intros Hd Hq. unfold processSection.
  assert (Hrep : repeatCount "#" (mathMin (headingDepth config) (int 3))
                 = repeatCount "#"
                     (mathMin (headingDepth (withDepth (int 3) config)) (int 3))).
  { rewrite Hd. rewrite repeatCount_level.
    - now rewrite headerLevel_deep.
    - apply Qlt_le_trans with (inject_Z 3); [reflexivity|assumption]. }
  rewrite <- Hrep.
  destruct (headerTest _); cbn [bind].
  - destruct (repeatCount "#" _); cbn [bind]; [|reflexivity].
    now rewrite fold_rewriteLine_withDepth.
  - now rewrite fold_rewriteLine_withDepth.
Qed.

Lemma processSections_deep config sections markdown q :
  headingDepth config = Finite q ->
  (inject_Z 3 <= q)%Q ->
  processSections config markdown sections
  = processSections (withDepth (int 3) config) markdown sections.
Proof.
  intros Hd Hq. revert markdown.
  induction sections as [|s ss IH]; intros markdown; simpl; [reflexivity|].
  rewrite <- (processSection_deep config markdown s q Hd Hq).
  destruct (processSection config markdown s); simpl; [apply IH|reflexivity].
Qed.

(** C5 (as amended).  The rewriter checks no configuration value.  With
    any finite heading depth above -1, depths above 6 and fractions
    included, it returns the trimmed concatenation of its sections, and in
    it every section that starts with a header line has its header at the
    start of a line, with exactly [headerLevel] hash signs: the depth
    without its fraction, capped at 3, which for an integer depth [n] is
    min(n, 3).  So every depth from 3 on gives what depth 3 gives. *)
Theorem rewriter_accepts_any_depth (text : string) (config : StructureConfig)
  (q : Q) :
  headingDepth config = Finite q ->
  (inject_Z (-1) < q)%Q ->
  exists raw,
    processSections config "" (splitSections text) = Returned raw /\
    processDocument text config = Returned (trim raw) /\
    (forall section,
       In section (splitSections text) -> sectionHasHeader section = true ->
       exists pre post,
         raw = pre ++ headerLineOf (headerLevel q) section ++ nl ++ nl ++ post /\
         endsLine true pre = true) /\
    (forall n, q = inject_Z n -> headerLevel q = Z.to_nat (Z.min n 3)) /\
    ((inject_Z 3 <= q)%Q ->
     headerLevel q = 3%nat /\
     processDocument text config
     = processDocument text (withDepth (int 3) config)).
Proof.
  intros Hd Hq.
  assert (Hrep : repeatCount "#" (mathMin (headingDepth config) (int 3))
                 = Returned (JS.repeat "#" (headerLevel q)))
    by (rewrite Hd; now apply repeatCount_level).
  destruct (processSections_headers config _ (splitSections text) "" Hrep
              eq_refl) as (raw & Hraw & _ & Hh).
  cbn [append] in Hraw, Hh.
  exists raw. split; [assumption|split; [|split; [|split]]].
  - unfold processDocument. rewrite Hraw. reflexivity.
  - intros section Hin Hs. destruct (Hh section Hin Hs) as (pre & post & E & Hp).
    exists pre, post. split; [|assumption]. rewrite E. unfold headerLineOf.
    f_equal.
    pose proof append_assoc as Happ.
    now rewrite !Happ.
  - intros n ->. apply headerLevel_int.
  - intros H3. split; [now apply headerLevel_deep|].
    unfold processDocument.
    now rewrite (processSections_deep config _ "" q Hd H3).
Qed.

Lemma rewriter_accepts_any_depth_witness :
  exists raw,
    processSections depthNine "" (splitSections "Title.") = Returned raw /\
    processDocument "Title." depthNine = Returned (trim raw) /\
    (forall section,
       In section (splitSections "Title.") -> sectionHasHeader section = true ->
       exists pre post,
         raw = pre ++ headerLineOf (headerLevel (inject_Z 9)) section
               ++ nl ++ nl ++ post /\
         endsLine true pre = true) /\
    (forall n, inject_Z 9 = inject_Z n ->
               headerLevel (inject_Z 9) = Z.to_nat (Z.min n 3)) /\
    ((inject_Z 3 <= inject_Z 9)%Q ->
     headerLevel (inject_Z 9) = 3%nat /\
     processDocument "Title." depthNine
     = processDocument "Title." (withDepth (int 3) depthNine)).
Proof.
  apply (rewriter_accepts_any_depth "Title." depthNine (inject_Z 9)).
  - reflexivity.
  - reflexivity.
Defined.

(** C5 fails as stated: a heading depth of 9 lies outside 1..6, and the
    rewriter returns a level-3 heading instead of failing. *)
Lemma out_of_range_depth_is_accepted :
  headingDepth depthNine = int 9 /\
  ~ (1 <= 9 <= 6)%Z /\
  processDocument "Title." depthNine = Returned "### Title.".
Proof.
  split; [reflexivity|split; [lia|reflexivity]].
Qed.

(** The failure the rewriter has: a depth of -1 or less reaches
    [String.prototype.repeat] when a section opens with a header line.  A
    fraction above -1 does not: it counts as 0. *)
Example negative_depth_example :
  processDocument "Title." (withDepth (int (-1)) depthNine) = Thrown RangeError
  /\ processDocument "Title." (withDepth (Finite (-1 # 2)) depthNine)
     = Returned "Title."
  /\ processDocument "Title." (withDepth (Finite (7 # 2)) depthNine)
     = Returned "### Title."
  /\ processDocument "Title." (withDepth NotANumber depthNine)
     = Returned "Title.".
Proof. repeat split; reflexivity. Qed.

(* ===================================================================== *)
(** ** Validation of rendered output *)
(* ===================================================================== *)

Lemma takeWhile_hashes n r :
  takeWhile (Ascii.eqb "#") (JS.repeat "#" n ++ String " " r) = JS.repeat "#" n.
Proof. induction n as [|n IH]; simpl; [reflexivity|now rewrite IH]. Qed.

Lemma skipWhile_hashes n r :
  skipWhile (Ascii.eqb "#") (JS.repeat "#" n ++ String " " r) = String " " r.
Proof. induction n as [|n IH]; simpl; [reflexivity|exact IH]. Qed.

Lemma repeat_length c n : String.length (JS.repeat c n) = n.
Proof. induction n as [|n IH]; simpl; [reflexivity|now rewrite IH]. Qed.















(** *** ATX heading lines in the input *)

Lemma atxMatch_hash line n t :
  atxMatch line = Some (n, t) -> exists r, line = String "#" r.
Proof.
  unfold atxMatch. destruct line as [|c r]; [discriminate|].
  cbn [takeWhile]. destruct (Ascii.eqb_spec "#" c) as [<-|Hc].
  - eauto.
  - discriminate.
Qed.

Lemma atxMatch_level line n t :
  atxMatch line = Some (n, t) -> (1 <= n <= 6)%nat.
Proof.
  unfold atxMatch.
  destruct ((1 <=? String.length (takeWhile (Ascii.eqb "#") line))
            && (String.length (takeWhile (Ascii.eqb "#") line) <=? 6))%nat
    eqn:Hn; [|discriminate].
  destruct (spaces1 _); [|discriminate].
  intros [= <- _]. apply andb_true_iff in Hn as [H1 H2].
  apply Nat.leb_le in H1, H2. lia.
Qed.

Lemma trimEnd_fixed_tail c r :
  trimEnd (String c r) = String c r -> r <> "" -> trimEnd r = r.
Proof.
  cbn [trimEnd]. destruct (trimEnd r) as [|d r'] eqn:E.
  - destruct (isSpace c); intros [=]; congruence.
  - intros [= <-]. reflexivity.
Qed.

Lemma trimEnd_fixed_skipWhile p s :
  trimEnd s = s -> trimEnd (skipWhile p s) = skipWhile p s.
Proof.
  induction s as [|c r IH]; intros H; [reflexivity|].
  cbn [skipWhile]. destruct (p c); [|exact H].
  destruct r as [|d r']; [reflexivity|].
  apply IH, (trimEnd_fixed_tail c); [exact H|discriminate].
Qed.

Lemma trimEnd_fixed_nonspace s :
  trimEnd s = s -> s <> "" ->
  exists c r, skipWhile isSpace s = String c r /\ isSpace c = false.
Proof.
  induction s as [|c r IH]; intros H Hne; [congruence|].
  cbn [skipWhile]. destruct (isSpace c) eqn:Hc; [|eauto].
  destruct r as [|d r'].
  - cbn in H. rewrite Hc in H. discriminate.
  - apply IH; [|discriminate].
    apply (trimEnd_fixed_tail c); [exact H|discriminate].
Qed.

Lemma nonspace_not_terminator c : isSpace c = false -> isLineTerminator c = false.
Proof.
  destruct c as [[] [] [] [] [] [] [] []]; simpl; intros H;
    try discriminate; reflexivity.
Qed.

Lemma atxMatch_text line n t :
  trimEnd line = line ->
  atxMatch line = Some (n, t) ->
  exists c r, trim t = String c r /\ isSpace c = false.
Proof.
  intros Hfix. unfold atxMatch.
  destruct ((1 <=? _) && _)%nat; [|discriminate].
  pose proof (trimEnd_fixed_skipWhile (Ascii.eqb "#") line Hfix) as Hrest.
  destruct (skipWhile (Ascii.eqb "#") line) as [|w r1] eqn:E; [discriminate|].
  unfold spaces1. destruct (isSpace w) eqn:Hw; [|discriminate].
  intros [= _ <-].
  destruct (trimEnd_fixed_nonspace (String w r1) Hrest) as (c & r & Hs & Hc);
    [discriminate|].
  cbn [skipWhile] in Hs. rewrite Hw in Hs. rewrite Hs.
  cbn [takeWhile]. rewrite (nonspace_not_terminator c Hc). cbn [negb].
  unfold trim. rewrite (trimStart_fixed c _ Hc).
  destruct (trimEnd_head c (takeWhile (fun c0 => negb (isLineTerminator c0)) r) Hc)
    as [r' ->].
  eauto.
Qed.

Lemma trim_fixed_by_trimEnd line : trimEnd (trim line) = trim line.
Proof. unfold trim. apply trimEnd_idempotent. Qed.

Lemma trim_head_trimStart line c r :
  trim line = String c r -> exists r0, trimStart line = String c r0.
Proof.
  unfold trim. destruct (trimStart_cases line) as [E|(d & r0 & E & Hd)];
    rewrite E.
  - discriminate.
  - destruct (trimEnd_head d r0 Hd) as [r' ->]. intros [= <- _]. eauto.
Qed.

Lemma atx_line_reachesHeading line n t :
  atxMatch (trim line) = Some (n, t) -> reachesHeading line.
Proof.
  intros H. destruct (atxMatch_hash _ _ _ H) as [r Hr].
  unfold reachesHeading. rewrite Hr. repeat split.
  destruct (trim_head_trimStart _ _ _ Hr) as [r0 Hr0].
  unfold detectListType, listPatterns, detectListTypeIn, matchListPattern.
  unfold trimStart in Hr0. rewrite Hr0. reflexivity.
Qed.



Lemma processLine_codeFlag lines st line i :
  codeFlagIs (xorb (inCodeBlock st) (isFenceLine line))
             (processLine lines st line i).
Proof.
  unfold processLine, isFenceLine; cbv zeta. repeat head_case.
  all: unfold codeFlagIs; try reflexivity.
  all: try (destruct st; simpl in *; congruence).
Qed.

Lemma forEachFrom_codeFlag all i rest st :
  inCodeBlock (forEachFrom all i rest st)
  = xorb (inCodeBlock st)
         (Nat.odd (List.length (filter isFenceLine rest))).
Proof.
  revert i st. induction rest as [|l rest IH]; intros i st; simpl.
  - now rewrite xorb_false_r.
  - rewrite IH, (processLine_codeFlag all st l i).
    destruct (isFenceLine l); simpl.
    + rewrite Nat.odd_succ, <- Nat.negb_odd.
      destruct (inCodeBlock st), (Nat.odd _); reflexivity.
    + now rewrite xorb_false_r.
Qed.



(* ===================================================================== *)
(** ** Rendering and analysing again *)
(* ===================================================================== *)

(** *** Lines and text *)

Lemma noLF_app a b : noLF a -> noLF b -> noLF (a ++ b).
Proof.
  unfold noLF. induction a as [|c a IH]; simpl; intros Ha Hb; [exact Hb|].
  apply andb_true_iff in Ha as [Hc Ha]. rewrite Hc. exact (IH Ha Hb).
Qed.

Lemma split_concatNl ls :
  Forall noLF ls -> split LF (concatNl ls) = (ls ++ [""])%list.
Proof.
  induction 1 as [|l ls Hl Hls IH]; [reflexivity|].
  cbn [concatNl]. change (l ++ nl ++ concatNl ls)
    with (l ++ String LF (concatNl ls)).
  rewrite (split_app_LF _ _ Hl), IH. reflexivity.
Qed.

Lemma split_joinLines ls :
  Forall noLF ls -> ls <> [] -> split LF (joinLines ls) = ls.
Proof.
  induction 1 as [|l ls Hl Hls IH]; intros Hne; [congruence|].
  destruct ls as [|l' ls'].
  - cbn [joinLines]. apply split_noLF, Hl.
  - change (joinLines (l :: l' :: ls'))
      with (l ++ String LF (joinLines (l' :: ls'))).
    rewrite (split_app_LF _ _ Hl), IH; [reflexivity|discriminate].
Qed.

Lemma concatNl_app xs ys : concatNl (xs ++ ys) = concatNl xs ++ concatNl ys.
Proof.
  induction xs as [|x xs IH]; [reflexivity|].
  cbn [concatNl List.app]. rewrite IH. now rewrite !append_assoc.
Qed.

Lemma concatNl_joinLines ls :
  ls <> [] -> concatNl ls = joinLines ls ++ nl.
Proof.
  induction ls as [|l ls IH]; intros Hne; [congruence|].
  destruct ls as [|l' ls'].
  - reflexivity.
  - change (concatNl (l :: l' :: ls')) with (l ++ nl ++ concatNl (l' :: ls')).
    change (joinLines (l :: l' :: ls')) with (l ++ nl ++ joinLines (l' :: ls')).
    rewrite IH by discriminate. now rewrite !append_assoc.
Qed.

Lemma joinLines_cons x ls :
  ls <> [] -> joinLines (x :: ls) = x ++ nl ++ joinLines ls.
Proof. destruct ls; [congruence|reflexivity]. Qed.

Lemma joinLines_last xs l :
  exists a, joinLines (xs ++ [l]) = a ++ l.
Proof.
  induction xs as [|x xs [a IH]].
  - exists "". reflexivity.
  - exists (x ++ nl ++ a).
    cbn [List.app]. rewrite joinLines_cons by (destruct xs; discriminate).
    rewrite IH. now rewrite !append_assoc.
Qed.

Lemma trimEnd_app_fixed a b :
  trimEnd b = b -> b <> "" -> trimEnd (a ++ b) = a ++ b.
Proof.
  intros Hb Hne. induction a as [|c a IH]; [exact Hb|].
  cbn [append trimEnd]. rewrite IH.
  destruct (a ++ b) eqn:E; [|reflexivity].
  destruct a; simpl in E; congruence.
Qed.

Lemma trimEnd_spaces w : forallb isSpace w = true -> trimEnd w = "".
Proof.
  induction w as [|c w IH]; simpl; intros H; [reflexivity|].
  apply andb_true_iff in H as [Hc Hw]. now rewrite (IH Hw), Hc.
Qed.

Lemma trimEnd_app_spaces x w :
  forallb isSpace w = true -> trimEnd (x ++ w) = trimEnd x.
Proof.
  intros Hw. induction x as [|c x IH].
  - simpl. now apply trimEnd_spaces.
  - cbn [append trimEnd]. now rewrite IH.
Qed.

Lemma concatNl_blanks blanks :
  Forall (fun l => l = "") blanks -> forallb isSpace (concatNl blanks) = true.
Proof.
  induction 1 as [|l ls -> _ IH]; [reflexivity|]. cbn. exact IH.
Qed.

(** Trimming a rendering leaves its lines up to the last one that is not
    blank, joined by line feeds. *)
Lemma trim_rendering core l blanks c r :
  hd "" (core ++ [l])%list = String c r ->
  isSpace c = false ->
  trimEnd l = l -> l <> "" ->
  Forall (fun x => x = "") blanks ->
  trim (concatNl ((core ++ [l]) ++ blanks)) = joinLines (core ++ [l]).
Proof.
  intros Hhd Hc Hl Hne Hblanks.
  rewrite concatNl_app, concatNl_joinLines by (destruct core; discriminate).
  rewrite append_assoc.
  assert (Hstart : exists r', joinLines (core ++ [l]) = String c r').
  { destruct core as [|x core]; cbn [List.app hd] in Hhd.
    - cbn. eauto.
    - subst x. destruct (core ++ [l])%list eqn:E.
      + destruct core; discriminate.
      + cbn [List.app joinLines]. rewrite E. cbn. eauto. }
  destruct Hstart as [r' Hstart].
  unfold trim. rewrite Hstart. cbn [append].
  rewrite (trimStart_fixed c _ Hc).
  change (String c (r' ++ nl ++ concatNl blanks))
    with (String c r' ++ (nl ++ concatNl blanks)).
  rewrite trimEnd_app_spaces by (cbn; now apply concatNl_blanks).
  rewrite <- Hstart.
  destruct (joinLines_last core l) as [a ->].
  now apply trimEnd_app_fixed.
Qed.

(** *** What the renderer prints for a stable block *)

Lemma cleanLine_head c :
  cleanLine c -> exists a r, c = String a r /\ isSpace a = false.
Proof.
  intros (Hne & Htrim & _).
  destruct (trim_cases c) as [E|(a & r & E & Ha)]; rewrite Htrim in E.
  - congruence.
  - eauto.
Qed.

Lemma cleanLine_trimEnd c : cleanLine c -> trimEnd c = c.
Proof.
  intros (_ & Htrim & _). rewrite <- Htrim at 1.
  rewrite trim_fixed_by_trimEnd. exact Htrim.
Qed.

Lemma cleanLine_noLF c : cleanLine c -> noLF c.
Proof.
  intros (_ & _ & H). unfold noLF. revert H.
  induction c as [|a c IH]; simpl; [reflexivity|].
  intros H. apply andb_true_iff in H as [Ha Hc]. rewrite (IH Hc), andb_true_r.
  destruct (Ascii.eqb_spec a LF) as [->|]; [discriminate Ha|reflexivity].
Qed.

Lemma removelast_snoc {A} (l : list A) x : removelast (l ++ [x]) = l.
Proof. apply removelast_last. Qed.

Lemma renderBlock_lines rs b :
  stableBlock b ->
  markdown (renderBlock rs b) = markdown rs ++ concatNl (blockLines b).
Proof.
  intros Hb. destruct Hb as [lvl c Hlvl Hc|c Hc Hp|c Hc|c Hc|ls Hls|c Hne Hc Hlf];
    unfold renderBlock, blockLines;
    cbn [type content headingBlock paragraphBlock listBlock codeBlock quoteBlock
         markdown blockLevel blockListType blockListIndex metadata level
         listType listIndex concatNl].
  - destruct lvl as [|lvl]; [lia|]. rewrite ?append_assoc; reflexivity.
  - rewrite ?append_assoc; reflexivity.
  - unfold listPrefix.
    cbn [blockListType blockListIndex metadata listType listIndex listBlock].
    destruct (negb (listStarted rs) || _); cbn [markdown];
      [|destruct (r_listType rs) as [[]|]]; rewrite ?append_assoc; reflexivity.
  - unfold listPrefix.
    cbn [blockListType blockListIndex metadata listType listIndex listBlock].
    destruct (listStarted rs), (r_listType rs) as [[]|];
      cbn; rewrite ?append_assoc; reflexivity.
  - rewrite split_concatNl, removelast_snoc
      by (eapply Forall_impl; [|exact Hls]; intros l Hl; exact (proj1 Hl)).
    rewrite concatNl_app. cbn [concatNl]. rewrite ?append_assoc; reflexivity.
  - rewrite ?append_assoc; reflexivity.
Qed.

Lemma fold_renderBlock_lines bs rs :
  Forall stableBlock bs ->
  markdown (fold_left renderBlock bs rs)
  = markdown rs ++ concatNl (flat_map blockLines bs).
Proof.
  intros H. revert rs. induction H as [|b bs Hb Hbs IH]; intros rs.
  - cbn. now rewrite append_nil_r.
  - cbn [fold_left flat_map]. rewrite IH, (renderBlock_lines rs b Hb).
    rewrite concatNl_app. now rewrite append_assoc.
Qed.

(** *** The remaining branches of one step *)

Lemma processLine_fence_open lines st line i :
  isFenceLine line = true ->
  inCodeBlock st = false ->
  processLine lines st line i
  = mkState (blocks st) (currentBlock st) true (codeBlockContent st).
Proof.
  unfold isFenceLine, processLine. intros H1 H2. now rewrite H1, H2.
Qed.

Lemma processLine_fence_close lines st line i :
  isFenceLine line = true ->
  inCodeBlock st = true ->
  processLine lines st line i
  = mkState (push (blocks st) (codeBlock (codeBlockContent st)))
            (currentBlock st) false "".
Proof.
  unfold isFenceLine, processLine. intros H1 H2. now rewrite H1, H2.
Qed.

Lemma processLine_code lines st line i :
  isFenceLine line = false ->
  inCodeBlock st = true ->
  processLine lines st line i
  = mkState (blocks st) (currentBlock st) true
            (codeBlockContent st ++ line ++ nl).
Proof.
  unfold isFenceLine, processLine. intros H1 H2. now rewrite H1, H2.
Qed.

Lemma processLine_blank lines st i :
  inCodeBlock st = false ->
  processLine lines st "" i
  = match currentBlock st with
    | Some b =>
        if negb (BlockType_eqb (type b) list_item)
        then mkState (push (blocks st) b) None false (codeBlockContent st)
        else st
    | None => st
    end.
Proof.
  unfold processLine. intros H. rewrite H. reflexivity.
Qed.

Lemma processLine_quote lines st line i :
  isFenceLine line = false ->
  inCodeBlock st = false ->
  isEmpty (trim line) = false ->
  startsWith ">" (trim line) = true ->
  currentBlock st = None ->
  processLine lines st line i
  = mkState (blocks st) (Some (quoteBlock (stripQuoteMarker (trim line))))
            false (codeBlockContent st).
Proof.
  unfold isFenceLine, processLine. intros H1 H2 H3 H4 H5.
  now rewrite H1, H2, H3, H4, H5.
Qed.

Lemma processLine_list lines st line i lm :
  isFenceLine line = false ->
  inCodeBlock st = false ->
  isEmpty (trim line) = false ->
  startsWith ">" (trim line) = false ->
  detectListType line = Some lm ->
  currentBlock st = None ->
  processLine lines st line i
  = mkState
      (push (blocks st)
            (listBlock (trim (replacePattern (lm_pattern lm) line))
                       (lm_type lm)
                       match lm_type lm with
                       | numbered =>
                           Some (parseInt match lm_index lm with
                                          | Some "" | None => "1"
                                          | Some i => i
                                          end)
                       | bullet => None
                       end))
      None false (codeBlockContent st).
Proof.
  unfold isFenceLine, processLine. intros H1 H2 H3 H4 H5 H6.
  now rewrite H1, H2, H3, H4, H5, H6.
Qed.

(** *** What each line appends *)

Lemma processLine_list_item lines st line i lm :
  isFenceLine line = false ->
  inCodeBlock st = false ->
  isEmpty (trim line) = false ->
  startsWith ">" (trim line) = false ->
  detectListType line = Some lm ->
  openKind (currentBlock st) ->
  processLine lines st line i
  = mkState (push (pushOpen (blocks st) (currentBlock st)) (listItemOf lm line))
            None false (codeBlockContent st).
Proof.
  unfold isFenceLine, processLine. intros H1 H2 H3 H4 H5 Hopen.
  rewrite H1, H2, H3, H4, H5.
  destruct (currentBlock st) as [b|]; cbn [openKind] in Hopen; [|reflexivity].
  destruct Hopen as [E|E]; rewrite E; reflexivity.
Qed.

Lemma processLine_heading_line lines st line i :
  reachesHeading line ->
  inCodeBlock st = false ->
  isHeading (analyzeHeading (trim line) lines i) = true ->
  processLine lines st line i
  = mkState (push (pushOpen (blocks st) (currentBlock st))
                  (headingOf (analyzeHeading (trim line) lines i)))
            (if negb (isEmpty (remainingContent
                                 (analyzeHeading (trim line) lines i)))
             then Some (paragraphBlock
                          (remainingContent (analyzeHeading (trim line) lines i)))
             else None)
            false (codeBlockContent st).
Proof.
  intros (H1 & H2 & H3 & H4) Hin Hh. unfold processLine.
  rewrite H1, Hin, H2, H3, H4, Hh.
  destruct (negb _); reflexivity.
Qed.

(** C10.  After any number of lines the open block, if there is one, is a
    paragraph or a quote; the blocks that the next line appends are the
    block that was open or a heading, list item or code block; and a code
    block, a list item and a heading are each appended on the very line that
    completes them: the closing fence, the list line, the heading line. *)
Theorem open_block_is_paragraph_or_quote (text : string) (n : nat) :
  openKind (currentBlock (stateAfter text n)) /\
  (exists emitted,
     blocks (stateAfter text (S n))
     = (blocks (stateAfter text n) ++ emitted)%list /\
     Forall (fun b => Some b = currentBlock (stateAfter text n)
                      \/ type b = heading \/ type b = list_item
                      \/ type b = code) emitted) /\
  ((n < List.length (split LF text))%nat ->
   (isFenceLine (lineAt text n) = true ->
    inCodeBlock (stateAfter text n) = true ->
    stateAfter text (S n)
    = mkState (blocks (stateAfter text n)
                 ++ [codeBlock (codeBlockContent (stateAfter text n))])%list
              (currentBlock (stateAfter text n)) false "") /\
   (forall lm,
      isFenceLine (lineAt text n) = false ->
      inCodeBlock (stateAfter text n) = false ->
      isEmpty (trim (lineAt text n)) = false ->
      startsWith ">" (trim (lineAt text n)) = false ->
      detectListType (lineAt text n) = Some lm ->
      stateAfter text (S n)
      = mkState (pushOpen (blocks (stateAfter text n))
                          (currentBlock (stateAfter text n))
                   ++ [listItemOf lm (lineAt text n)])%list
                None false (codeBlockContent (stateAfter text n))) /\
   (reachesHeading (lineAt text n) ->
    inCodeBlock (stateAfter text n) = false ->
    isHeading (headingAt text n) = true ->
    stateAfter text (S n)
    = mkState (pushOpen (blocks (stateAfter text n))
                        (currentBlock (stateAfter text n))
                 ++ [headingOf (headingAt text n)])%list
              (if negb (isEmpty (remainingContent (headingAt text n)))
               then Some (paragraphBlock (remainingContent (headingAt text n)))
               else None)
              false (codeBlockContent (stateAfter text n)))).
Proof.
  assert (Hopen : openKind (currentBlock (stateAfter text n)))
    by (unfold stateAfter; apply forEachFrom_openKind; exact I).
  split; [exact Hopen|split].
  - destruct (Nat.lt_ge_cases n (List.length (split LF text))) as [Hn|Hn].
    + rewrite stateAfter_S by exact Hn. apply processLine_emits.
    + rewrite stateAfter_past by exact Hn.
      exists []. split; [now rewrite app_nil_r|constructor].
  - intros Hn. rewrite (stateAfter_S text n Hn).
    unfold lineAt, headingAt, lineAt. split; [|split].
    + intros Hf Hin. now apply processLine_fence_close.
    + intros lm H1 H2 H3 H4 H5. now apply processLine_list_item.
    + intros Hr Hin Hh. now apply processLine_heading_line.
Qed.

(** A closing fence, a list line and a heading line at work: the block is
    in [blocks] right after its line. *)
Example blocks_are_appended_at_once :
  let text := "# Title" ++ nl ++ "- item" ++ nl ++ "```" ++ nl ++ "x" ++ nl
              ++ "```" in
  blocks (stateAfter text 1) = [headingBlock "Title" (Some 1%nat)]
  /\ blocks (stateAfter text 2)
     = [headingBlock "Title" (Some 1%nat); listBlock "item" bullet None]
  /\ blocks (stateAfter text 4)
     = [headingBlock "Title" (Some 1%nat); listBlock "item" bullet None]
  /\ blocks (stateAfter text 5)
     = [headingBlock "Title" (Some 1%nat); listBlock "item" bullet None;
        codeBlock ("x" ++ nl)].
Proof. repeat split; reflexivity. Qed.

(** *** The Setext test at a given index *)

Lemma setextLevel_at pre l rest :
  setextLevel (pre ++ l :: rest) (List.length pre)
  = match rest with
    | [] => None
    | next :: _ =>
        if underline "=" next then Some 1%nat
        else if underline "-" next then Some 2%nat
        else None
    end.
Proof.
  unfold setextLevel. rewrite length_app. cbn [List.length].
  destruct rest as [|next rest'].
  - cbn [List.length].
    replace (List.length pre + 1 - 1)%nat with (List.length pre) by lia.
    now rewrite Nat.ltb_irrefl.
  - cbn [List.length].
    assert (Hlt : (List.length pre <? List.length pre + S (S (List.length rest')) - 1)%nat
                  = true) by (apply Nat.ltb_lt; lia).
    rewrite Hlt.
    replace (nth (List.length pre + 1) (pre ++ l :: next :: rest') "") with next;
      [reflexivity|].
    rewrite app_nth2 by lia.
    replace (List.length pre + 1 - List.length pre)%nat with 1%nat by lia.
    reflexivity.
Qed.

(** *** Reading one rendered block back *)

Lemma takeWhile_all p s : forallb p s = true -> takeWhile p s = s.
Proof.
  induction s as [|c s IH]; simpl; intros H; [reflexivity|].
  apply andb_true_iff in H as [Hc Hs]. now rewrite Hc, (IH Hs).
Qed.

Lemma skipWhile_space_clean c : cleanLine c -> skipWhile isSpace c = c.
Proof.
  intros Hc. destruct (cleanLine_head c Hc) as (a & r & -> & Ha).
  cbn [skipWhile]. now rewrite Ha.
Qed.

Lemma trim_prefixed x m c :
  isSpace x = false -> trimEnd c = c -> c <> "" ->
  trim (String x (m ++ c)) = String x (m ++ c).
Proof.
  intros Hx Hc Hne. unfold trim. rewrite (trimStart_fixed x _ Hx).
  change (String x (m ++ c)) with (String x m ++ c).
  now apply trimEnd_app_fixed.
Qed.

Lemma atxMatch_rendered lvl c :
  (1 <= lvl <= 6)%nat -> cleanLine c ->
  atxMatch (JS.repeat "#" lvl ++ String " " c) = Some (lvl, c).
Proof.
  intros [Hlo Hhi] Hc. unfold atxMatch.
  rewrite takeWhile_hashes, skipWhile_hashes, repeat_length.
  apply Nat.leb_le in Hlo, Hhi. rewrite Hlo, Hhi. cbn [andb].
  unfold spaces1. change (isSpace " ") with true. cbv iota.
  rewrite (skipWhile_space_clean c Hc).
  rewrite takeWhile_all by (exact (proj2 (proj2 Hc))).
  reflexivity.
Qed.

Lemma heading_line_trimmed lvl c :
  (1 <= lvl)%nat -> cleanLine c ->
  trim (JS.repeat "#" lvl ++ String " " c) = JS.repeat "#" lvl ++ String " " c.
Proof.
  intros Hlvl Hc. destruct lvl as [|n]; [lia|].
  cbn [JS.repeat append].
  change (String " " c) with (" " ++ c). rewrite <- append_assoc.
  apply trim_prefixed; [reflexivity|now apply cleanLine_trimEnd|exact (proj1 Hc)].
Qed.

Lemma read_heading_line all i lvl c B :
  (1 <= lvl <= 6)%nat -> cleanLine c ->
  processLine all (betweenBlocks B) (JS.repeat "#" lvl ++ String " " c) i
  = betweenBlocks (B ++ [headingBlock c (Some lvl)]).
Proof.
  intros Hlvl Hc.
  pose proof (heading_line_trimmed lvl c (proj1 Hlvl) Hc) as Htrim.
  pose proof (atxMatch_rendered lvl c Hlvl Hc) as Hatx.
  assert (Hh : analyzeHeading (trim (JS.repeat "#" lvl ++ String " " c)) all i
               = mkHeadingAnalysis true c "" (Some lvl)).
  { unfold analyzeHeading. rewrite Htrim, Hatx.
    now rewrite (proj1 (proj2 Hc)). }
  rewrite (processLine_heading all (betweenBlocks B) _ i);
    [|apply (atx_line_reachesHeading _ lvl c); now rewrite Htrim
     |reflexivity|now rewrite Hh|now rewrite Hh].
  rewrite Hh. reflexivity.
Qed.

Lemma read_heading all i lvl c B :
  (1 <= lvl <= 6)%nat -> cleanLine c ->
  forEachFrom all i [JS.repeat "#" lvl ++ " " ++ c; ""] (betweenBlocks B)
  = betweenBlocks (B ++ [headingBlock c (Some lvl)]).
Proof.
  intros Hlvl Hc. change (" " ++ c) with (String " " c).
  cbn [forEachFrom]. rewrite (read_heading_line all i lvl c B Hlvl Hc).
  rewrite processLine_blank by reflexivity. reflexivity.
Qed.

Lemma read_paragraph pre rest c B :
  cleanLine c -> plainText c ->
  forEachFrom (pre ++ [c; ""] ++ rest) (List.length pre) [c; ""]
              (betweenBlocks B)
  = betweenBlocks (B ++ [paragraphBlock c]).
Proof.
  intros Hc (Hf & Hq & Hl & Ha & Hp & Ht).
  destruct Hc as (Hne & Htrim & Hlt).
  assert (Hreach : reachesHeading c).
  { unfold reachesHeading. rewrite Htrim. repeat split; auto.
    now apply isEmpty_false. }
  assert (Hh : analyzeHeading (trim c) (pre ++ [c; ""] ++ rest) (List.length pre)
               = mkHeadingAnalysis false "" c None).
  { rewrite Htrim, analyzeHeading_fallback; auto.
    - now rewrite Ht.
    - cbn [List.app]. rewrite setextLevel_at. reflexivity. }
  cbn [forEachFrom].
  rewrite (processLine_plain _ (betweenBlocks B) c _ Hreach eq_refl)
    by (now rewrite Hh).
  cbn [betweenBlocks currentBlock blocks codeBlockContent]. rewrite Htrim.
  rewrite processLine_blank by reflexivity. reflexivity.
Qed.

Lemma read_quote all i c B :
  c <> "" -> trimEnd c = c ->
  forEachFrom all i ["> " ++ c; ""] (betweenBlocks B)
  = betweenBlocks (B ++ [quoteBlock c]).
Proof.
  intros Hne Hc. change ("> " ++ c) with (String ">" (" " ++ c)).
  assert (Htrim : trim (String ">" (" " ++ c)) = String ">" (" " ++ c))
    by (apply trim_prefixed; auto).
  cbn [forEachFrom].
  rewrite (processLine_quote all (betweenBlocks B) _ i);
    [|first [reflexivity|unfold isFenceLine; rewrite Htrim; reflexivity] ..].
  rewrite Htrim. cbn [stripQuoteMarker append betweenBlocks blocks
                      codeBlockContent].
  change (isSpace " ") with true. cbv iota.
  rewrite processLine_blank by reflexivity. reflexivity.
Qed.

Lemma read_bullet all i c B :
  cleanLine c ->
  forEachFrom all i ["- " ++ c] (betweenBlocks B)
  = betweenBlocks (B ++ [listBlock c bullet None]).
Proof.
  intros Hc. change ("- " ++ c) with (String "-" (" " ++ c)).
  assert (Htrim : trim (String "-" (" " ++ c)) = String "-" (" " ++ c)).
  { apply trim_prefixed; [reflexivity|now apply cleanLine_trimEnd|exact (proj1 Hc)]. }
  assert (Hd : detectListType (String "-" (" " ++ c))
               = Some (mkListMatch bullet BulletPoints (Some "-"))).
  { unfold detectListType, listPatterns, detectListTypeIn, matchListPattern,
      digitMarker.
    change (skipWhile isSpace (String "-" (" " ++ c)))
      with (String "-" (String " " c)).
    cbn [one oneOf]. change (oneOf "-*+" "-") with true. cbv iota.
    unfold spaces1. change (isSpace " ") with true. cbv iota.
    reflexivity. }
  cbn [forEachFrom].
  rewrite (processLine_list all (betweenBlocks B) _ i
             (mkListMatch bullet BulletPoints (Some "-")));
    [|first [exact Hd|reflexivity
            |unfold isFenceLine; rewrite Htrim; reflexivity] ..].
  cbn [lm_pattern lm_type betweenBlocks blocks codeBlockContent].
  unfold replacePattern, matchListPattern.
  change (skipWhile isSpace (String "-" (" " ++ c)))
    with (String "-" (String " " c)).
  cbn [one]. change (oneOf "-*+" "-") with true. cbv iota.
  unfold spaces1. change (isSpace " ") with true. cbv iota.
  cbn [after]. rewrite (skipWhile_space_clean c Hc), (proj1 (proj2 Hc)).
  reflexivity.
Qed.

Lemma read_numbered all i c B :
  cleanLine c ->
  forEachFrom all i ["1. " ++ c] (betweenBlocks B)
  = betweenBlocks (B ++ [listBlock c numbered (Some (Num 1))]).
Proof.
  intros Hc. change ("1. " ++ c) with (String "1" (". " ++ c)).
  assert (Htrim : trim (String "1" (". " ++ c)) = String "1" (". " ++ c)).
  { apply trim_prefixed; [reflexivity|now apply cleanLine_trimEnd|exact (proj1 Hc)]. }
  assert (Hd : detectListType (String "1" (". " ++ c))
               = Some (mkListMatch numbered NumberedLists None))
    by reflexivity.
  assert (Hr : replacePattern NumberedLists (String "1" (". " ++ c))
               = skipWhile isSpace c) by reflexivity.
  cbn [forEachFrom].
  rewrite (processLine_list all (betweenBlocks B) _ i
             (mkListMatch numbered NumberedLists None));
    [|first [exact Hd|reflexivity
            |unfold isFenceLine; rewrite Htrim; reflexivity] ..].
  cbn [lm_pattern lm_type lm_index betweenBlocks blocks codeBlockContent].
  rewrite Hr, (skipWhile_space_clean c Hc), (proj1 (proj2 Hc)).
  reflexivity.
Qed.

Lemma code_lines_accumulate all ls i B acc :
  Forall (fun l => noLF l /\ isFenceLine l = false) ls ->
  forEachFrom all i ls (mkState B None true acc)
  = mkState B None true (acc ++ concatNl ls).
Proof.
  intros H. revert i acc. induction H as [|l ls [_ Hl] _ IH]; intros i acc.
  - cbn. now rewrite append_nil_r.
  - cbn [forEachFrom concatNl].
    rewrite (processLine_code all (mkState B None true acc) l i Hl eq_refl).
    cbn [blocks currentBlock codeBlockContent]. rewrite IH.
    now rewrite !append_assoc.
Qed.

Lemma read_code all i ls B :
  Forall (fun l => noLF l /\ isFenceLine l = false) ls ->
  forEachFrom all i ("```" :: ls ++ ["```"; ""]) (betweenBlocks B)
  = betweenBlocks (B ++ [codeBlock (concatNl ls)]).
Proof.
  intros Hls. cbn [forEachFrom].
  rewrite (processLine_fence_open all (betweenBlocks B) "```" i eq_refl eq_refl).
  cbn [betweenBlocks blocks currentBlock codeBlockContent].
  rewrite forEachFrom_app, code_lines_accumulate by exact Hls.
  cbn [forEachFrom append].
  rewrite (processLine_fence_close all _ "```") by reflexivity.
  cbn [blocks currentBlock codeBlockContent].
  rewrite processLine_blank by reflexivity. reflexivity.
Qed.

Lemma blockLines_code ls :
  Forall (fun l => noLF l /\ isFenceLine l = false) ls ->
  blockLines (codeBlock (concatNl ls)) = ("```" :: ls ++ ["```"; ""])%list.
Proof.
  intros Hls. unfold blockLines. cbn [type codeBlock content].
  rewrite split_concatNl, removelast_snoc
    by (eapply Forall_impl; [|exact Hls]; intros l Hl; exact (proj1 Hl)).
  reflexivity.
Qed.

(** From the state between two blocks, the lines of a stable block give
    the block back. *)
Lemma read_block b pre rest B :
  stableBlock b ->
  forEachFrom (pre ++ blockLines b ++ rest) (List.length pre) (blockLines b)
              (betweenBlocks B)
  = betweenBlocks (B ++ [b]).
Proof.
  intros Hb.
  destruct Hb as [lvl c Hlvl Hc|c Hc Hp|c Hc|c Hc|ls Hls|c Hne Hc Hlf].
  - unfold blockLines at 2.
    cbn [type content headingBlock blockLevel metadata level].
    destruct lvl as [|n]; [lia|]. now apply read_heading.
  - apply (read_paragraph pre rest c B Hc Hp).
  - now apply read_bullet.
  - now apply read_numbered.
  - rewrite (blockLines_code ls Hls). now apply read_code.
  - now apply read_quote.
Qed.

Lemma read_blocks bs :
  Forall stableBlock bs ->
  forall pre rest B,
    forEachFrom (pre ++ flat_map blockLines bs ++ rest) (List.length pre)
                (flat_map blockLines bs) (betweenBlocks B)
    = betweenBlocks (B ++ bs).
Proof.
  induction 1 as [|b bs Hb Hbs IH]; intros pre rest B.
  - cbn. now rewrite app_nil_r.
  - cbn [flat_map]. rewrite forEachFrom_app.
    rewrite <- (app_assoc (blockLines b)).
    rewrite (read_block b pre (flat_map blockLines bs ++ rest) B Hb).
    specialize (IH (pre ++ blockLines b)%list rest (B ++ [b])%list).
    rewrite length_app in IH. rewrite <- !app_assoc in IH.
    exact IH.
Qed.

(** *** The rendered text as a whole *)

Lemma processLine_context all all' st line i :
  setextLevel all i = setextLevel all' i ->
  processLine all st line i = processLine all' st line i.
Proof.
  intros H. unfold processLine, analyzeHeading. rewrite H. reflexivity.
Qed.

Lemma forEachFrom_context all all' xs i st :
  (forall j, (j < List.length xs)%nat ->
             setextLevel all (i + j) = setextLevel all' (i + j)) ->
  forEachFrom all i xs st = forEachFrom all' i xs st.
Proof.
  revert i st. induction xs as [|x xs IH]; intros i st H; [reflexivity|].
  cbn [forEachFrom].
  rewrite (processLine_context all all' st x i).
  - apply IH. intros j Hj.
    replace (S i + j)%nat with (i + S j)%nat by lia.
    apply H. simpl. lia.
  - specialize (H 0%nat). rewrite Nat.add_0_r in H. apply H. simpl. lia.
Qed.

Lemma nth_split_ex {A} (l : list A) n :
  (n < List.length l)%nat ->
  exists pre x rest, l = (pre ++ x :: rest)%list /\ List.length pre = n.
Proof.
  revert n. induction l as [|a l IH]; intros n Hn; simpl in Hn; [lia|].
  destruct n as [|n].
  - exists [], a, l. auto.
  - destruct (IH n) as (pre & x & rest & -> & <-); [lia|].
    exists (a :: pre), x, rest. auto.
Qed.

Lemma setextLevel_trailing_blank ls j :
  (j < List.length ls)%nat ->
  setextLevel ls j = setextLevel (ls ++ [""]) j.
Proof.
  intros Hj. destruct (nth_split_ex ls j Hj) as (pre & x & rest & -> & <-).
  rewrite <- app_assoc. cbn [List.app]. rewrite !setextLevel_at.
  destruct rest; reflexivity.
Qed.

(** A blank line at the end changes nothing: what it flushes, the final
    flush would have pushed. *)
Lemma blank_line_flush all st i :
  inCodeBlock st = false ->
  let st' := processLine all st "" i in
  pushOpen (blocks st') (currentBlock st')
  = pushOpen (blocks st) (currentBlock st).
Proof.
  intros Hin. cbv zeta. rewrite processLine_blank by exact Hin.
  destruct (currentBlock st) as [b|] eqn:Hcur; [|now rewrite Hcur].
  destruct (negb (BlockType_eqb (type b) list_item)); [reflexivity|].
  now rewrite Hcur.
Qed.

(** The lines of a stable block: a last line that is not blank, then at
    most one blank line; the first line starts with a character that is
    not white space; no line holds a line feed. *)
Lemma blockLines_shape b :
  stableBlock b ->
  exists core l blanks c r,
    blockLines b = ((core ++ [l]) ++ blanks)%list /\
    hd "" (blockLines b) = String c r /\ isSpace c = false /\
    trimEnd l = l /\ l <> "" /\
    (blanks = [] \/ blanks = [""]) /\
    Forall noLF (blockLines b).
Proof.
  intros Hb.
  destruct Hb as [lvl c Hlvl Hc|c Hc Hp|c Hc|c Hc|ls Hls|c Hne Hc Hlf].
  - unfold blockLines.
    cbn [type content headingBlock blockLevel metadata level].
    destruct lvl as [|n]; [lia|].
    exists [], (JS.repeat "#" (S n) ++ " " ++ c), [""], "#"%char,
           (JS.repeat "#" n ++ " " ++ c).
    repeat split; auto.
    + rewrite <- append_assoc. apply trimEnd_app_fixed;
        [now apply cleanLine_trimEnd|exact (proj1 Hc)].
    + discriminate.
    + repeat constructor.
      apply noLF_app; [|apply noLF_app; [reflexivity|now apply cleanLine_noLF]].
      clear. unfold noLF. induction (S n) as [|k IH]; [reflexivity|exact IH].
  - destruct (cleanLine_head c Hc) as (a & r & E & Ha).
    exists [], c, [""], a, r. unfold blockLines.
    cbn [type content paragraphBlock List.app hd].
    repeat split; auto.
    + now apply cleanLine_trimEnd.
    + exact (proj1 Hc).
    + repeat constructor. now apply cleanLine_noLF.
  - exists [], ("- " ++ c), [], "-"%char, (" " ++ c).
    unfold blockLines, listPrefix.
    cbn [type content listBlock blockListType blockListIndex metadata
         listType listIndex List.app hd].
    repeat split; auto.
    + apply trimEnd_app_fixed; [now apply cleanLine_trimEnd|exact (proj1 Hc)].
    + discriminate.
    + repeat constructor. apply noLF_app; [reflexivity|now apply cleanLine_noLF].
  - exists [], ("1. " ++ c), [], "1"%char, (". " ++ c).
    unfold blockLines, listPrefix.
    cbn [type content listBlock blockListType blockListIndex metadata
         listType listIndex List.app hd].
    repeat split; auto.
    + apply trimEnd_app_fixed; [now apply cleanLine_trimEnd|exact (proj1 Hc)].
    + discriminate.
    + repeat constructor. apply noLF_app; [reflexivity|now apply cleanLine_noLF].
  - rewrite (blockLines_code ls Hls).
    exists ("```" :: ls)%list, "```", [""], "`"%char, "``".
    repeat split; auto.
    + cbn [List.app]. rewrite <- app_assoc. reflexivity.
    + discriminate.
    + constructor; [reflexivity|]. apply Forall_app. split.
      * eapply Forall_impl; [|exact Hls]. intros l Hl. exact (proj1 Hl).
      * repeat constructor.
  - exists [], ("> " ++ c), [""], ">"%char, (" " ++ c).
    unfold blockLines. cbn [type content quoteBlock List.app hd].
    repeat split; auto.
    + now apply trimEnd_app_fixed.
    + discriminate.
    + repeat constructor. apply noLF_app; [reflexivity|exact Hlf].
Qed.

Lemma blockLines_nonempty b : blockLines b <> [].
Proof.
  unfold blockLines. destruct (type b); discriminate.
Qed.

Lemma rendering_shape bs :
  Forall stableBlock bs -> bs <> [] ->
  exists core l blanks c r,
    flat_map blockLines bs = ((core ++ [l]) ++ blanks)%list /\
    hd "" (core ++ [l])%list = String c r /\ isSpace c = false /\
    trimEnd l = l /\ l <> "" /\
    (blanks = [] \/ blanks = [""]) /\
    Forall noLF (flat_map blockLines bs).
Proof.
  intros Hbs Hne.
  assert (Hlf : Forall noLF (flat_map blockLines bs)).
  { clear Hne. induction Hbs as [|b bs Hb _ IH]; [constructor|].
    cbn [flat_map]. apply Forall_app. split; [|exact IH].
    destruct (blockLines_shape b Hb) as (? & ? & ? & ? & ? & H). apply H. }
  destruct (exists_last Hne) as (front & blast & ->).
  apply Forall_app in Hbs as [Hfront Hlast].
  inversion Hlast as [|? ? Hb _]; subst.
  destruct (blockLines_shape blast Hb)
    as (core & l & blanks & c & r & Hl & Hhd & Hc & Hfix & Hl0 & Hblanks & _).
  rewrite flat_map_app in *. cbn [flat_map] in *. rewrite app_nil_r in *.
  destruct front as [|b0 front'].
  - exists core, l, blanks, c, r. cbn [flat_map List.app] in *.
    repeat split; auto.
    rewrite Hl in Hhd. destruct core; exact Hhd.
  - inversion Hfront as [|? ? Hb0 _]; subst.
    destruct (blockLines_shape b0 Hb0)
      as (core0 & l0 & blanks0 & c0 & r0 & Hl00 & Hhd0 & Hc0 & _).
    exists (flat_map blockLines (b0 :: front') ++ core)%list, l, blanks, c0, r0.
    repeat split; auto.
    + rewrite Hl. now rewrite !app_assoc.
    + cbn [flat_map]. pose proof (blockLines_nonempty b0) as Hne0.
      destruct (blockLines b0) as [|x xs]; [congruence|exact Hhd0].
Qed.

(** Rendering a sequence of stable blocks and analysing the text gives the
    sequence back. *)
Lemma analyze_rendering bs :
  Forall stableBlock bs ->
  analyzeTextStructure (blocksToMarkdown bs) = bs.
Proof.
  intros Hbs. destruct bs as [|b0 bs0]; [reflexivity|].
  set (bs := b0 :: bs0) in *.
  destruct (rendering_shape bs Hbs)
    as (core & l & blanks & c & r & HL & Hhd & Hc & Hfix & Hl0 & Hblanks & Hlf);
    [discriminate|].
  unfold blocksToMarkdown. rewrite (fold_renderBlock_lines bs _ Hbs).
  cbn [markdown append]. rewrite HL.
  rewrite (trim_rendering core l blanks c r Hhd Hc Hfix Hl0)
    by (destruct Hblanks as [->| ->]; repeat constructor).
  unfold analyzeTextStructure.
  assert (Hlf' : Forall noLF (core ++ [l])).
  { rewrite HL in Hlf. apply Forall_app in Hlf. apply Hlf. }
  rewrite (split_joinLines _ Hlf') by (destruct core; discriminate).
  pose proof (read_blocks bs Hbs [] [] []) as Hread.
  cbn [List.app List.length] in Hread. rewrite app_nil_r in Hread.
  rewrite HL in Hread.
  destruct Hblanks as [->| ->].
  - rewrite app_nil_r in Hread. unfold initialState.
    change (mkState [] None false "") with (betweenBlocks []).
    rewrite Hread. reflexivity.
  - rewrite forEachFrom_app in Hread. cbn [forEachFrom] in Hread.
    rewrite (forEachFrom_context (core ++ [l]) ((core ++ [l]) ++ [""])).
    2:{ intros j Hj. cbn [Nat.add]. now apply setextLevel_trailing_blank. }
    change initialState with (betweenBlocks []).
    set (st := forEachFrom _ 0 (core ++ [l]) (betweenBlocks [])) in *.
    assert (Hin : inCodeBlock st = false).
    { pose proof (processLine_codeFlag ((core ++ [l]) ++ [""]) st ""
                    (0 + List.length (core ++ [l]))) as Hflag.
      unfold codeFlagIs in Hflag. rewrite Hread in Hflag.
      cbn in Hflag. rewrite xorb_false_r in Hflag. congruence. }
    rewrite <- (blank_line_flush ((core ++ [l]) ++ [""]) st
                  (0 + List.length (core ++ [l])) Hin).
    cbv zeta. rewrite Hread. reflexivity.
Qed.

(** C4 (as amended).  When the analysis of a text consists of stable blocks
    only, rendering it and analysing the rendering gives the same blocks,
    so [transform] applied twice gives what it gives once. *)
Theorem transform_idempotent_on_stable_blocks (text : string) :
  Forall stableBlock (analyzeTextStructure text) ->
  analyzeTextStructure (transform text) = analyzeTextStructure text /\
  transform (transform text) = transform text.
Proof.
  intros H. unfold transform at 1 3.
  pose proof (analyze_rendering _ H) as Hr. split; [exact Hr|].
  unfold transform. now rewrite Hr.
Qed.

Lemma sampleDocument_analysis :
  analyzeTextStructure sampleDocument
  = [ headingBlock "Title" (Some 1%nat);
      paragraphBlock "some text here";
      listBlock "item" bullet None;
      listBlock "one" numbered (Some (Num 1));
      codeBlock (concatNl ["code"]);
      quoteBlock "quote" ].
Proof. reflexivity. Qed.

Lemma transform_idempotent_on_stable_blocks_witness :
  analyzeTextStructure (transform sampleDocument)
  = analyzeTextStructure sampleDocument /\
  transform (transform sampleDocument) = transform sampleDocument.
Proof.
  apply transform_idempotent_on_stable_blocks.
  rewrite sampleDocument_analysis.
  repeat constructor; try discriminate; lia.
Defined.

(** C4 fails as stated: a quote of two lines is one block whose content
    holds a line feed; the renderer marks its first line only, so the
    second pass reads a quote and a paragraph.  No code block is involved. *)
Lemma two_line_quote_not_idempotent :
  Forall (fun b => type b <> code) (analyzeTextStructure twoLineQuote) /\
  transform twoLineQuote = "> a" ++ nl ++ "b" /\
  transform (transform twoLineQuote) = "> a" ++ nl ++ nl ++ "b" /\
  transform (transform twoLineQuote) <> transform twoLineQuote.
Proof.
  repeat split; try reflexivity.
  - repeat constructor; discriminate.
  - discriminate.
Qed.

(** Merged paragraph lines can also form a marker that the second pass
    reads: the text [5.], [foo] renders as [5. foo], then as [1. foo]. *)
Example merged_paragraph_example :
  transform ("5." ++ nl ++ "foo") = "5. foo" /\
  transform (transform ("5." ++ nl ++ "foo")) = "1. foo".
Proof. split; reflexivity. Qed.

(** Fences drift the same way: two fence markers in the input, one of them
    inside a line, leave one in the output, the unterminated block being
    dropped. *)
Example inline_fence_example :
  Nat.even (countFences ("# T" ++ nl ++ "a ``` b" ++ nl ++ "```" ++ nl ++ "c"))
  = true /\
  transform ("# T" ++ nl ++ "a ``` b" ++ nl ++ "```" ++ nl ++ "c")
  = "# T" ++ nl ++ nl ++ "a ``` b" /\
  validateMarkdown
    (transform ("# T" ++ nl ++ "a ``` b" ++ nl ++ "```" ++ nl ++ "c")) = false.
Proof. repeat split; reflexivity. Qed.

(* ===================================================================== *)
(** ** The unterminated fence *)
(* ===================================================================== *)

Lemma fence_not_underline c f :
  isFenceLine f = true ->
  isSpace c = false -> Ascii.eqb "`" c = false ->
  underline c f = false.
Proof.
  intros Hf Hsp Hc. destruct (underline c f) eqn:U; [exfalso|reflexivity].
  unfold underline in U. apply andb_true_iff in U as [Hlen Hall].
  destruct f as [|x r]; [discriminate Hlen|].
  cbn [forallb] in Hall. apply andb_true_iff in Hall as [Hx _].
  apply Ascii.eqb_eq in Hx. subst x.
  unfold isFenceLine, trim in Hf. rewrite (trimStart_fixed c r Hsp) in Hf.
  destruct (trimEnd_head c r Hsp) as [r' E]. rewrite E in Hf.
  cbn [startsWith] in Hf. rewrite Hc in Hf. discriminate.
Qed.

Lemma setextLevel_before_fence pre f post j :
  isFenceLine f = true ->
  (j < List.length pre)%nat ->
  setextLevel (pre ++ f :: post) j = setextLevel pre j.
Proof.
  intros Hf Hj. destruct (nth_split_ex pre j Hj) as (p & x & r & -> & <-).
  rewrite <- app_assoc. cbn [List.app]. rewrite !setextLevel_at.
  destruct r as [|n r']; [|reflexivity].
  cbn [List.app].
  now rewrite !(fence_not_underline _ f Hf).
Qed.

Lemma code_mode_keeps all ls i st :
  Forall (fun l => isFenceLine l = false) ls ->
  inCodeBlock st = true ->
  let st' := forEachFrom all i ls st in
  blocks st' = blocks st /\ currentBlock st' = currentBlock st.
Proof.
  intros H. revert i st. induction H as [|l ls Hl _ IH]; intros i st Hin.
  - split; reflexivity.
  - cbn [forEachFrom]. rewrite (processLine_code all st l i Hl Hin).
    destruct (IH (S i) (mkState (blocks st) (currentBlock st) true
                                (codeBlockContent st ++ l ++ nl)) eq_refl)
      as [Hb Hc].
    split; [exact Hb|exact Hc].
Qed.

(** C1 (what the code does).  Let a fence line open a code block (an even
    number of fence lines before it) and let no fence line follow.  Then the
    analysis is the analysis of the lines before the fence: the lines after
    it, accumulated as code content, are dropped at the end of the input and
    no trailing code block is emitted. *)
Theorem unterminated_fence_content_is_dropped
  (pre : list string) (fence : string) (post : list string) :
  Forall noLF (pre ++ fence :: post) ->
  isFenceLine fence = true ->
  Nat.even (List.length (filter isFenceLine pre)) = true ->
  Forall (fun l => isFenceLine l = false) post ->
  analyzeTextStructure (joinLines (pre ++ fence :: post))
  = analyzeTextStructure (joinLines pre).
Proof.
  intros Hlf Hf Heven Hpost. unfold analyzeTextStructure.
  rewrite (split_joinLines _ Hlf) by (destruct pre; discriminate).
  rewrite forEachFrom_app. cbn [forEachFrom].
  set (lines := (pre ++ fence :: post)%list).
  set (st := forEachFrom lines 0 pre initialState).
  assert (Hin : inCodeBlock st = false).
  { subst st. rewrite forEachFrom_codeFlag. cbn [inCodeBlock initialState xorb].
    rewrite <- Nat.negb_even, Heven. reflexivity. }
  rewrite (processLine_fence_open lines st fence _ Hf Hin).
  destruct (code_mode_keeps lines post (S (0 + List.length pre))
              (mkState (blocks st) (currentBlock st) true (codeBlockContent st))
              Hpost eq_refl) as [-> ->].
  cbn [blocks currentBlock].
  destruct pre as [|p0 pre'].
  - reflexivity.
  - assert (Hlf' : Forall noLF (p0 :: pre')).
    { apply Forall_app in Hlf. apply Hlf. }
    rewrite (split_joinLines _ Hlf') by discriminate.
    subst st lines.
    rewrite (forEachFrom_context ((p0 :: pre') ++ fence :: post) (p0 :: pre'));
      [reflexivity|].
    intros j Hj. cbn [Nat.add]. exact (setextLevel_before_fence _ _ _ _ Hf Hj).
Qed.

Lemma unterminated_fence_content_is_dropped_witness :
  analyzeTextStructure ("intro" ++ nl ++ "```" ++ nl ++ "code")
  = analyzeTextStructure "intro".
Proof.
  apply (unterminated_fence_content_is_dropped ["intro"] "```" ["code"]).
  - repeat constructor.
  - reflexivity.
  - reflexivity.
  - repeat constructor.
Defined.

(** The failing input of C1: nothing at all comes out. *)
Example unterminated_fence_example :
  analyzeTextStructure ("```" ++ nl ++ "code") = [] /\
  analyzeTextStructure ("intro" ++ nl ++ "```" ++ nl ++ "code")
  = [paragraphBlock "intro"].
Proof. split; reflexivity. Qed.

(* ===================================================================== *)
(** ** Further properties of the two pipelines *)
(* ===================================================================== *)

Lemma processLine_blank_line lines st line i :
  trim line = "" ->
  inCodeBlock st = false ->
  currentBlock st = None ->
  processLine lines st line i = st.
Proof.
  intros Ht Hin Hcur. unfold processLine. rewrite Ht, Hin, Hcur. reflexivity.
Qed.

Lemma forEachFrom_blank_lines all i ls :
  Forall (fun l => trim l = "") ls ->
  forEachFrom all i ls initialState = initialState.
Proof.
  intros H. revert i. induction H as [|l ls Hl _ IH]; intros i; [reflexivity|].
  cbn [forEachFrom].
  rewrite (processLine_blank_line all initialState l i Hl eq_refl eq_refl).
  apply IH.
Qed.

(** X1.  A text of blank lines only has no block. *)
Theorem blank_input_has_no_blocks (text : string) :
  Forall (fun l => trim l = "") (split LF text) ->
  analyzeTextStructure text = [].
Proof.
  intros H. unfold analyzeTextStructure.
  now rewrite (forEachFrom_blank_lines _ 0 _ H).
Qed.

Lemma blank_input_has_no_blocks_witness :
  analyzeTextStructure (nl ++ "  " ++ nl ++ String TAB "") = [].
Proof.
  apply blank_input_has_no_blocks. repeat constructor.
Defined.

(** X2.  A closed fence around lines that are no fence lines gives exactly
    one code block, each line followed by a line feed. *)
Theorem fenced_lines_yield_one_code_block (ls : list string) :
  Forall (fun l => noLF l /\ isFenceLine l = false) ls ->
  analyzeTextStructure (joinLines ("```" :: ls ++ ["```"]))
  = [codeBlock (concatNl ls)].
Proof.
  intros Hls. unfold analyzeTextStructure.
  assert (Hlf : Forall noLF ("```" :: ls ++ ["```"])).
  { constructor; [reflexivity|]. apply Forall_app. split.
    - eapply Forall_impl; [|exact Hls]. intros l Hl. exact (proj1 Hl).
    - repeat constructor. }
  rewrite (split_joinLines _ Hlf) by discriminate.
  cbn [forEachFrom].
  set (lines := ("```" :: ls ++ ["```"])%list).
  rewrite (processLine_fence_open lines initialState "```" 0 eq_refl eq_refl).
  cbn [initialState blocks currentBlock codeBlockContent].
  rewrite forEachFrom_app, code_lines_accumulate by exact Hls.
  cbn [forEachFrom append].
  rewrite (processLine_fence_close lines _ "```") by reflexivity.
  reflexivity.
Qed.

Lemma fenced_lines_yield_one_code_block_witness :
  analyzeTextStructure ("```" ++ nl ++ "code line" ++ nl ++ "```")
  = [codeBlock ("code line" ++ nl)].
Proof.
  apply (fenced_lines_yield_one_code_block ["code line"]).
  repeat constructor.
Defined.

(** X3.  A single ATX line gives a single heading with the level of its
    marker and its text. *)
Theorem atx_line_yields_one_heading (lvl : nat) (c : string) :
  (1 <= lvl <= 6)%nat ->
  cleanLine c ->
  analyzeTextStructure (JS.repeat "#" lvl ++ " " ++ c)
  = [headingBlock c (Some lvl)].
Proof.
  intros Hlvl Hc. unfold analyzeTextStructure.
  change (" " ++ c) with (String " " c).
  assert (Hlf : noLF (JS.repeat "#" lvl ++ String " " c)).
  { apply noLF_app; [|apply (noLF_app " " c); [reflexivity|now apply cleanLine_noLF]].
    clear. unfold noLF. induction lvl as [|k IH]; [reflexivity|exact IH]. }
  rewrite (split_noLF _ Hlf). cbn [forEachFrom].
  change initialState with (betweenBlocks []).
  rewrite (read_heading_line _ 0 lvl c [] Hlvl Hc). reflexivity.
Qed.

Lemma atx_line_yields_one_heading_witness :
  analyzeTextStructure "# Title" = [headingBlock "Title" (Some 1%nat)].
Proof.
  apply (atx_line_yields_one_heading 1 "Title").
  - lia.
  - repeat split. discriminate.
Defined.

(** X4.  Lines of the form [- item] give one bullet item each, in order. *)
Theorem bullet_lines_yield_bullet_items (items : list string) :
  items <> [] ->
  Forall cleanLine items ->
  analyzeTextStructure (joinLines (map (fun c => "- " ++ c) items))
  = map (fun c => listBlock c bullet None) items.
Proof.
  intros Hne Hitems. unfold analyzeTextStructure.
  set (bs := map (fun c => listBlock c bullet None) items).
  assert (Hst : Forall stableBlock bs).
  { subst bs. clear Hne.
    induction Hitems; cbn [map]; constructor;
      [now apply stable_bullet|assumption]. }
  assert (HL : flat_map blockLines bs = map (fun c => "- " ++ c) items).
  { subst bs. clear. induction items as [|c items IH]; [reflexivity|].
    cbn [map flat_map]. rewrite IH. reflexivity. }
  rewrite <- HL.
  assert (Hlf : Forall noLF (flat_map blockLines bs)).
  { rewrite HL. clear -Hitems. induction Hitems; cbn [map]; constructor; auto.
    apply noLF_app; [reflexivity|now apply cleanLine_noLF]. }
  rewrite (split_joinLines _ Hlf)
    by (rewrite HL; destruct items; [congruence|discriminate]).
  pose proof (read_blocks bs Hst [] [] []) as Hread.
  cbn [List.app List.length] in Hread. rewrite app_nil_r in Hread.
  change initialState with (betweenBlocks []). rewrite Hread. reflexivity.
Qed.

Lemma bullet_lines_yield_bullet_items_witness :
  analyzeTextStructure ("- item one" ++ nl ++ "- item two")
  = [listBlock "item one" bullet None; listBlock "item two" bullet None].
Proof.
  apply (bullet_lines_yield_bullet_items ["item one"; "item two"]).
  - discriminate.
  - repeat constructor; discriminate.
Defined.

(** *** Single emphasis delimiters *)

Lemma unmatched_without_delimiter ch d y k :
  lacks ch y ->
  matchDelimited (String ch d) ch (drop k y) = None.
Proof.
  revert k. unfold lacks. induction y as [|c y IH]; intros k H.
  - destruct k; reflexivity.
  - simpl in H. apply andb_true_iff in H as [Hc Hy].
    destruct k as [|k]; [|exact (IH k Hy)].
    apply negb_true_iff in Hc. rewrite Ascii.eqb_sym in Hc.
    unfold matchDelimited. cbn [drop startsWith]. now rewrite Hc.
Qed.

Lemma single_delimiter_replaced ch o x :
  x <> "" ->
  lacks ch x ->
  replaceFrom (String ch "") ch o 0 (String ch (x ++ String ch ""))
  = o ++ x ++ o.
Proof.
  intros Hne Hx.
  rewrite (replaceFrom_hit _ _ _ _ _ x).
  - replace (String.length (String ch "") + String.length x
             + String.length (String ch "") - 1)%nat
      with (String.length x + 1)%nat by (simpl; lia).
    rewrite replaceFrom_skip. cbn [replaceFrom]. now rewrite append_nil_r.
  - unfold matchDelimited. cbn [startsWith String.length drop andb].
    rewrite Ascii.eqb_refl. cbn [andb].
    rewrite (takeWhile_lacks ch x "" Hx), drop_app.
    rewrite (isEmpty_false x Hne). cbn [negb andb startsWith].
    now rewrite Ascii.eqb_refl.
Qed.

(** X5.  Single delimiters are translated, and translated back: [_x_]
    becomes [*x*] under [asterisk], and [*x*] becomes [_x_] under
    [underscore]. *)
Theorem single_emphasis_round_trip (x : string) :
  x <> "" ->
  lacks "_" x ->
  lacks "*" x ->
  convertEmphasis asterisk ("_" ++ x ++ "_") = "*" ++ x ++ "*" /\
  convertEmphasis underscore ("*" ++ x ++ "*") = "_" ++ x ++ "_".
Proof.
  intros Hne Hu Ha. unfold convertEmphasis, replaceDelimited. split.
  - change ("_" ++ x ++ "_") with (String "_" (x ++ String "_" "")).
    rewrite (single_delimiter_replaced "_" "*" x Hne Hu).
    apply replaceFrom_unmatched. intros k.
    apply unmatched_without_delimiter.
    apply (lacks_app "_" "*" (x ++ "*")); [reflexivity|].
    apply lacks_app; [exact Hu|reflexivity].
  - change ("*" ++ x ++ "*") with (String "*" (x ++ String "*" "")).
    rewrite (single_delimiter_replaced "*" "_" x Hne Ha).
    apply replaceFrom_unmatched. intros k.
    apply unmatched_without_delimiter.
    apply (lacks_app "*" "_" (x ++ "_")); [reflexivity|].
    apply lacks_app; [exact Ha|reflexivity].
Qed.

Lemma single_emphasis_round_trip_witness :
  convertEmphasis asterisk "_word_" = "*word*" /\
  convertEmphasis underscore "*word*" = "_word_".
Proof.
  apply (single_emphasis_round_trip "word").
  - discriminate.
  - reflexivity.
  - reflexivity.
Defined.

(* ===================================================================== *)
(** ** Invariants and compositions of the analysis *)
(* ===================================================================== *)

(** *** Facts about characters, by enumeration *)

Lemma allAscii_complete c : In c allAscii.
Proof.
  unfold allAscii. rewrite <- (ascii_nat_embedding c).
  apply in_map, in_seq. pose proof (nat_ascii_bounded c). lia.
Qed.

(** A class of characters lies within another when it does so character
    by character. *)
Lemma char_implies (A B : ascii -> bool) :
  List.forallb (fun c => implb (A c) (B c)) allAscii = true ->
  forall c, A c = true -> B c = true.
Proof.
  intros H c Hc. rewrite forallb_forall in H.
  specialize (H c (allAscii_complete c)). now rewrite Hc in H.
Qed.

(** *** The shape of the blocks *)

Lemma trimmedText_trim line : isEmpty (trim line) = false -> trimmedText (trim line).
Proof.
  intros H. split; [|apply trim_idempotent].
  intros E. rewrite E in H. discriminate.
Qed.

Lemma trimmedText_head c :
  trimmedText c -> exists a r, c = String a r /\ isSpace a = false.
Proof.
  intros [Hne Ht]. destruct (trim_cases c) as [E|(a & r & E & Ha)];
    rewrite Ht in E; [contradiction|eauto].
Qed.

Lemma trimmedText_trimEnd c : trimmedText c -> trimEnd c = c.
Proof.
  intros [_ Ht]. rewrite <- Ht. apply trim_fixed_by_trimEnd.
Qed.

Lemma trimmedText_append a sep t :
  trimmedText a -> trimmedText t -> trimmedText (a ++ sep ++ t).
Proof.
  intros Ha Ht.
  destruct (trimmedText_head a Ha) as (x & r & -> & Hx).
  split; [discriminate|].
  unfold trim. change ((String x r ++ sep ++ t)) with (String x (r ++ sep ++ t)).
  rewrite trimStart_fixed by exact Hx.
  change (String x (r ++ sep ++ t)) with (String x r ++ sep ++ t).
  rewrite <- append_assoc.
  apply trimEnd_app_fixed; [apply trimmedText_trimEnd, Ht|apply Ht].
Qed.

Lemma firstPattern_level line lvl :
  firstPattern metadataPatterns line = Some lvl -> (1 <= lvl <= 4)%nat.
Proof.
  unfold metadataPatterns, firstPattern.
  repeat match goal with
         | |- (if ?c then _ else _) = _ -> _ => destruct c
         end; intros [= <-]; lia.
Qed.

Lemma setextLevel_level lines i lvl :
  setextLevel lines i = Some lvl -> (1 <= lvl <= 2)%nat.
Proof.
  unfold setextLevel.
  repeat match goal with
         | |- (if ?c then _ else _) = _ -> _ => destruct c
         end; intros [= <-]; lia.
Qed.

(** What [analyzeHeading] returns for a trimmed line that it takes for a
    heading: a level from 1 to 6, a trimmed text and nothing left over. *)
Lemma analyzeHeading_heading line lines i :
  trimmedText line ->
  isHeading (analyzeHeading line lines i) = true ->
  remainingContent (analyzeHeading line lines i) = "" /\
  trimmedText (headingText (analyzeHeading line lines i)) /\
  exists n, ha_level (analyzeHeading line lines i) = Some n /\ (1 <= n <= 6)%nat.
Proof.
  intros Hl. pose proof Hl as [Hne Ht]. unfold analyzeHeading.
  destruct (atxMatch line) as [[n text]|] eqn:Hatx.
  - intros _. cbn. split; [reflexivity|]. split.
    + destruct (atxMatch_text line n text (trimmedText_trimEnd _ Hl) Hatx)
        as (c & r & E & Hc).
      split; [rewrite E; discriminate|apply trim_idempotent].
    + exists n. split; [reflexivity|apply (atxMatch_level _ _ _ Hatx)].
  - destruct (setextLevel lines i) as [lvl|] eqn:Hs.
    + intros _. cbn. rewrite Ht. repeat split; auto.
      exists lvl. split; [reflexivity|]. apply setextLevel_level in Hs. lia.
    + destruct (firstPattern metadataPatterns line) as [lvl|] eqn:Hp.
      * intros _. cbn. rewrite Ht. repeat split; auto.
        exists lvl. split; [reflexivity|]. apply firstPattern_level in Hp. lia.
      * destruct (isTitleCase line && (String.length line <? 60)%nat).
        -- intros _. cbn. rewrite Ht. repeat split; auto.
           exists 2%nat. split; [reflexivity|lia].
        -- discriminate.
Qed.

Lemma processLine_wellFormed lines st line i :
  stateSatisfies wellFormed st ->
  stateSatisfies wellFormed (processLine lines st line i).
Proof.
  intros [Hbs Hcur].
  assert (Hopen : Forall wellFormed (pushOpen (blocks st) (currentBlock st))).
  { unfold pushOpen. destruct (currentBlock st); [apply Forall_push|]; auto. }
  unfold processLine; cbv zeta. repeat head_case.
  all: try match goal with
           | H : currentBlock _ = _ |- _ => rewrite H in Hcur; simpl in Hcur
           end.
  all: try (split; assumption).
  all: unfold stateSatisfies, codeBlock, quoteBlock;
       cbn [blocks currentBlock openSatisfies].
  all: split; repeat apply Forall_push; auto.
  all: try (match goal with H : currentBlock _ = _ |- _ => rewrite H end;
            assumption).
  all: try reflexivity.
  all: try match goal with
           | H : isEmpty (trim ?l) = false |- _ =>
               pose proof (trimmedText_trim l H) as Htl
           end.
  all: try match goal with
           | H : isHeading (analyzeHeading ?l ?ls ?j) = true |- _ =>
               destruct (analyzeHeading_heading l ls j Htl H)
                 as (Hrem & Htext & n & Hlvl & Hn)
           end.
  all: try match goal with
           | H : BlockType_eqb (type ?b) _ = true |- _ =>
               cbn [openSatisfies] in Hcur;
               unfold wellFormed in Hcur |- *; cbn [type content metadata];
               destruct (type b); try discriminate H
           end.
  - exact Hcur.
  - split; [eexists; eexists; reflexivity|apply trim_idempotent].
  - split; [eexists; eexists; reflexivity|apply trim_idempotent].
  - split; [eexists; eexists; reflexivity|apply trim_idempotent].
  - split; [exists n; rewrite Hlvl; auto|exact Htext].
  - rewrite Hrem in *. discriminate.
  - split; [exists n; rewrite Hlvl; auto|exact Htext].
  - destruct Hcur as [Hm Hc]. split; [exact Hm|].
    apply trimmedText_append; assumption.
  - split; [reflexivity|exact Htl].
  - split; [reflexivity|exact Htl].
Qed.

Lemma forEachFrom_wellFormed all i rest st :
  stateSatisfies wellFormed st ->
  stateSatisfies wellFormed (forEachFrom all i rest st).
Proof.
  revert i st. induction rest as [|l rest IH]; intros i st H; simpl.
  - exact H.
  - apply IH, processLine_wellFormed, H.
Qed.

(** X6.  Every block of an analysis is well formed: a heading carries a
    level from 1 to 6 and a non-empty trimmed text, a paragraph a non-empty
    trimmed text and no metadata, a list item its kind and a trimmed text,
    a code block and a quote no metadata. *)
Theorem analysis_blocks_are_well_formed (text : string) :
  Forall wellFormed (analyzeTextStructure text).
Proof.
  unfold analyzeTextStructure.
  destruct (forEachFrom_wellFormed (split LF text) 0 (split LF text)
              initialState) as [Hbs Hcur].
  { split; [constructor|exact I]. }
  unfold pushOpen. destruct (currentBlock _); [apply Forall_push|]; auto.
Qed.

(** *** Counting code blocks *)

Lemma filter_push p bs b :
  filter p (push bs b) = (filter p bs ++ (if p b then [b] else []))%list.
Proof. unfold push. rewrite filter_app. reflexivity. Qed.

Lemma openKind_not_code b : openKind (Some b) -> isCode b = false.
Proof. unfold isCode. intros [E|E]; rewrite E; reflexivity. Qed.

(** One line adds a code block exactly when it is a fence line met in code
    mode. *)
Lemma processLine_code_count lines st line i :
  openKind (currentBlock st) ->
  List.length (filter isCode (blocks (processLine lines st line i)))
  = (List.length (filter isCode (blocks st))
     + (if isFenceLine line && inCodeBlock st then 1 else 0))%nat.
Proof.
  intros Hopen. unfold isFenceLine.
  assert (Hflush : filter isCode (pushOpen (blocks st) (currentBlock st))
                   = filter isCode (blocks st)).
  { unfold pushOpen. destruct (currentBlock st) as [b|]; [|reflexivity].
    rewrite filter_push, (openKind_not_code b Hopen). apply app_nil_r. }
  destruct (startsWith "```" (trim line)) eqn:Hf.
  - unfold processLine; cbv zeta. rewrite Hf.
    destruct (inCodeBlock st); cbn [blocks andb].
    + rewrite filter_push. cbn. rewrite length_app. reflexivity.
    + lia.
  - cbn [andb]. rewrite Nat.add_0_r.
    change (codeCountIs (List.length (filter isCode (blocks st)))
              (processLine lines st line i)).
    unfold processLine; cbv zeta. rewrite Hf. repeat head_case.
    all: unfold codeCountIs; cbn [blocks]; try reflexivity.
    all: try match goal with
             | H : currentBlock _ = Some ?b |- _ =>
                 rewrite H in Hflush, Hopen; unfold pushOpen in Hflush
             end.
    all: rewrite ?filter_push; cbn [isCode type listBlock headingBlock
                                     BlockType_eqb app].
    all: rewrite ?app_nil_r; try rewrite Hflush; try reflexivity.
    all: try (unfold pushOpen; match goal with
             | H : currentBlock _ = _ |- _ => rewrite H end;
              rewrite ?filter_push, ?app_nil_r; try rewrite Hflush; reflexivity).
    all: rewrite (openKind_not_code b Hopen), app_nil_r; reflexivity.
Qed.

Lemma forEachFrom_code_count all i rest st :
  openKind (currentBlock st) ->
  List.length (filter isCode (blocks (forEachFrom all i rest st)))
  = (List.length (filter isCode (blocks st))
     + Nat.div2 (List.length (filter isFenceLine rest)
                 + (if inCodeBlock st then 1 else 0)))%nat.
Proof.
  revert i st. induction rest as [|l rest IH]; intros i st Hopen.
  - cbn. destruct (inCodeBlock st); cbn; lia.
  - cbn [forEachFrom filter].
    rewrite IH by (apply processLine_openKind, Hopen).
    rewrite processLine_code_count by exact Hopen.
    pose proof (processLine_codeFlag all st l i) as Hflag.
    unfold codeFlagIs in Hflag. rewrite Hflag.
    destruct (isFenceLine l), (inCodeBlock st); cbn [andb xorb List.length];
      rewrite ?Nat.add_0_r, ?Nat.add_1_r; cbn [Nat.div2]; lia.
Qed.

(** X7.  The analysis yields one code block for every pair of fence lines:
    as many code blocks as half the number of fence lines, rounded down. *)
Theorem code_blocks_are_half_the_fence_lines (text : string) :
  List.length (filter isCode (analyzeTextStructure text))
  = Nat.div2 (List.length (fenceLines text)).
Proof.
  unfold analyzeTextStructure, fenceLines.
  set (lines := split LF text).
  assert (Hopen : openKind (currentBlock (forEachFrom lines 0 lines initialState)))
    by (apply forEachFrom_openKind; exact I).
  assert (Hflush : forall bs cur, openKind cur ->
            filter isCode (pushOpen bs cur) = filter isCode bs).
  { intros bs [b|] H; [|reflexivity]. unfold pushOpen.
    rewrite filter_push, (openKind_not_code b H). apply app_nil_r. }
  rewrite Hflush by exact Hopen.
  rewrite forEachFrom_code_count by exact I.
  cbn. now rewrite Nat.add_0_r.
Qed.

(** *** Paragraphs and quotes of several lines *)

Lemma setextLevel_prose pre l rest post :
  Forall proseLine rest ->
  underline "=" (hd "" post) = false -> underline "-" (hd "" post) = false ->
  setextLevel (pre ++ l :: rest ++ post) (List.length pre) = None.
Proof.
  intros H He Hd. rewrite setextLevel_at.
  destruct rest as [|next rest'].
  - destruct post as [|next post']; [reflexivity|].
    cbn [app hd] in *. now rewrite He, Hd.
  - inversion H as [|? ? (_ & _ & _ & _ & _ & He' & Hd') _]; subst.
    cbn [app]. now rewrite He', Hd'.
Qed.

Lemma prose_line_not_heading pre l rest post :
  proseLine l -> Forall proseLine rest ->
  underline "=" (hd "" post) = false -> underline "-" (hd "" post) = false ->
  isHeading (analyzeHeading (trim l) (pre ++ l :: rest ++ post)
                            (List.length pre)) = false.
Proof.
  intros (_ & _ & Hatx & Hpat & Htitle & _) Hrest He Hd.
  rewrite analyzeHeading_fallback;
    [now rewrite Htitle|exact Hatx|now apply setextLevel_prose|exact Hpat].
Qed.

Lemma prose_lines_accumulate rest :
  forall pre post B acc cb,
    Forall proseLine rest ->
    underline "=" (hd "" post) = false -> underline "-" (hd "" post) = false ->
    forEachFrom (pre ++ rest ++ post) (List.length pre) rest
                (mkState B (Some (paragraphBlock acc)) false cb)
    = mkState B (Some (paragraphBlock (mergeLines acc (map trim rest))))
              false cb.
Proof.
  induction rest as [|l rest IH]; intros pre post B acc cb H He Hd;
    [reflexivity|].
  inversion H as [|? ? Hl Hrest]; subst.
  cbn [forEachFrom map mergeLines fold_left app].
  rewrite processLine_plain;
    [|apply Hl|reflexivity|now apply prose_line_not_heading].
  cbn [currentBlock paragraphBlock type BlockType_eqb blocks content metadata
       codeBlockContent].
  replace (pre ++ l :: rest ++ post)%list with ((pre ++ [l]) ++ rest ++ post)%list
    by (now rewrite <- app_assoc).
  replace (S (List.length pre)) with (List.length (pre ++ [l])%list)
    by (rewrite length_app; simpl; lia).
  apply (IH (pre ++ [l])%list post B (acc ++ " " ++ trim l) cb Hrest He Hd).
Qed.

(** One group of running text read between two blocks: its paragraph is
    left open. *)
Lemma read_prose_group g pre post B :
  proseGroup g ->
  underline "=" (hd "" post) = false -> underline "-" (hd "" post) = false ->
  forEachFrom (pre ++ g ++ post) (List.length pre) g (betweenBlocks B)
  = mkState B (Some (groupParagraph g)) false "".
Proof.
  intros [Hne H] He Hd. destruct g as [|l ls]; [contradiction|].
  inversion H as [|? ? Hl Hrest]; subst.
  cbn [forEachFrom app].
  rewrite processLine_plain;
    [|apply Hl|reflexivity|now apply prose_line_not_heading].
  cbn [currentBlock betweenBlocks blocks codeBlockContent].
  replace (pre ++ l :: ls ++ post)%list with ((pre ++ [l]) ++ ls ++ post)%list
    by (now rewrite <- app_assoc).
  replace (S (List.length pre)) with (List.length (pre ++ [l])%list)
    by (rewrite length_app; simpl; lia).
  now rewrite prose_lines_accumulate.
Qed.

Lemma read_prose_groups groups :
  forall pre B,
    groups <> [] ->
    Forall proseGroup groups ->
    forEachFrom (pre ++ paragraphLines groups) (List.length pre)
                (paragraphLines groups) (betweenBlocks B)
    = mkState (B ++ map groupParagraph (removelast groups))
              (Some (groupParagraph (last groups []))) false "".
Proof.
  induction groups as [|g groups IH]; intros pre B Hne H; [contradiction|].
  inversion H as [|? ? Hg Hrest]; subst.
  destruct groups as [|g' groups].
  - cbn [paragraphLines map removelast last]. rewrite app_nil_r.
    pose proof (read_prose_group g pre [] B Hg eq_refl eq_refl) as Hr.
    rewrite app_nil_r in Hr. exact Hr.
  - change (paragraphLines (g :: g' :: groups))
      with (g ++ "" :: paragraphLines (g' :: groups))%list.
    change (removelast (g :: g' :: groups))
      with (g :: removelast (g' :: groups)).
    change (last (g :: g' :: groups) []) with (last (g' :: groups) []).
    rewrite forEachFrom_app.
    rewrite (read_prose_group g pre ("" :: paragraphLines (g' :: groups)) B
               Hg eq_refl eq_refl).
    cbn [forEachFrom]. rewrite processLine_blank by reflexivity.
    cbn [currentBlock groupParagraph paragraphBlock type BlockType_eqb negb
         blocks codeBlockContent].
    specialize (IH (pre ++ g ++ [""])%list (B ++ [groupParagraph g])%list
                  ltac:(discriminate) Hrest).
    replace ((pre ++ g ++ [""]) ++ paragraphLines (g' :: groups))%list
      with (pre ++ g ++ "" :: paragraphLines (g' :: groups))%list in IH
      by (now rewrite <- !app_assoc).
    replace (List.length (pre ++ g ++ [""])%list)
      with (S (List.length pre + List.length g)) in IH
      by (rewrite !length_app; simpl; lia).
    unfold betweenBlocks, push in IH |- *. rewrite IH.
    cbn [map]. now rewrite <- app_assoc.
Qed.

Lemma paragraphLines_noLF groups :
  Forall proseGroup groups -> Forall noLF (paragraphLines groups).
Proof.
  induction groups as [|g groups IH]; intros H; [constructor|].
  inversion H as [|? ? [_ Hg] Hrest]; subst.
  assert (Hn : Forall noLF g)
    by (eapply Forall_impl; [|exact Hg]; intros a Ha; apply Ha).
  destruct groups as [|g' groups]; [exact Hn|].
  change (paragraphLines (g :: g' :: groups))
    with (g ++ "" :: paragraphLines (g' :: groups))%list.
  apply Forall_app. split; [exact Hn|].
  constructor; [reflexivity|now apply IH].
Qed.

(** X8.  Running text becomes paragraphs.  The lines of a group merge into
    one paragraph, the trimmed lines joined by single spaces, and a blank
    line between two groups ends the paragraph. *)
Theorem blank_lines_separate_paragraphs (groups : list (list string)) :
  groups <> [] ->
  Forall proseGroup groups ->
  analyzeTextStructure (joinLines (paragraphLines groups))
  = map groupParagraph groups.
Proof.
  intros Hne H. unfold analyzeTextStructure.
  rewrite split_joinLines.
  - pose proof (read_prose_groups groups [] [] Hne H) as Hr.
    cbn [app List.length] in Hr. change (betweenBlocks []) with initialState in Hr.
    rewrite Hr. cbn [blocks currentBlock pushOpen push app].
    change [groupParagraph (last groups [])]
      with (map groupParagraph [last groups []]).
    rewrite <- map_app, <- app_removelast_last by exact Hne. reflexivity.
  - now apply paragraphLines_noLF.
  - destruct groups as [|g groups]; [contradiction|].
    inversion H as [|? ? [Hg _] _]; subst.
    destruct g; [contradiction|]. destruct groups; discriminate.
Qed.

Lemma blank_lines_separate_paragraphs_witness :
  analyzeTextStructure ("some text  " ++ nl ++ "  goes on here" ++ nl ++ nl
                        ++ "and more")
  = [paragraphBlock "some text goes on here"; paragraphBlock "and more"].
Proof.
  apply (blank_lines_separate_paragraphs
           [["some text  "; "  goes on here"]; ["and more"]]).
  - discriminate.
  - repeat constructor; try discriminate; reflexivity.
Defined.

Lemma quote_line_tests t :
  startsWith ">" t = true -> startsWith "```" t = false /\ isEmpty t = false.
Proof.
  destruct t as [|c r]; [discriminate|]. cbn [startsWith].
  destruct (Ascii.eqb ">" c) eqn:E; [|discriminate].
  apply Ascii.eqb_eq in E. subst c. intros _. split; reflexivity.
Qed.

Lemma processLine_quote_more lines B q cb line i :
  startsWith ">" (trim line) = true ->
  processLine lines (mkState B (Some (quoteBlock q)) false cb) line i
  = mkState B (Some (quoteBlock (q ++ nl ++ stripQuoteMarker (trim line))))
            false cb.
Proof.
  intros H. destruct (quote_line_tests _ H) as [Hf He].
  unfold processLine; cbv zeta. rewrite Hf, He, H. reflexivity.
Qed.

Lemma quote_lines_accumulate all rest :
  forall i B q cb,
    Forall (fun l => startsWith ">" (trim l) = true) rest ->
    forEachFrom all i rest (mkState B (Some (quoteBlock q)) false cb)
    = mkState B
        (Some (quoteBlock
                 (mergeQuote q (map (fun l => stripQuoteMarker (trim l)) rest))))
        false cb.
Proof.
  induction rest as [|l rest IH]; intros i B q cb H; [reflexivity|].
  inversion H as [|? ? Hl Hrest]; subst.
  cbn [forEachFrom map mergeQuote fold_left].
  rewrite processLine_quote_more by exact Hl.
  apply IH, Hrest.
Qed.

(** X9.  Consecutive quote lines become one quote block: the lines without
    their markers, joined by line feeds. *)
Theorem quote_lines_merge_into_one_quote (l : string) (ls : list string) :
  Forall noLF (l :: ls) ->
  Forall (fun x => startsWith ">" (trim x) = true) (l :: ls) ->
  analyzeTextStructure (joinLines (l :: ls))
  = [quoteBlock (mergeQuote (stripQuoteMarker (trim l))
                            (map (fun x => stripQuoteMarker (trim x)) ls))].
Proof.
  intros Hno H. inversion H as [|? ? Hl Hrest]; subst.
  unfold analyzeTextStructure.
  rewrite split_joinLines; [|exact Hno|discriminate].
  cbn [forEachFrom].
  destruct (quote_line_tests _ Hl) as [Hf He].
  rewrite processLine_quote; try assumption; try reflexivity.
  cbn [initialState blocks codeBlockContent].
  rewrite quote_lines_accumulate by exact Hrest.
  reflexivity.
Qed.

Lemma quote_lines_merge_into_one_quote_witness :
  analyzeTextStructure ("> first" ++ nl ++ " >second" ++ nl ++ ">  third")
  = [quoteBlock ("first" ++ nl ++ "second" ++ nl ++ " third")].
Proof.
  apply (quote_lines_merge_into_one_quote "> first" [" >second"; ">  third"]);
    repeat constructor.
Defined.

(** *** The list patterns exclude one another *)

Lemma matchListPattern_class p line m :
  matchListPattern p line = Some m ->
  exists c r, skipWhile isSpace line = String c r /\ markerClass p c = true.
Proof.
  unfold matchListPattern, one, digits1, markerClass.
  destruct (skipWhile isSpace line) as [|c r]; [destruct p; discriminate|].
  intros H. exists c, r. split; [reflexivity|].
  destruct p;
    match goal with
    | |- ?t = true => destruct t; [reflexivity|discriminate H]
    end.
Qed.

Lemma markerClass_disjoint p q c :
  markerClass p c = true -> markerClass q c = true -> p = q.
Proof.
  intros Hp Hq.
  destruct p, q; try reflexivity; exfalso;
    match type of Hp with
    | markerClass ?p c = true =>
        match type of Hq with
        | markerClass ?q c = true =>
            pose proof (char_implies (markerClass p)
                          (fun c => negb (markerClass q c))
                          ltac:(vm_compute; reflexivity) c Hp) as F
        end
    end;
    cbv beta in F; rewrite Hq in F; discriminate F.
Qed.

(** A marker character is visible, and is neither a back-tick nor the
    quote mark. *)
Lemma markerClass_visible p c :
  markerClass p c = true ->
  isSpace c = false /\ Ascii.eqb "`" c = false /\ Ascii.eqb ">" c = false.
Proof.
  intros H.
  assert (F : negb (isSpace c) && negb (Ascii.eqb "`" c)
              && negb (Ascii.eqb ">" c) = true).
  { destruct p;
      match type of H with
      | markerClass ?p c = true =>
          exact (char_implies (markerClass p)
                   (fun c => negb (isSpace c) && negb (Ascii.eqb "`" c)
                             && negb (Ascii.eqb ">" c))
                   ltac:(vm_compute; reflexivity) c H)
      end. }
  rewrite !andb_true_iff, !negb_true_iff in F. tauto.
Qed.

Lemma matchListPattern_exclusive p q line m m' :
  matchListPattern p line = Some m ->
  matchListPattern q line = Some m' ->
  p = q.
Proof.
  intros Hp Hq.
  destruct (matchListPattern_class _ _ _ Hp) as (c & r & Hs & Hc).
  destruct (matchListPattern_class _ _ _ Hq) as (c' & r' & Hs' & Hc').
  rewrite Hs in Hs'. injection Hs' as <- <-.
  exact (markerClass_disjoint p q c Hc Hc').
Qed.

(** X10.  At most one list pattern matches a line, so the order of the
    pattern table decides nothing: whatever table holds the matching
    pattern, that pattern is the one reported, with the kind that the digit
    check gives. *)
Theorem list_pattern_order_is_irrelevant
  (pats : list ListPattern) (p : ListPattern) (line : string) (m : Match) :
  matchListPattern p line = Some m ->
  In p pats ->
  detectListTypeIn pats line
  = Some (mkListMatch (if digitMarker line then numbered else bullet)
                      p (group1 m)).
Proof.
  intros Hm. induction pats as [|q pats IH]; intros Hin; [contradiction|].
  cbn [detectListTypeIn].
  destruct (matchListPattern q line) as [m'|] eqn:Hq.
  - pose proof (matchListPattern_exclusive _ _ _ _ _ Hm Hq) as <-.
    rewrite Hm in Hq. injection Hq as <-. reflexivity.
  - destruct Hin as [->|Hin]; [congruence|exact (IH Hin)].
Qed.

Lemma list_pattern_order_is_irrelevant_witness :
  detectListTypeIn (rev listPatterns) "3) third"
  = Some (mkListMatch numbered NumberedLists None).
Proof.
  apply (list_pattern_order_is_irrelevant (rev listPatterns) NumberedLists
           "3) third" (mkMatch None "third")).
  - reflexivity.
  - cbn. auto.
Defined.

(** *** List lines through analysis and rendering *)

(** Such a line is no fence line, not blank and no quote line. *)
Lemma list_line_tests line lm :
  detectListType line = Some lm ->
  isFenceLine line = false /\ isEmpty (trim line) = false /\
  startsWith ">" (trim line) = false.
Proof.
  intros H. destruct (detectListTypeIn_match _ _ _ H) as (m & Hm & _).
  destruct (matchListPattern_class _ _ _ Hm) as (c & r & Hs & Hc).
  destruct (markerClass_visible _ c Hc) as (Hsp & Hbt & Hgt).
  unfold isFenceLine, trim, trimStart. rewrite Hs.
  destruct (trimEnd_head c r Hsp) as (r' & ->).
  cbn [startsWith isEmpty]. now rewrite Hbt, Hgt.
Qed.

(** One list line read between two blocks. *)
Lemma read_list_line all i line lm B :
  detectListType line = Some lm ->
  processLine all (betweenBlocks B) line i
  = betweenBlocks
      (B ++ [listBlock (trim (replacePattern (lm_pattern lm) line)) (lm_type lm)
                       match lm_type lm with
                       | numbered => Some (Num 1)
                       | bullet => None
                       end]).
Proof.
  intros H. destruct (list_line_tests _ _ H) as (Hf & He & Hq).
  rewrite (processLine_list all (betweenBlocks B) line i lm Hf eq_refl He Hq H
             eq_refl).
  unfold betweenBlocks, push. cbn [blocks codeBlockContent].
  destruct (lm_type lm) eqn:Ht; [reflexivity|].
  now rewrite (detectListType_numbered_index _ _ H Ht).
Qed.

Lemma skipWhile_run p d x r :
  forallb p d = true -> p x = false ->
  skipWhile p (d ++ String x r) = String x r.
Proof.
  intros Hd Hx. induction d as [|c d IH]; cbn in *.
  - now rewrite Hx.
  - apply andb_true_iff in Hd as [Hc Hd]. rewrite Hc. now apply IH.
Qed.

Lemma digits1_run d x r :
  d <> "" -> forallb isDigit d = true -> isDigit x = false ->
  digits1 (d ++ String x r) = Some (String x r).
Proof.
  intros Hne Hd Hx. destruct d as [|c d]; [contradiction|].
  cbn in Hd |- *. apply andb_true_iff in Hd as [Hc Hd]. rewrite Hc.
  now rewrite skipWhile_run.
Qed.

Lemma spaces1_clean c : cleanLine c -> spaces1 (String " " c) = Some c.
Proof.
  intros Hc. unfold spaces1. change (isSpace " ") with true. cbv iota.
  now rewrite skipWhile_space_clean.
Qed.

Lemma closer_not_digit p : oneOf ".)" p = true -> isDigit p = false.
Proof.
  intros H.
  pose proof (char_implies (oneOf ".)") (fun c => negb (isDigit c))
                ltac:(vm_compute; reflexivity) p H) as F.
  now apply negb_true_iff in F.
Qed.

Lemma digit_facts c :
  isDigit c = true ->
  isSpace c = false /\ oneOf "-*+" c = false /\ isAlpha c = false /\
  oneOf "(" c = false /\ isUpper c = false.
Proof.
  intros H.
  pose proof (char_implies isDigit
                (fun c => negb (isSpace c) && negb (oneOf "-*+" c)
                          && negb (isAlpha c) && negb (oneOf "(" c)
                          && negb (isUpper c))
                ltac:(vm_compute; reflexivity) c H) as F.
  cbv beta in F. rewrite !andb_true_iff, !negb_true_iff in F. tauto.
Qed.

Lemma alpha_facts c :
  isAlpha c = true ->
  isSpace c = false /\ oneOf "-*+" c = false /\ isDigit c = false.
Proof.
  intros H.
  pose proof (char_implies isAlpha
                (fun c => negb (isSpace c) && negb (oneOf "-*+" c)
                          && negb (isDigit c))
                ltac:(vm_compute; reflexivity) c H) as F.
  cbv beta in F. rewrite !andb_true_iff, !negb_true_iff in F. tauto.
Qed.

Lemma bullet_facts c :
  oneOf "-*+" c = true -> isSpace c = false /\ isDigit c = false.
Proof.
  intros H.
  pose proof (char_implies (oneOf "-*+")
                (fun c => negb (isSpace c) && negb (isDigit c))
                ltac:(vm_compute; reflexivity) c H) as F.
  cbv beta in F. rewrite !andb_true_iff, !negb_true_iff in F. tauto.
Qed.

(** No character of the marker classes is a line feed. *)
Lemma marker_chars_not_LF c :
  oneOf "-*+.)" c || isDigit c || isAlpha c = true -> Ascii.eqb c LF = false.
Proof.
  intros H.
  pose proof (char_implies (fun c => oneOf "-*+.)" c || isDigit c || isAlpha c)
                (fun c => negb (Ascii.eqb c LF))
                ltac:(vm_compute; reflexivity) c H) as F.
  now apply negb_true_iff in F.
Qed.

(** What the list patterns make of a written item: its kind, and its text
    once the marker is taken off. *)
Lemma written_item_detected it :
  goodItem it ->
  exists lm,
    detectListType (writtenItem it) = Some lm /\
    lm_type lm = ll_type it /\
    trim (replacePattern (lm_pattern lm) (writtenItem it)) = ll_text it.
Proof.
  destruct it as [mk t c]. unfold goodItem, writtenItem. cbn [ll_marker ll_type ll_text].
  intros [Hm Hc]. pose proof (proj1 (proj2 Hc)) as Htrim.
  pose proof (spaces1_clean c Hc) as Hsp.
  unfold detectListType, listPatterns, detectListTypeIn, replacePattern.
  destruct Hm as [m Hm|d p Hne Hd Hp|a p Ha Hp|d Hne Hd].
  - destruct (bullet_facts m Hm) as (Hs & Hdg).
    assert (Hb : matchListPattern BulletPoints (String m "" ++ " " ++ c)
                 = Some (mkMatch (Some (String m "")) c)).
    { unfold matchListPattern. cbn [append skipWhile]. rewrite Hs.
      cbn [one]. rewrite Hm, Hsp. reflexivity. }
    rewrite Hb. eexists. split; [reflexivity|].
    rewrite (bullet_match_not_digitMarker _ _ Hb). cbn [lm_type lm_pattern].
    rewrite Hb. cbn [after]. auto.
  - destruct d as [|d0 d]; [contradiction|].
    cbn [forallb] in Hd. apply andb_true_iff in Hd as [Hd0 Hd].
    destruct (digit_facts d0 Hd0) as (Hs & Hnb & _).
    pose proof (closer_not_digit p Hp) as Hpd.
    assert (Hl : (String d0 d ++ String p "") ++ " " ++ c
                 = String d0 (d ++ String p (String " " c))).
    { rewrite append_assoc. reflexivity. }
    rewrite Hl.
    assert (Hb : matchListPattern BulletPoints
                   (String d0 (d ++ String p (String " " c))) = None).
    { unfold matchListPattern. cbn [skipWhile]. rewrite Hs. cbn [one].
      now rewrite Hnb. }
    assert (Hn : matchListPattern NumberedLists
                   (String d0 (d ++ String p (String " " c)))
                 = Some (mkMatch None c)).
    { unfold matchListPattern. cbn [skipWhile]. rewrite Hs.
      cbn [digits1]. rewrite Hd0, (skipWhile_run isDigit d p _ Hd Hpd).
      cbn [one]. rewrite Hp, Hsp. reflexivity. }
    rewrite Hb, Hn. eexists. split; [reflexivity|].
    rewrite (numbered_match_digitMarker _ _ Hn). cbn [lm_type lm_pattern].
    rewrite Hn. cbn [after]. auto.
  - destruct (alpha_facts a Ha) as (Hs & Hnb & Hnd).
    cbn [append].
    assert (Hb : matchListPattern BulletPoints
                   (String a (String p (String " " c))) = None).
    { unfold matchListPattern. cbn [skipWhile]. rewrite Hs. cbn [one].
      now rewrite Hnb. }
    assert (Hn : matchListPattern NumberedLists
                   (String a (String p (String " " c))) = None).
    { unfold matchListPattern. cbn [skipWhile]. rewrite Hs. cbn [digits1].
      now rewrite Hnd. }
    assert (Hlt : matchListPattern LetteredLists
                    (String a (String p (String " " c)))
                  = Some (mkMatch None c)).
    { unfold matchListPattern. cbn [skipWhile]. rewrite Hs. cbn [one].
      rewrite Ha. cbn [one]. rewrite Hp, Hsp. reflexivity. }
    assert (Hdm : digitMarker (String a (String p (String " " c))) = false).
    { unfold digitMarker. cbn [skipWhile]. rewrite Hs. cbn [digits1].
      now rewrite Hnd. }
    rewrite Hb, Hn, Hlt. eexists. split; [reflexivity|].
    rewrite Hdm. cbn [lm_type lm_pattern]. rewrite Hlt. cbn [after]. auto.
  - assert (Hl : ("(" ++ d ++ ")") ++ " " ++ c
                 = String "(" (d ++ String ")" (String " " c))).
    { cbn [append]. f_equal. rewrite append_assoc. reflexivity. }
    rewrite Hl.
    assert (Hb : matchListPattern BulletPoints
                   (String "(" (d ++ String ")" (String " " c))) = None)
      by reflexivity.
    assert (Hn : matchListPattern NumberedLists
                   (String "(" (d ++ String ")" (String " " c))) = None)
      by reflexivity.
    assert (Hlt : matchListPattern LetteredLists
                   (String "(" (d ++ String ")" (String " " c))) = None)
      by reflexivity.
    assert (Hp : matchListPattern ParenNumbers
                   (String "(" (d ++ String ")" (String " " c)))
                 = Some (mkMatch None c)).
    { unfold matchListPattern.
      change (skipWhile isSpace (String "(" (d ++ String ")" (String " " c))))
        with (String "(" (d ++ String ")" (String " " c))).
      change (one (oneOf "(") (String "(" (d ++ String ")" (String " " c))))
        with (Some ("("%char, d ++ String ")" (String " " c))).
      cbv iota beta. rewrite (digits1_run d ")" _ Hne Hd eq_refl).
      change (one (oneOf ")") (String ")" (String " " c)))
        with (Some (")"%char, String " " c)).
      cbv iota beta. rewrite Hsp. reflexivity. }
    assert (Hdm : digitMarker (String "(" (d ++ String ")" (String " " c)))
                  = false) by reflexivity.
    rewrite Hb, Hn, Hlt, Hp. eexists. split; [reflexivity|].
    rewrite Hdm. cbn [lm_type lm_pattern]. rewrite Hp. cbn [after]. auto.
Qed.

Lemma read_written_items all items :
  forall i B,
    Forall goodItem items ->
    forEachFrom all i (map writtenItem items) (betweenBlocks B)
    = betweenBlocks (B ++ map itemBlock items).
Proof.
  induction items as [|it items IH]; intros i B H; cbn [map forEachFrom].
  - now rewrite app_nil_r.
  - inversion H as [|? ? Hit Hrest]; subst.
    destruct (written_item_detected it Hit) as (lm & Hd & Ht & Hc).
    rewrite (read_list_line all i _ lm B Hd), Hc, Ht.
    rewrite (IH (S i) _ Hrest). unfold itemBlock.
    now rewrite <- app_assoc.
Qed.

Lemma forallb_impl (p q : ascii -> bool) s :
  (forall c, p c = true -> q c = true) ->
  forallb p s = true -> forallb q s = true.
Proof.
  intros Hpq. induction s as [|c s IH]; cbn; [reflexivity|].
  intros H. apply andb_true_iff in H as [Hc Hs].
  now rewrite (Hpq c Hc), (IH Hs).
Qed.

Lemma digits_noLF d : forallb isDigit d = true -> noLF d.
Proof.
  apply forallb_impl. intros c H. apply negb_true_iff, marker_chars_not_LF.
  rewrite H. now rewrite orb_true_r.
Qed.

Lemma noLF_char c : Ascii.eqb c LF = false -> noLF (String c "").
Proof. intros H. unfold noLF. cbn. now rewrite H. Qed.

Lemma listMarker_noLF mk t : listMarker mk t -> noLF mk.
Proof.
  assert (Hbullet : forall m, oneOf "-*+" m = true -> Ascii.eqb m LF = false).
  { intros m H.
    exact (proj1 (negb_true_iff _)
             (char_implies (oneOf "-*+") (fun c => negb (Ascii.eqb c LF))
                ltac:(vm_compute; reflexivity) m H)). }
  assert (Hcloser : forall p, oneOf ".)" p = true -> Ascii.eqb p LF = false).
  { intros p H.
    exact (proj1 (negb_true_iff _)
             (char_implies (oneOf ".)") (fun c => negb (Ascii.eqb c LF))
                ltac:(vm_compute; reflexivity) p H)). }
  assert (Halpha : forall a, isAlpha a = true -> Ascii.eqb a LF = false).
  { intros a H.
    exact (proj1 (negb_true_iff _)
             (char_implies isAlpha (fun c => negb (Ascii.eqb c LF))
                ltac:(vm_compute; reflexivity) a H)). }
  intros [m Hm|d p Hne Hd Hp|a p Ha Hp|d Hne Hd].
  - apply noLF_char, Hbullet, Hm.
  - apply noLF_app; [now apply digits_noLF|]. apply noLF_char, Hcloser, Hp.
  - apply (noLF_app (String a "") (String p ""));
      apply noLF_char; [now apply Halpha|now apply Hcloser].
  - apply (noLF_app "("); [reflexivity|].
    apply noLF_app; [now apply digits_noLF|reflexivity].
Qed.

Lemma writtenItem_noLF it : goodItem it -> noLF (writtenItem it).
Proof.
  intros [Hm Hc]. unfold writtenItem.
  apply noLF_app; [exact (listMarker_noLF _ _ Hm)|].
  apply (noLF_app " "); [reflexivity|now apply cleanLine_noLF].
Qed.

Lemma itemBlock_stable it : goodItem it -> stableBlock (itemBlock it).
Proof.
  intros [_ Hc]. unfold itemBlock.
  destruct (ll_type it); [now apply stable_bullet|now apply stable_numbered].
Qed.

Lemma blockLines_item it : blockLines (itemBlock it) = [normalItem it].
Proof. unfold itemBlock, normalItem. now destruct (ll_type it). Qed.

(** Lines that start with a visible character and end with one, each
    followed by a line feed: trimming takes off the last line feed. *)
Lemma trim_concatNl ls :
  ls <> [] ->
  Forall (fun l => (exists c r, l = String c r /\ isSpace c = false)
                   /\ trimEnd l = l) ls ->
  trim (concatNl ls) = joinLines ls.
Proof.
  intros Hne H.
  destruct (exists_last Hne) as (core & l & ->).
  pose proof H as Hall. apply Forall_app in H as [Hcore Hl].
  inversion Hl as [|? ? [(c & r & El & Hc) Hfix] _]; subst.
  assert (Hhd : exists c' r', hd "" (core ++ [String c r])%list = String c' r'
                              /\ isSpace c' = false).
  { destruct core as [|x core]; cbn [hd app]; [eauto|].
    inversion Hcore as [|? ? [(c' & r' & -> & Hc') _] _]; eauto. }
  destruct Hhd as (c' & r' & Hhd & Hc').
  pose proof (trim_rendering core (String c r) [] c' r' Hhd Hc' Hfix) as Ht.
  rewrite app_nil_r in Ht. apply Ht; [discriminate|constructor].
Qed.

Lemma normalItem_shape it :
  goodItem it ->
  (exists c r, normalItem it = String c r /\ isSpace c = false)
  /\ trimEnd (normalItem it) = normalItem it.
Proof.
  intros [_ Hc]. unfold normalItem. split.
  - destruct (ll_type it); cbn; eauto.
  - apply trimEnd_app_fixed; [now apply cleanLine_trimEnd|exact (proj1 Hc)].
Qed.

(** X11.  Every list marker is normalised.  Lines that start with a bullet
    character, a number, a letter or a number in parentheses become one
    list item each; the renderer prints [- ] for all of them but the
    numbered ones, and [1. ] for every numbered one, whatever its number. *)
Theorem list_markers_are_normalised (items : list ListLine) :
  items <> [] ->
  Forall goodItem items ->
  analyzeTextStructure (joinLines (map writtenItem items))
  = map itemBlock items /\
  transform (joinLines (map writtenItem items))
  = joinLines (map normalItem items).
Proof.
  intros Hne H.
  assert (Ha : analyzeTextStructure (joinLines (map writtenItem items))
               = map itemBlock items).
  { unfold analyzeTextStructure.
    rewrite split_joinLines.
    - change initialState with (betweenBlocks []).
      rewrite (read_written_items _ items 0 [] H). reflexivity.
    - apply Forall_map. eapply Forall_impl; [|exact H].
      exact writtenItem_noLF.
    - destruct items; [contradiction|discriminate]. }
  split; [exact Ha|].
  unfold transform. rewrite Ha. unfold blocksToMarkdown.
  rewrite fold_renderBlock_lines
    by (apply Forall_map; eapply Forall_impl; [|exact H]; exact itemBlock_stable).
  cbn [markdown append].
  assert (Hl : flat_map blockLines (map itemBlock items) = map normalItem items).
  { clear. induction items as [|it items IH]; [reflexivity|].
    cbn [map flat_map]. now rewrite blockLines_item, IH. }
  rewrite Hl. apply trim_concatNl.
  - destruct items; [contradiction|discriminate].
  - apply Forall_map. eapply Forall_impl; [|exact H]. exact normalItem_shape.
Qed.

Lemma list_markers_are_normalised_witness :
  transform ("* one" ++ nl ++ "7. two" ++ nl ++ "12) three" ++ nl
             ++ "b. four" ++ nl ++ "(3) five")
  = "- one" ++ nl ++ "1. two" ++ nl ++ "1. three" ++ nl ++ "- four" ++ nl
    ++ "- five".
Proof.
  apply (list_markers_are_normalised
           [ mkListLine "*" bullet "one"; mkListLine "7." numbered "two";
             mkListLine "12)" numbered "three"; mkListLine "b." bullet "four";
             mkListLine "(3)" bullet "five" ]).
  - discriminate.
  - repeat (apply Forall_cons || apply Forall_nil).
    all: split; [|repeat split; first [discriminate|reflexivity]].
    + exact (marker_bullet "*" eq_refl).
    + exact (marker_number "7" "." ltac:(discriminate) eq_refl eq_refl).
    + exact (marker_number "12" ")" ltac:(discriminate) eq_refl eq_refl).
    + exact (marker_letter "b" "." eq_refl eq_refl).
    + exact (marker_paren "3" ltac:(discriminate) eq_refl).
Defined.

(** *** A capitalised word on a line of its own *)

Lemma spaces1_word w : oneWord w -> spaces1 w = None.
Proof.
  unfold oneWord, spaces1. destruct w as [|c r]; [reflexivity|].
  cbn [forallb]. intros H. apply andb_true_iff in H as [H _].
  apply negb_true_iff in H. now rewrite H.
Qed.

Lemma oneWord_skipWhile p w : oneWord w -> oneWord (skipWhile p w).
Proof.
  unfold oneWord. induction w as [|c r IH]; intros H; [exact H|].
  cbn [skipWhile]. destruct (p c); [|exact H].
  cbn [forallb] in H. apply andb_true_iff in H as [_ H]. now apply IH.
Qed.

Lemma oneWord_tail c r : oneWord (String c r) -> oneWord r.
Proof.
  unfold oneWord. cbn [forallb]. intros H.
  now apply andb_true_iff in H as [_ H].
Qed.

(** Every list pattern ends in white space: a word matches none. *)
Lemma detectListType_word w : oneWord w -> detectListType w = None.
Proof.
  intros H.
  assert (Hs : forall p, matchListPattern p w = None).
  { intros p. unfold matchListPattern, one, digits1.
    pose proof (oneWord_skipWhile isSpace w H) as Hw.
    destruct (skipWhile isSpace w) as [|c r]; [now destruct p|].
    pose proof (oneWord_tail c r Hw) as Hr.
    destruct p.
    - destruct (oneOf "-*+" c); [|reflexivity].
      now rewrite (spaces1_word r Hr).
    - destruct (isDigit c); [|reflexivity].
      pose proof (oneWord_skipWhile isDigit r Hr) as Hd.
      destruct (skipWhile isDigit r) as [|x t]; [reflexivity|].
      destruct (oneOf ".)" x); [|reflexivity].
      now rewrite (spaces1_word t (oneWord_tail x t Hd)).
    - destruct (isAlpha c); [|reflexivity].
      destruct r as [|x t]; [reflexivity|].
      destruct (oneOf ".)" x); [|reflexivity].
      now rewrite (spaces1_word t (oneWord_tail x t Hr)).
    - destruct (oneOf "(" c); [|reflexivity].
      destruct r as [|d t]; [reflexivity|].
      destruct (isDigit d); [|reflexivity].
      pose proof (oneWord_skipWhile isDigit t (oneWord_tail d t Hr)) as Hd.
      destruct (skipWhile isDigit t) as [|x u]; [reflexivity|].
      destruct (oneOf ")" x); [|reflexivity].
      now rewrite (spaces1_word u (oneWord_tail x u Hd)). }
  unfold detectListType, listPatterns, detectListTypeIn. now rewrite !Hs.
Qed.

Lemma oneWord_split w : oneWord w -> split " " w = [w].
Proof.
  unfold oneWord. induction w as [|c r IH]; intros H; [reflexivity|].
  cbn [forallb] in H. apply andb_true_iff in H as [Hc Hr].
  cbn [split]. rewrite (IH Hr).
  assert (Ascii.eqb c " " = false) as ->; [|reflexivity].
  destruct (Ascii.eqb c " ") eqn:E; [|reflexivity].
  apply Ascii.eqb_eq in E. subst c. discriminate Hc.
Qed.

Lemma oneWord_trim w : oneWord w -> trim w = w.
Proof.
  unfold oneWord. intros H.
  assert (Hs : skipWhile isSpace w = w).
  { destruct w as [|c r]; [reflexivity|]. cbn [forallb skipWhile] in *.
    apply andb_true_iff in H as [Hc _]. apply negb_true_iff in Hc.
    now rewrite Hc. }
  unfold trim, trimStart. rewrite Hs.
  induction w as [|c r IH]; [reflexivity|].
  cbn [forallb] in H. apply andb_true_iff in H as [Hc Hr].
  apply negb_true_iff in Hc. cbn [trimEnd].
  destruct r as [|d t].
  - cbn. now rewrite Hc.
  - assert (Hst : skipWhile isSpace (String d t) = String d t).
    { cbn [forallb skipWhile] in *.
      apply andb_true_iff in Hr as [Hd _]. apply negb_true_iff in Hd.
      now rewrite Hd. }
    rewrite (IH Hr Hst). reflexivity.
Qed.

(** X12.  A capitalised word on a line of its own is a heading.  A text of
    one word, shorter than 60 characters, that starts with an upper case
    letter and a lower case letter or is all upper case comes out as one
    heading: of the level that a keyword pattern gives it, and of level 2
    otherwise. *)
Theorem capitalised_word_is_a_heading (w : string) :
  oneWord w ->
  titleWord w = true ->
  (String.length w < 60)%nat ->
  analyzeTextStructure w
  = [headingBlock w (Some match firstPattern metadataPatterns w with
                          | Some lvl => lvl
                          | None => 2%nat
                          end)].
Proof.
  intros Hw Ht Hlen.
  assert (Hup : exists c r, w = String c r /\ isUpper c = true).
  { unfold titleWord in Ht. destruct w as [|c r]; [discriminate|].
    exists c, r. split; [reflexivity|].
    apply orb_true_iff in Ht as [Ht|Ht].
    - destruct r; [discriminate|]. now apply andb_true_iff in Ht as [Ht _].
    - cbn [isEmpty negb forallb andb] in Ht.
      now apply andb_true_iff in Ht as [Ht _]. }
  destruct Hup as (c & r & -> & Hc).
  assert (Hcf : isSpace c = false /\ Ascii.eqb c LF = false
                /\ Ascii.eqb "`" c = false /\ Ascii.eqb ">" c = false
                /\ Ascii.eqb "#" c = false).
  { pose proof (char_implies isUpper
                  (fun c => negb (isSpace c) && negb (Ascii.eqb c LF)
                            && negb (Ascii.eqb "`" c) && negb (Ascii.eqb ">" c)
                            && negb (Ascii.eqb "#" c))
                  ltac:(vm_compute; reflexivity) c Hc) as F.
    cbv beta in F. rewrite !andb_true_iff, !negb_true_iff in F. tauto. }
  destruct Hcf as (Hsp & Hlf & Hbt & Hgt & Hhash).
  assert (Hno : noLF (String c r)).
  { unfold noLF. eapply forallb_impl; [|exact Hw]. intros a Ha.
    apply negb_true_iff in Ha. apply negb_true_iff.
    destruct (Ascii.eqb a LF) eqn:E; [|reflexivity].
    apply Ascii.eqb_eq in E. subst a. discriminate Ha. }
  pose proof (oneWord_trim _ Hw) as Htrim.
  assert (Hreach : reachesHeading (String c r)).
  { unfold reachesHeading. rewrite Htrim. cbn [startsWith isEmpty].
    rewrite Hbt, Hgt. repeat split. now apply detectListType_word. }
  assert (Hatx : atxMatch (String c r) = None).
  { unfold atxMatch. cbn [takeWhile]. now rewrite Hhash. }
  assert (Htc : isTitleCase (String c r) = true).
  { unfold isTitleCase. rewrite (oneWord_split _ Hw). cbn [filter].
    now rewrite Ht. }
  assert (Hh : analyzeHeading (trim (String c r)) [String c r] 0
               = mkHeadingAnalysis true (String c r) ""
                   (Some match firstPattern metadataPatterns (String c r) with
                         | Some lvl => lvl
                         | None => 2%nat
                         end)).
  { rewrite Htrim. unfold analyzeHeading. rewrite Hatx.
    change (setextLevel [String c r] 0) with (@None nat). cbv iota.
    rewrite Htrim.
    destruct (firstPattern metadataPatterns (String c r)); [reflexivity|].
    rewrite Htc. apply Nat.ltb_lt in Hlen. now rewrite Hlen. }
  unfold analyzeTextStructure. rewrite (split_noLF _ Hno). cbn [forEachFrom].
  rewrite processLine_heading; [|exact Hreach|reflexivity|now rewrite Hh ..].
  rewrite Hh. reflexivity.
Qed.

Lemma capitalised_word_is_a_heading_witness :
  analyzeTextStructure "Yes" = [headingBlock "Yes" (Some 2%nat)].
Proof.
  apply (capitalised_word_is_a_heading "Yes"); [reflexivity|reflexivity|].
  cbn. lia.
Defined.

(** *** The renderer keeps no state that matters *)

Lemma renderBlock_printed rs b :
  markdown (renderBlock rs b) = markdown rs ++ printed b.
Proof.
  unfold printed, renderBlock.
  destruct (type b); cbn [markdown append]; try reflexivity.
  destruct (listStarted rs), (r_listType rs) as [[]|],
    (blockListType b) as [[]|], (blockListIndex b) as [i|];
    cbn; try reflexivity; destruct (truthy i); reflexivity.
Qed.

Lemma concat_empty_cons x xs :
  String.concat "" (x :: xs) = x ++ String.concat "" xs.
Proof. destruct xs; cbn [String.concat append]; [now rewrite append_nil_r|reflexivity]. Qed.

Lemma fold_renderBlock_printed bs :
  forall rs,
    markdown (fold_left renderBlock bs rs)
    = markdown rs ++ String.concat "" (map printed bs).
Proof.
  induction bs as [|b bs IH]; intros rs; cbn [fold_left map].
  - cbn. now rewrite append_nil_r.
  - rewrite IH, renderBlock_printed, concat_empty_cons.
    now rewrite append_assoc.
Qed.

(** X13.  The renderer prints every block on its own.  Its locals
    [listType] and [listStarted] never change what is printed: the text is
    the concatenation of what each block gives alone, trimmed. *)
Theorem renderer_prints_each_block_alone (bs : list Block) :
  blocksToMarkdown bs = trim (String.concat "" (map printed bs)).
Proof.
  unfold blocksToMarkdown. now rewrite fold_renderBlock_printed.
Qed.


(* ===================================================================== *)
(** ** Further properties of the rewriter *)
(* ===================================================================== *)

(** *** Sections *)

Lemma splitInside_nonempty s : splitInside s <> [].
Proof.
  destruct s as [|c r]; cbn; [discriminate|].
  destruct (_ && _); [discriminate|].
  destruct (splitInside r); discriminate.
Qed.

Lemma concat_consHead c ps :
  ps <> [] -> String.concat "" (consHead c ps) = String c (String.concat "" ps).
Proof.
  destruct ps as [|w ws]; [contradiction|]. intros _.
  cbn [consHead String.concat]. now destruct ws.
Qed.

Lemma concat_splitInside s : String.concat "" (splitInside s) = s.
Proof.
  induction s as [|c r IH]; [reflexivity|].
  cbn [splitInside].
  assert (Hc : String.concat "" (consHead c (splitInside r)) = String c r).
  { rewrite concat_consHead by apply splitInside_nonempty. now rewrite IH. }
  destruct (headerAhead (String c r)); [|exact Hc].
  cbn [String.concat].
  destruct (consHead c (splitInside r)) eqn:E; [|exact Hc].
  destruct (splitInside r); discriminate.
Qed.

Lemma hd_splitInside_upper u r :
  isUpper u = true -> exists w, hd "" (splitInside (String u r)) = String u w.
Proof.
  intros Hu. cbn [splitInside headerAhead].
  assert (Ascii.eqb u LF = false) as ->.
  { apply negb_true_iff.
    exact (char_implies isUpper (fun c => negb (Ascii.eqb c LF))
             ltac:(vm_compute; reflexivity) u Hu). }
  cbn [andb]. destruct (splitInside r) as [|w ws]; cbn; eauto.
Qed.

Lemma tl_splitInside s : Forall startsHeaderLine (tl (splitInside s)).
Proof.
  induction s as [|c r IH]; [constructor|].
  cbn [splitInside].
  assert (Htl : tl (consHead c (splitInside r)) = tl (splitInside r)).
  { destruct (splitInside r); reflexivity. }
  destruct (headerAhead (String c r)) eqn:Hh.
  - cbn [tl].
    destruct (consHead c (splitInside r)) as [|w ws] eqn:E;
      [constructor|].
    cbn [tl] in Htl. subst ws. constructor; [|exact IH].
    cbn [headerAhead] in Hh. apply andb_true_iff in Hh as [Hc Hr].
    apply Ascii.eqb_eq in Hc. subst c.
    destruct r as [|u r2]; [discriminate|].
    cbn [headerTest] in Hr. apply andb_true_iff in Hr as [Hu _].
    destruct (hd_splitInside_upper u r2 Hu) as (w' & Hw).
    destruct (splitInside (String u r2)) as [|x xs]; cbn in Hw, E.
    + discriminate.
    + subst x. injection E as <-. exists u, w'. auto.
  - rewrite Htl. exact IH.
Qed.

(** X14.  The split into sections loses nothing and cuts only before a new
    line that starts with an upper case letter: the sections concatenate to
    the text, and each section but the first starts with a line feed and an
    upper case letter. *)
Theorem sections_partition_the_text (text : string) :
  String.concat "" (splitSections text) = text /\
  Forall startsHeaderLine (tl (splitSections text)).
Proof.
  destruct text as [|c r]; [split; [reflexivity|constructor]|].
  cbn [splitSections]. split.
  - rewrite concat_consHead by apply splitInside_nonempty.
    now rewrite concat_splitInside.
  - replace (tl (consHead c (splitInside r))) with (tl (splitInside r))
      by (destruct (splitInside r); reflexivity).
    apply tl_splitInside.
Qed.

(** *** The heading depth *)

Lemma processSection_without_header config markdown section :
  sectionHasHeader section = false ->
  processSection config markdown section
  = Returned
      (let st := fold_left (rewriteLine config) (split LF (trim section))
                           (mkDocState markdown "") in
       if negb (isEmpty (currentParagraph st))
       then d_markdown st ++ currentParagraph st ++ nl ++ nl
       else d_markdown st).
Proof.
  unfold sectionHasHeader, processSection. intros ->. reflexivity.
Qed.

(** The call of [repeat] in the header step: whether it throws is decided
    by the depth alone. *)
Lemma repeatCount_outcome d :
  (depthThrows d = true ->
   repeatCount "#" (mathMin d (int 3)) = Thrown RangeError) /\
  (depthThrows d = false ->
   exists hashes, repeatCount "#" (mathMin d (int 3)) = Returned hashes).
Proof.
  destruct d as [|[]|q]; cbn [depthThrows].
  - split; [discriminate|]. intros _. cbn. eauto.
  - split; [reflexivity|discriminate].
  - split; [discriminate|]. intros _. cbn. eauto.
  - split; intros Hq.
    + apply Qle_bool_iff in Hq.
      assert (H3 : Qle_bool q (inject_Z 3) = true).
      { apply Qle_bool_iff. apply Qle_trans with (inject_Z (-1)); [assumption|].
        rewrite <- Zle_Qle. lia. }
      unfold mathMin, int. rewrite H3. unfold repeatCount.
      apply truncate_mono in Hq. rewrite truncate_int in Hq.
      assert ((truncate q <? 0)%Z = true) as -> by (apply Z.ltb_lt; lia).
      reflexivity.
    + apply Qle_bool_false in Hq. rewrite (repeatCount_level q Hq). eauto.
Qed.

Lemma processSection_throws config markdown section :
  depthThrows (headingDepth config) = true ->
  sectionHasHeader section = true ->
  processSection config markdown section = Thrown RangeError.
Proof.
  unfold sectionHasHeader, processSection. intros Hd ->.
  destruct (repeatCount_outcome (headingDepth config)) as [H _].
  rewrite (H Hd). reflexivity.
Qed.

Lemma processSections_throws config sections markdown :
  depthThrows (headingDepth config) = true ->
  (processSections config markdown sections = Thrown RangeError
   <-> existsb sectionHasHeader sections = true) /\
  (existsb sectionHasHeader sections = false ->
   exists md, processSections config markdown sections = Returned md).
Proof.
  intros Hd. revert markdown.
  induction sections as [|s rest IH]; intros markdown.
  - cbn. split; [split; discriminate|eauto].
  - cbn [processSections existsb].
    destruct (sectionHasHeader s) eqn:Hs.
    + rewrite processSection_throws by assumption. cbn.
      split; [tauto|discriminate].
    + rewrite processSection_without_header by assumption.
      cbn [bind orb]. apply IH.
Qed.

(** X15.  [processDocument] throws exactly when the heading depth is -1 or
    less (minus infinity included) and some section starts with a header
    line; in every other case it returns.  A negative depth above -1 counts
    as 0 and throws nothing. *)
Theorem rewriter_throws_iff_low_depth_and_header (text : string)
  (config : StructureConfig) :
  (processDocument text config = Thrown RangeError
   <-> depthThrows (headingDepth config)
       && existsb sectionHasHeader (splitSections text) = true) /\
  (depthThrows (headingDepth config)
   && existsb sectionHasHeader (splitSections text) = false ->
   exists md, processDocument text config = Returned md).
Proof.
  unfold processDocument.
  destruct (depthThrows (headingDepth config)) eqn:Hd; cbn [andb].
  - destruct (processSections_throws config (splitSections text) "" Hd)
      as [Hiff Hret].
    split.
    + rewrite <- Hiff.
      destruct (processSections config "" (splitSections text)) as [md|[]];
        cbn; split; intros H; first [discriminate H|reflexivity].
    + intros H. destruct (Hret H) as (md & ->). cbn. eauto.
  - destruct (repeatCount_outcome (headingDepth config)) as [_ Hrep].
    destruct (Hrep Hd) as (hashes & Hh).
    destruct (processSections_headers config hashes (splitSections text) ""
                Hh eq_refl) as (raw & -> & _).
    cbn. split; [split; discriminate|eauto].
Qed.

(** A depth of -1 throws on a header; a depth of -1/2 does not. *)
Example low_depth_examples :
  processDocument ("intro" ++ nl ++ "Title: x") (withDepth (int (-1)) depthNine)
  = Thrown RangeError
  /\ depthThrows (Finite (-1 # 2)) = false
  /\ processDocument ("intro" ++ nl ++ "Title: x")
       (withDepth (Finite (-1 # 2)) depthNine)
     = Returned ("intro" ++ nl ++ nl ++ " Title: x")
  /\ processDocument ("intro" ++ nl ++ "- item")
       (withDepth (int (-1)) depthNine)
     = Returned "intro - item".
Proof. repeat split; reflexivity. Qed.

Lemma processSections_without_header config d sections markdown :
  existsb sectionHasHeader sections = false ->
  processSections (withDepth d config) markdown sections
  = processSections config markdown sections /\
  exists md, processSections config markdown sections = Returned md.
Proof.
  revert markdown. induction sections as [|s rest IH]; intros markdown H.
  - cbn. eauto.
  - cbn [existsb] in H. apply orb_false_iff in H as [Hs Hrest].
    cbn [processSections].
    rewrite !processSection_without_header by assumption.
    cbn [bind]. rewrite fold_rewriteLine_withDepth.
    apply IH, Hrest.
Qed.

(** X16.  When no section starts with a header line the heading depth is
    never looked at: [processDocument] returns, and returns the same for
    every depth. *)
Theorem depth_is_irrelevant_without_headers (text : string)
  (config : StructureConfig) (d : Float64) :
  existsb sectionHasHeader (splitSections text) = false ->
  processDocument text (withDepth d config) = processDocument text config /\
  exists md, processDocument text config = Returned md.
Proof.
  intros H. unfold processDocument.
  destruct (processSections_without_header config d (splitSections text) "" H)
    as [-> (md & ->)].
  cbn. eauto.
Qed.

Lemma depth_is_irrelevant_without_headers_witness :
  processDocument ("some text" ++ nl ++ "- item") (withDepth (int (-4)) depthNine)
  = processDocument ("some text" ++ nl ++ "- item") depthNine /\
  exists md,
    processDocument ("some text" ++ nl ++ "- item") depthNine = Returned md.
Proof.
  apply (depth_is_irrelevant_without_headers ("some text" ++ nl ++ "- item")
           depthNine (int (-4))).
  reflexivity.
Defined.

(** *** The code-block step *)

Lemma indentHead_visible s : visibleHead s -> indentHead s = None.
Proof.
  destruct s as [|c r]; [reflexivity|]. cbn [visibleHead].
  destruct c as [[] [] [] [] [] [] [] []]; cbn; intros H;
    try discriminate H; reflexivity.
Qed.

Lemma lacks_cons ch c s :
  lacks ch (String c s) <-> Ascii.eqb c ch = false /\ lacks ch s.
Proof.
  unfold lacks. cbn [forallb]. rewrite andb_true_iff, negb_true_iff. tauto.
Qed.

Lemma lacks_app_inv ch x y : lacks ch (x ++ y) -> lacks ch x /\ lacks ch y.
Proof.
  induction x as [|c x IH]; cbn [append]; intros H.
  - split; [reflexivity|exact H].
  - apply lacks_cons in H as [Hc H]. destruct (IH H) as [Hx Hy].
    split; [apply lacks_cons; auto|exact Hy].
Qed.

Lemma lacks_skipWhile ch p s : lacks ch s -> lacks ch (skipWhile p s).
Proof.
  induction s as [|c s IH]; intros H; [exact H|].
  cbn [skipWhile]. destruct (p c); [|exact H].
  apply IH. now apply lacks_cons in H.
Qed.

Lemma lacks_takeWhile ch p s : lacks ch s -> lacks ch (takeWhile p s).
Proof.
  induction s as [|c s IH]; intros H; [exact H|].
  cbn [takeWhile]. destruct (p c); [|reflexivity].
  apply lacks_cons in H as [Hc H]. apply lacks_cons. auto.
Qed.

Lemma lacks_trimEnd ch s : lacks ch s -> lacks ch (trimEnd s).
Proof.
  induction s as [|c s IH]; intros H; [exact H|].
  apply lacks_cons in H as [Hc H]. specialize (IH H).
  cbn [trimEnd]. destruct (trimEnd s) as [|d r].
  - destruct (isSpace c); [reflexivity|]. apply lacks_cons. auto.
  - apply lacks_cons. auto.
Qed.

Lemma lacks_trim ch s : lacks ch s -> lacks ch (trim s).
Proof. intros H. apply lacks_trimEnd, lacks_skipWhile, H. Qed.

Lemma lacks_drop ch n s : lacks ch s -> lacks ch (drop n s).
Proof.
  revert s. induction n as [|n IH]; intros s H; [exact H|].
  destruct s as [|c s]; [exact H|]. cbn [drop].
  apply IH. now apply lacks_cons in H.
Qed.

Lemma lacks_split ch sep s : lacks ch s -> Forall (lacks ch) (split sep s).
Proof.
  induction s as [|c s IH]; intros H; [repeat constructor|].
  apply lacks_cons in H as [Hc H]. specialize (IH H).
  cbn [split]. destruct (Ascii.eqb c sep).
  - constructor; [reflexivity|exact IH].
  - destruct (split sep s) as [|w ws].
    + repeat constructor. apply lacks_cons. split; [exact Hc|reflexivity].
    + inversion IH; subst. constructor; [|assumption].
      apply lacks_cons. auto.
Qed.

Lemma lacks_consHead ch c ps :
  Ascii.eqb c ch = false -> Forall (lacks ch) ps ->
  Forall (lacks ch) (consHead c ps).
Proof.
  intros Hc H. destruct ps as [|w ws]; cbn [consHead].
  - repeat constructor. apply lacks_cons. split; [exact Hc|reflexivity].
  - inversion H; subst. constructor; [|assumption]. apply lacks_cons. auto.
Qed.

Lemma lacks_splitInside ch s : lacks ch s -> Forall (lacks ch) (splitInside s).
Proof.
  induction s as [|c s IH]; intros H; [repeat constructor|].
  apply lacks_cons in H as [Hc H]. specialize (IH H).
  cbn [splitInside].
  destruct (headerAhead (String c s));
    [constructor; [reflexivity|]|]; now apply lacks_consHead.
Qed.

Lemma lacks_splitSections ch text :
  lacks ch text -> Forall (lacks ch) (splitSections text).
Proof.
  destruct text as [|c s]; intros H; [repeat constructor|].
  apply lacks_cons in H as [Hc H]. cbn [splitSections].
  apply lacks_consHead; [exact Hc|now apply lacks_splitInside].
Qed.

Lemma lacks_replaceFrom ch d c o s :
  lacks ch o -> lacks ch s ->
  forall k, lacks ch (replaceFrom d c o k s).
Proof.
  intros Ho. induction s as [|a s IH]; intros H k; [destruct k; reflexivity|].
  pose proof H as Hs. apply lacks_cons in H as [Ha H]. specialize (IH H).
  cbn [replaceFrom]. destruct k as [|k]; [|apply IH].
  destruct (matchDelimited d c (String a s)) as [x|] eqn:Hm.
  - assert (Hx : lacks ch x).
    { unfold matchDelimited in Hm.
      destruct (startsWith d (String a s)); [|discriminate].
      destruct (_ && _); [|discriminate]. injection Hm as <-.
      apply lacks_takeWhile, lacks_drop, Hs. }
    repeat apply lacks_app; auto.
  - apply lacks_cons. auto.
Qed.

Lemma lacks_convertEmphasis style line :
  lacks "`" line -> lacks "`" (convertEmphasis style line).
Proof.
  intros H. destruct style; cbn [convertEmphasis]; unfold replaceDelimited;
    repeat apply lacks_replaceFrom; auto; reflexivity.
Qed.

Lemma visibleHead_replaceFrom d c o s :
  visibleHead o -> o <> "" -> visibleHead s ->
  visibleHead (replaceFrom d c o 0 s).
Proof.
  intros Ho Hne Hs. destruct s as [|a s]; [exact I|].
  cbn [replaceFrom]. destruct (matchDelimited d c (String a s)).
  - destruct o as [|b o]; [contradiction|exact Ho].
  - exact Hs.
Qed.

Lemma visibleHead_convertEmphasis style line :
  visibleHead line -> visibleHead (convertEmphasis style line).
Proof.
  intros H. destruct style; cbn [convertEmphasis]; unfold replaceDelimited;
    repeat apply visibleHead_replaceFrom; auto;
    first [reflexivity|discriminate].
Qed.

Lemma visibleHead_trim s : visibleHead (trim s).
Proof.
  destruct (trim_cases s) as [->|(c & r & -> & Hc)]; [exact I|exact Hc].
Qed.

(** The decimal digits of an integer are neither white space nor
    back-ticks. *)
Lemma string_of_uint_digits u :
  forallb (fun c => negb (isSpace c) && negb (Ascii.eqb c "`"))
          (NilEmpty.string_of_uint u) = true.
Proof. induction u; cbn; auto. Qed.

Lemma showZ_digits z :
  forallb (fun c => negb (isSpace c) && negb (Ascii.eqb c "`")) (showZ z) = true.
Proof.
  unfold showZ, NilZero.string_of_int, NilZero.string_of_uint.
  destruct (Z.to_int z) as [u|u]; destruct u; cbn [forallb];
    try reflexivity;
    try (change (NilEmpty.string_of_int (Decimal.Pos ?v))
           with (NilEmpty.string_of_uint v));
    cbn; try apply string_of_uint_digits.
Qed.

Lemma showZ_lacks z : lacks "`" (showZ z).
Proof.
  unfold lacks. eapply forallb_impl; [|apply showZ_digits].
  intros c H. now apply andb_true_iff in H.
Qed.

Lemma showZ_visible z r : visibleHead (showZ z ++ ". " ++ r).
Proof.
  pose proof (showZ_digits z) as H.
  destruct (showZ z) as [|c s]; [reflexivity|].
  cbn in H |- *. apply andb_true_iff in H as [H _].
  apply andb_true_iff in H as [H _]. now apply negb_true_iff in H.
Qed.

Lemma numberDot_suffix line rest :
  numberDot line = Some rest -> exists pre, line = pre ++ rest.
Proof.
  unfold numberDot, digits1. destruct line as [|c r]; [discriminate|].
  destruct (isDigit c); [|discriminate].
  assert (Hs : forall s, exists pre, s = pre ++ skipWhile isDigit s).
  { induction s as [|a s [pre IH]]; [exists ""; reflexivity|].
    cbn [skipWhile]. destruct (isDigit a).
    - exists (String a pre). cbn. now f_equal.
    - exists "". reflexivity. }
  destruct (Hs r) as [pre Hpre].
  destruct (skipWhile isDigit r) as [|a t]; [discriminate|].
  destruct (Ascii.eqb a ".") eqn:Ea.
  - apply Ascii.eqb_eq in Ea. subst a. intros [= <-].
    exists (String c (pre ++ ".")). cbn. f_equal.
    rewrite append_assoc. exact Hpre.
  - intros H. exfalso. revert H Ea.
    destruct a as [[] [] [] [] [] [] [] []]; cbn; intros; discriminate.
Qed.

Lemma bulletHead_suffix line rest :
  bulletHead line = Some rest -> exists c, line = String c rest.
Proof.
  unfold bulletHead, one. destruct line as [|c r]; [discriminate|].
  destruct (oneOf "-*" c); [|discriminate]. intros [= <-]. eauto.
Qed.

(** The line that the code-block step meets never starts with white
    space, so the pattern for an indented line never matches it. *)
Lemma rewrittenLine_visible config markdown rawLine :
  visibleHead (rewrittenLine config markdown rawLine).
Proof.
  unfold rewrittenLine. apply visibleHead_convertEmphasis.
  destruct (numberDot (trim rawLine)) as [rest|].
  - destruct (listStyle config); [reflexivity|apply visibleHead_trim].
  - destruct (bulletHead (trim rawLine)) as [rest|]; [|apply visibleHead_trim].
    destruct (listStyle config); [apply visibleHead_trim|apply showZ_visible].
Qed.

Lemma rewrittenLine_lacks config markdown rawLine :
  lacks "`" rawLine -> lacks "`" (rewrittenLine config markdown rawLine).
Proof.
  intros H. pose proof (lacks_trim "`" rawLine H) as Ht.
  unfold rewrittenLine. apply lacks_convertEmphasis.
  destruct (numberDot (trim rawLine)) as [rest|] eqn:Hn.
  - destruct (listStyle config); [|exact Ht].
    destruct (numberDot_suffix _ _ Hn) as [pre E]. rewrite E in Ht.
    apply lacks_app_inv in Ht as [_ Hr].
    apply (lacks_app "`" "* "); [reflexivity|now apply lacks_trim].
  - destruct (bulletHead (trim rawLine)) as [rest|] eqn:Hb; [|exact Ht].
    destruct (listStyle config); [exact Ht|].
    destruct (bulletHead_suffix _ _ Hb) as [c E]. rewrite E in Ht.
    apply lacks_cons in Ht as [_ Hr].
    apply lacks_app; [apply showZ_lacks|].
    apply (lacks_app "`" ". "); [reflexivity|now apply lacks_trim].
Qed.

Lemma endsWith_fence_lacks md : lacks "`" md -> endsWith fenceLine md = false.
Proof.
  induction md as [|c md IH]; intros H; [reflexivity|].
  cbn [endsWith]. apply orb_false_iff. split.
  - destruct (String.eqb (String c md) fenceLine) eqn:E; [|reflexivity].
    apply String.eqb_eq in E. rewrite E in H. discriminate H.
  - apply IH. now apply lacks_cons in H.
Qed.

(** While the written text holds no back-tick the code-block step changes
    nothing, whatever the style. *)
Lemma rewriteLine_without_fence config st rawLine :
  lacks "`" (d_markdown st) ->
  rewriteLine config st rawLine
  = let line := rewrittenLine config (d_markdown st) rawLine in
    if isEmpty line then
      if negb (isEmpty (currentParagraph st)) then
        mkDocState
          (d_markdown st ++ currentParagraph st ++ nl
             ++ match paragraphSpacing config with
                | double => nl
                | single => ""
                end)
          ""
      else mkDocState (d_markdown st) (currentParagraph st)
    else
      mkDocState (d_markdown st)
        (currentParagraph st
           ++ (if negb (isEmpty (currentParagraph st)) then " " else "")
           ++ line).
Proof.
  intros Hmd. rewrite rewriteLine_steps. cbv zeta.
  rewrite (indentHead_visible _ (rewrittenLine_visible config _ rawLine)).
  rewrite (endsWith_fence_lacks _ Hmd). now destruct (codeBlockStyle config).
Qed.

Lemma rewriteLine_noBacktick config st rawLine :
  noBacktick st -> lacks "`" rawLine ->
  noBacktick (rewriteLine config st rawLine) /\
  forall s, rewriteLine (withCodeBlockStyle s config) st rawLine
            = rewriteLine config st rawLine.
Proof.
  intros [Hmd Hpar] Hraw. split.
  - rewrite rewriteLine_without_fence by exact Hmd. cbv zeta.
    pose proof (rewrittenLine_lacks config (d_markdown st) rawLine Hraw) as Hl.
    destruct (isEmpty (rewrittenLine config (d_markdown st) rawLine));
      destruct (isEmpty (currentParagraph st)); cbn [negb];
      split; cbn [d_markdown currentParagraph]; auto; try reflexivity;
      repeat apply lacks_app; auto; try reflexivity;
      destruct (paragraphSpacing config); reflexivity.
  - intros s. rewrite !rewriteLine_without_fence by exact Hmd. reflexivity.
Qed.

Lemma fold_rewriteLine_noBacktick config lines :
  forall st,
    noBacktick st -> Forall (lacks "`") lines ->
    noBacktick (fold_left (rewriteLine config) lines st) /\
    forall s, fold_left (rewriteLine (withCodeBlockStyle s config)) lines st
              = fold_left (rewriteLine config) lines st.
Proof.
  induction lines as [|l lines IH]; intros st Hst H; [split; auto|].
  inversion H as [|? ? Hl Hrest]; subst. cbn [fold_left].
  destruct (rewriteLine_noBacktick config st l Hst Hl) as [Hst' Heq].
  destruct (IH _ Hst' Hrest) as [Hfin Hfold].
  split; [exact Hfin|]. intros s. rewrite Heq. apply Hfold.
Qed.

Lemma repeat_lacks c ch n : Ascii.eqb c ch = false -> lacks ch (JS.repeat c n).
Proof.
  intros H. induction n as [|n IH]; [reflexivity|].
  cbn [JS.repeat]. apply lacks_cons. auto.
Qed.

Lemma repeatCount_lacks c ch count hashes :
  Ascii.eqb c ch = false ->
  repeatCount c count = Returned hashes -> lacks ch hashes.
Proof.
  intros Hc. unfold repeatCount. destruct count as [| |q].
  - intros [= <-]. reflexivity.
  - discriminate.
  - destruct (truncate q <? 0)%Z; [discriminate|].
    intros [= <-]. now apply repeat_lacks.
Qed.

Lemma processSection_noBacktick config markdown section :
  lacks "`" markdown -> lacks "`" section ->
  (forall md, processSection config markdown section = Returned md ->
              lacks "`" md) /\
  forall s, processSection (withCodeBlockStyle s config) markdown section
            = processSection config markdown section.
Proof.
  intros Hmd Hsec.
  pose proof (lacks_split "`" LF _ (lacks_trim "`" _ Hsec)) as Hlines.
  assert (Hhd : lacks "`" (hd "" (split LF (trim section)))).
  { destruct Hlines; [reflexivity|assumption]. }
  assert (Htl : Forall (lacks "`") (tl (split LF (trim section)))).
  { destruct Hlines; [constructor|assumption]. }
  assert (Hfinal : forall st, noBacktick st ->
            lacks "`" (if negb (isEmpty (currentParagraph st))
                       then d_markdown st ++ currentParagraph st ++ nl ++ nl
                       else d_markdown st)).
  { intros st [H1 H2]. destruct (negb _); auto.
    repeat apply lacks_app; auto; reflexivity. }
  unfold processSection.
  cbn [withCodeBlockStyle headingDepth].
  destruct (headerTest (hd "" (split LF (trim section)))).
  - destruct (repeatCount "#" (mathMin (headingDepth config) (int 3)))
      as [hashes|] eqn:Hrep; [|split; [discriminate|reflexivity]].
    apply (repeatCount_lacks "#" "`") in Hrep; [|reflexivity].
    cbn [bind].
    match goal with
    | |- context [fold_left (rewriteLine config) ?ls ?st0] =>
        destruct (fold_rewriteLine_noBacktick config ls st0) as [Hst Heq]
    end.
    { split; cbn [d_markdown currentParagraph]; [|reflexivity].
      repeat apply lacks_app; auto; try reflexivity.
      now apply lacks_trim. }
    { exact Htl. }
    split.
    + intros md [= <-]. apply Hfinal, Hst.
    + intros s. now rewrite Heq.
  - cbn [bind].
    destruct (fold_rewriteLine_noBacktick config (split LF (trim section))
                (mkDocState markdown "")) as [Hst Heq].
    { split; [exact Hmd|reflexivity]. }
    { exact Hlines. }
    split.
    + intros md [= <-]. apply Hfinal, Hst.
    + intros s. now rewrite Heq.
Qed.

Lemma processSections_noBacktick config sections :
  forall markdown,
    lacks "`" markdown -> Forall (lacks "`") sections ->
    (forall md, processSections config markdown sections = Returned md ->
                lacks "`" md) /\
    forall s, processSections (withCodeBlockStyle s config) markdown sections
              = processSections config markdown sections.
Proof.
  induction sections as [|x rest IH]; intros markdown Hmd H.
  - cbn. split; [intros md [= <-]; exact Hmd|reflexivity].
  - inversion H as [|? ? Hx Hrest]; subst. cbn [processSections].
    destruct (processSection_noBacktick config markdown x Hmd Hx) as [Hl Heq].
    split.
    + intros md. destruct (processSection config markdown x) as [m|e];
        cbn [bind]; [|discriminate].
      apply (IH m (Hl m eq_refl) Hrest).
    + intros s. rewrite Heq.
      destruct (processSection config markdown x) as [m|e]; cbn [bind];
        [|reflexivity].
      apply (IH m (Hl m eq_refl) Hrest).
Qed.

(** X17.  [processDocument] never opens a code block.  The pattern for an
    indented line is tried on a line that was trimmed first, so it never
    matches: on a text without back-ticks the result has none, and the
    setting [codeBlockStyle] makes no difference. *)
Theorem rewriter_never_opens_a_code_block (text : string)
  (config : StructureConfig) :
  lacks "`" text ->
  (forall md, processDocument text config = Returned md -> lacks "`" md) /\
  (forall s, processDocument text (withCodeBlockStyle s config)
             = processDocument text config).
Proof.
  intros H. unfold processDocument.
  destruct (processSections_noBacktick config (splitSections text) ""
              eq_refl (lacks_splitSections "`" text H)) as [Hl Heq].
  split.
  - intros md. destruct (processSections config "" (splitSections text))
      as [m|e]; cbn [bind]; [|discriminate].
    intros [= <-]. apply lacks_trim, (Hl m eq_refl).
  - intros s. now rewrite Heq.
Qed.

Lemma rewriter_never_opens_a_code_block_witness :
  (forall md,
     processDocument (String TAB "x = 1" ++ nl ++ "    y = 2")
                     (mkConfig (int 2) ls_bullet single asterisk fenced)
     = Returned md -> lacks "`" md) /\
  (forall s,
     processDocument (String TAB "x = 1" ++ nl ++ "    y = 2")
       (withCodeBlockStyle s (mkConfig (int 2) ls_bullet single asterisk fenced))
     = processDocument (String TAB "x = 1" ++ nl ++ "    y = 2")
                       (mkConfig (int 2) ls_bullet single asterisk fenced)).
Proof.
  apply (rewriter_never_opens_a_code_block
           (String TAB "x = 1" ++ nl ++ "    y = 2")
           (mkConfig (int 2) ls_bullet single asterisk fenced)).
  reflexivity.
Defined.

(** An indented text comes out as running text, under either style. *)
Example indented_text_example :
  processDocument (String TAB "x = 1" ++ nl ++ "    y = 2")
                  (mkConfig (int 2) ls_bullet single asterisk fenced)
  = Returned "x = 1 y = 2".
Proof. reflexivity. Qed.

(** *** Paragraphs of the rewriter *)

Lemma replaceDelimited_lacks ch d o x :
  lacks ch x -> replaceDelimited (String ch d) ch o x = x.
Proof.
  intros H. unfold replaceDelimited. apply replaceFrom_unmatched.
  intros k. now apply unmatched_without_delimiter.
Qed.

Lemma convertEmphasis_plain style x :
  lacks "_" x -> lacks "*" x -> convertEmphasis style x = x.
Proof.
  intros Hu Ha. destruct style; cbn [convertEmphasis].
  - rewrite (replaceDelimited_lacks "_" "" "*" x Hu).
    exact (replaceDelimited_lacks "_" "_" "**" x Hu).
  - rewrite (replaceDelimited_lacks "*" "" "_" x Ha).
    exact (replaceDelimited_lacks "*" "*" "__" x Ha).
Qed.

Lemma rewrittenLine_plain config markdown p :
  plainInput p -> rewrittenLine config markdown p = p.
Proof.
  intros ((_ & Ht & _ & _ & Hu & Ha) & Hn & Hb & _).
  unfold rewrittenLine. rewrite Ht, Hn, Hb. now apply convertEmphasis_plain.
Qed.

Lemma rewriteLine_plain config markdown p :
  lacks "`" markdown -> plainInput p ->
  rewriteLine config (mkDocState markdown "") p = mkDocState markdown p.
Proof.
  intros Hmd Hp. rewrite rewriteLine_without_fence by exact Hmd.
  cbn [d_markdown currentParagraph]. rewrite (rewrittenLine_plain _ _ _ Hp).
  destruct Hp as ((Hne & _) & _).
  destruct p; [contradiction|reflexivity].
Qed.

Lemma rewriteLine_blank config markdown p :
  lacks "`" markdown -> p <> "" ->
  rewriteLine config (mkDocState markdown p) ""
  = mkDocState (markdown ++ p ++ nl ++ spacing config) "".
Proof.
  intros Hmd Hp. rewrite rewriteLine_without_fence by exact Hmd.
  cbn [d_markdown currentParagraph].
  assert (rewrittenLine config markdown "" = "") as ->
    by (unfold rewrittenLine; now destruct (emphasisStyle config)).
  destruct p; [contradiction|reflexivity].
Qed.

Lemma plainInput_shape p :
  plainInput p ->
  exists c r, p = String c r /\ isSpace c = false /\ isUpper c = false /\
              trimEnd p = p.
Proof.
  intros ((Hne & Ht & _) & _ & _ & Hup).
  destruct (trim_cases p) as [E|(c & r & E & Hc)]; rewrite Ht in E;
    [contradiction|]. subst p.
  exists c, r. repeat split; auto.
  apply trimmedText_trimEnd. split; assumption.
Qed.

Lemma concat_cons2 sep (p q : string) ps :
  String.concat sep (p :: q :: ps) = p ++ sep ++ String.concat sep (q :: ps).
Proof. reflexivity. Qed.

Lemma splitInside_noLF p s :
  noLF p -> splitInside s = [s] -> splitInside (p ++ s) = [p ++ s].
Proof.
  intros Hp Hs. induction p as [|c p IH]; [exact Hs|].
  apply lacks_cons in Hp as [Hc Hp]. cbn [append splitInside headerAhead].
  rewrite Hc, (IH Hp). reflexivity.
Qed.

Lemma splitInside_separator c t :
  isUpper c = false ->
  splitInside (String c t) = [String c t] ->
  splitInside ((nl ++ nl) ++ String c t) = [(nl ++ nl) ++ String c t].
Proof.
  intros Hup Hs.
  cbn [nl append splitInside headerAhead headerTest].
  rewrite Ascii.eqb_refl, Hup. change (isUpper LF) with false.
  cbn [andb]. cbn [splitInside headerAhead] in Hs. rewrite Hs. reflexivity.
Qed.

Lemma concat_head sep c r ps :
  exists t, String.concat sep (String c r :: ps) = String c t.
Proof. destruct ps; cbn; eauto. Qed.

Lemma splitInside_paragraphs ps :
  Forall plainInput ps ->
  splitInside (String.concat (nl ++ nl) ps) = [String.concat (nl ++ nl) ps].
Proof.
  induction ps as [|p ps IH]; intros H; [reflexivity|].
  inversion H as [|? ? Hp Hps]; subst. specialize (IH Hps).
  pose proof Hp as ((_ & _ & Hno & _) & _).
  destruct ps as [|q ps].
  - cbn [String.concat]. rewrite <- (append_nil_r p) at 1 2.
    now apply splitInside_noLF.
  - rewrite concat_cons2. apply splitInside_noLF; [exact Hno|].
    inversion Hps as [|? ? Hq _]; subst.
    destruct (plainInput_shape q Hq) as (c & r & -> & _ & Hup & _).
    destruct (concat_head (nl ++ nl) c r ps) as (t & Et).
    rewrite Et in IH |- *. now apply splitInside_separator.
Qed.

Lemma splitSections_paragraphs ps :
  Forall plainInput ps ->
  splitSections (String.concat (nl ++ nl) ps) = [String.concat (nl ++ nl) ps].
Proof.
  intros H. destruct ps as [|p ps]; [reflexivity|].
  inversion H as [|? ? Hp Hps]; subst.
  destruct (plainInput_shape p Hp) as (c & r & -> & _ & _ & _).
  pose proof Hp as ((_ & _ & Hno & _) & _).
  apply lacks_cons in Hno as [_ Hno].
  destruct ps as [|q ps].
  - cbn [String.concat splitSections].
    rewrite <- (append_nil_r r) at 1. rewrite (splitInside_noLF r "" Hno eq_refl).
    now rewrite append_nil_r.
  - rewrite concat_cons2. cbn [append splitSections].
    rewrite (splitInside_noLF r _ Hno); [reflexivity|].
    inversion Hps as [|? ? Hq _]; subst.
    destruct (plainInput_shape q Hq) as (c' & r' & -> & _ & Hup & _).
    destruct (concat_head (nl ++ nl) c' r' ps) as (t & Et).
    pose proof (splitInside_paragraphs _ Hps) as Hs.
    rewrite Et in Hs |- *. now apply splitInside_separator.
Qed.

Lemma plainInput_lacks p : plainInput p -> lacks "`" p.
Proof. intros ((_ & _ & _ & H & _) & _). exact H. Qed.

Lemma spacing_lacks config : lacks "`" (spacing config).
Proof. unfold spacing. now destruct (paragraphSpacing config). Qed.

(** The lines of paragraphs that blank lines separate: each blank line
    writes the paragraph before it, the last paragraph stays open. *)
Lemma fold_paragraphs config ps :
  forall p markdown,
    lacks "`" markdown ->
    Forall plainInput (p :: ps) ->
    fold_left (rewriteLine config)
              (split LF (String.concat (nl ++ nl) (p :: ps)))
              (mkDocState markdown "")
    = mkDocState (flushed config markdown (removelast (p :: ps)))
                 (last (p :: ps) "").
Proof.
  induction ps as [|q ps IH]; intros p markdown Hmd H;
    inversion H as [|? ? Hp Hps]; subst;
    pose proof Hp as ((Hne & _ & Hno & _) & _).
  - cbn [String.concat]. rewrite (split_noLF p Hno). cbn [fold_left].
    now rewrite rewriteLine_plain.
  - rewrite concat_cons2.
    change (p ++ (nl ++ nl) ++ String.concat (nl ++ nl) (q :: ps))
      with (p ++ String LF ("" ++ String LF (String.concat (nl ++ nl) (q :: ps)))).
    rewrite (split_app_LF p _ Hno), (split_app_LF "" _ eq_refl).
    cbn [fold_left].
    rewrite rewriteLine_plain, rewriteLine_blank by assumption.
    rewrite IH; [reflexivity| |exact Hps].
    repeat apply lacks_app; auto;
      [now apply plainInput_lacks|reflexivity|apply spacing_lacks].
Qed.

Lemma flushed_last config ps :
  forall p markdown,
    flushed config markdown (removelast (p :: ps)) ++ last (p :: ps) ""
    = markdown ++ String.concat (nl ++ spacing config) (p :: ps).
Proof.
  induction ps as [|q ps IH]; intros p markdown; [reflexivity|].
  change (removelast (p :: q :: ps)) with (p :: removelast (q :: ps)).
  change (last (p :: q :: ps) "") with (last (q :: ps) "").
  rewrite concat_cons2. cbn [flushed fold_left].
  change (fold_left _ ?l ?m) with (flushed config m l).
  rewrite IH. now rewrite !append_assoc.
Qed.

Lemma last_plainInput p ps :
  Forall plainInput (p :: ps) -> plainInput (last (p :: ps) "").
Proof.
  revert p. induction ps as [|q ps IH]; intros p H;
    inversion H; subst; [assumption|].
  change (last (p :: q :: ps) "") with (last (q :: ps) ""). now apply IH.
Qed.

Lemma concat_paragraphs_shape sep ps :
  ps <> [] -> Forall plainInput ps ->
  (exists c r, String.concat sep ps = String c r /\ isSpace c = false) /\
  trimEnd (String.concat sep ps) = String.concat sep ps.
Proof.
  induction ps as [|p ps IH]; intros Hne H; [contradiction|].
  inversion H as [|? ? Hp Hps]; subst.
  destruct (plainInput_shape p Hp) as (c & r & -> & Hc & _ & Hfix).
  destruct ps as [|q ps]; [cbn [String.concat]; eauto|].
  destruct (IH ltac:(discriminate) Hps) as [(c' & r' & E & _) Hfix'].
  rewrite concat_cons2. split; [cbn; eauto|].
  rewrite <- append_assoc. apply trimEnd_app_fixed; [exact Hfix'|].
  rewrite E. discriminate.
Qed.

(** X18.  Paragraphs of plain words that blank lines separate come out
    separated by one line feed under [single] spacing and by a blank line
    under [double] spacing, whatever the rest of the configuration. *)
Theorem paragraph_spacing_separates_paragraphs (ps : list string)
  (config : StructureConfig) :
  ps <> [] ->
  Forall plainInput ps ->
  processDocument (String.concat (nl ++ nl) ps) config
  = Returned (String.concat (nl ++ spacing config) ps).
Proof.
  intros Hne H. destruct ps as [|p ps]; [contradiction|].
  unfold processDocument. rewrite (splitSections_paragraphs _ H).
  cbn [processSections].
  destruct (concat_paragraphs_shape (nl ++ nl) _ Hne H)
    as [(c & r & Ein & Hc) Hfix].
  assert (Htrim : trim (String.concat (nl ++ nl) (p :: ps))
                  = String.concat (nl ++ nl) (p :: ps)).
  { unfold trim. rewrite Ein, (trimStart_fixed c r Hc), <- Ein. exact Hfix. }
  assert (Hhd : sectionHasHeader (String.concat (nl ++ nl) (p :: ps)) = false).
  { unfold sectionHasHeader. rewrite Htrim.
    inversion H as [|? ? Hp _]; subst.
    destruct (plainInput_shape p Hp) as (a & t & -> & _ & Hup & _).
    pose proof Hp as ((_ & _ & Hno & _) & _).
    assert (Hl : exists w, hd "" (split LF (String.concat (nl ++ nl)
                                              (String a t :: ps)))
                           = String a w).
    { destruct ps as [|q ps].
      - cbn [String.concat]. rewrite (split_noLF _ Hno). cbn. eauto.
      - rewrite concat_cons2.
        change ((nl ++ nl) ++ ?x) with (String LF (nl ++ x)).
        rewrite (split_app_LF _ _ Hno). cbn. eauto. }
    destruct Hl as (w & ->). cbn [headerTest]. now rewrite Hup. }
  rewrite processSection_without_header by exact Hhd.
  cbn [bind]. rewrite Htrim, (fold_paragraphs config ps p "" eq_refl H).
  cbn [currentParagraph d_markdown].
  pose proof (last_plainInput p ps H) as ((Hlast & _) & _).
  destruct (last (p :: ps) "") as [|x l] eqn:El; [contradiction|].
  cbn [isEmpty negb]. rewrite <- El, <- append_assoc, flushed_last.
  cbn [append]. f_equal.
  destruct (concat_paragraphs_shape (nl ++ spacing config) _ Hne H)
    as [(c' & r' & Eout & Hc') Hfix'].
  unfold trim. rewrite Eout. cbn [append].
  rewrite (trimStart_fixed c' _ Hc').
  change (String c' (r' ++ nl ++ nl)) with (String c' r' ++ nl ++ nl).
  rewrite trimEnd_app_spaces by reflexivity. rewrite <- Eout. exact Hfix'.
Qed.

Lemma paragraph_spacing_separates_paragraphs_witness :
  processDocument ("first words" ++ nl ++ nl ++ "second words")
                  (mkConfig (int 2) ls_bullet single asterisk fenced)
  = Returned ("first words" ++ nl ++ "second words").
Proof.
  apply (paragraph_spacing_separates_paragraphs
           ["first words"; "second words"]
           (mkConfig (int 2) ls_bullet single asterisk fenced)).
  - discriminate.
  - repeat constructor; discriminate.
Defined.

(** *** One-line texts *)

Lemma splitSections_noLF text : noLF text -> splitSections text = [text].
Proof.
  intros H. destruct text as [|c r]; [reflexivity|].
  apply lacks_cons in H as [_ H]. cbn [splitSections].
  rewrite <- (append_nil_r r) at 1.
  rewrite (splitInside_noLF r "" H eq_refl). now rewrite append_nil_r.
Qed.

Lemma trim_app_blank s w :
  visibleHead s -> forallb isSpace w = true -> trim (s ++ w) = trim s.
Proof.
  intros Hs Hw. destruct s as [|c r].
  - cbn [append]. unfold trim, trimStart.
    assert (skipWhile isSpace w = "") as ->; [|reflexivity].
    induction w as [|a w IH]; [reflexivity|]. cbn in Hw |- *.
    apply andb_true_iff in Hw as [Ha Hw]. rewrite Ha. now apply IH.
  - cbn [visibleHead] in Hs. unfold trim. cbn [append].
    rewrite !(trimStart_fixed c _ Hs).
    change (String c (r ++ w)) with (String c r ++ w).
    now apply trimEnd_app_spaces.
Qed.

(** A text of one line that is no header: the rewritten line, trimmed. *)
Lemma processDocument_one_line text config :
  noLF text ->
  headerTest (trim text) = false ->
  processDocument text config
  = Returned (trim (rewrittenLine config "" text)).
Proof.
  intros Hno Hh. unfold processDocument.
  rewrite (splitSections_noLF text Hno). cbn [processSections].
  assert (Hlines : split LF (trim text) = [trim text])
    by (apply split_noLF, lacks_trim, Hno).
  rewrite processSection_without_header
    by (unfold sectionHasHeader; rewrite Hlines; exact Hh).
  rewrite Hlines. cbn [bind fold_left].
  rewrite rewriteLine_without_fence by reflexivity.
  cbn [d_markdown currentParagraph isEmpty negb append].
  assert (Hr : rewrittenLine config "" (trim text) = rewrittenLine config "" text)
    by (unfold rewrittenLine; now rewrite trim_idempotent).
  rewrite Hr.
  pose proof (rewrittenLine_visible config "" text) as Hv.
  destruct (rewrittenLine config "" text) as [|c r] eqn:E; [reflexivity|].
  cbn [isEmpty d_markdown currentParagraph negb append]. f_equal.
  change (String c (r ++ nl ++ nl)) with (String c r ++ nl ++ nl).
  now apply trim_app_blank.
Qed.

Lemma drop_all s : drop (String.length s) s = "".
Proof. induction s; cbn; auto. Qed.

(** A line with one delimiter, at its head, holds no emphasis. *)
Lemma unmatched_single_delimiter ch d y k :
  lacks ch y ->
  matchDelimited (String ch d) ch (drop k (String ch y)) = None.
Proof.
  intros Hy. destruct k as [|k];
    [|cbn [drop]; now apply unmatched_without_delimiter].
  cbn [drop]. unfold matchDelimited.
  destruct (startsWith (String ch d) (String ch y)); [|reflexivity].
  cbn [String.length drop].
  rewrite (takeWhile_all _ _ (lacks_drop ch (String.length d) y Hy)), drop_all.
  cbn [startsWith]. now rewrite andb_false_r.
Qed.

Lemma convertEmphasis_bullet_line style m x :
  oneOf "-*" m = true -> lacks "_" x -> lacks "*" x ->
  convertEmphasis style (String m (" " ++ x)) = String m (" " ++ x).
Proof.
  intros Hm Hu Ha.
  assert (Hsp : forall ch, lacks ch x -> Ascii.eqb " " ch = false ->
                           lacks ch (" " ++ x)).
  { intros ch Hx Hch. apply lacks_cons. auto. }
  assert (Hmu : Ascii.eqb m "_" = false).
  { apply negb_true_iff.
    exact (char_implies (oneOf "-*") (fun c => negb (Ascii.eqb c "_"))
             ltac:(vm_compute; reflexivity) m Hm). }
  assert (Hlu : lacks "_" (String m (" " ++ x))).
  { apply lacks_cons. split; [exact Hmu|]. now apply Hsp. }
  destruct style; cbn [convertEmphasis].
  - rewrite (replaceDelimited_lacks "_" "" "*" _ Hlu).
    exact (replaceDelimited_lacks "_" "_" "**" _ Hlu).
  - destruct (Ascii.eqb m "*") eqn:E.
    + apply Ascii.eqb_eq in E. subst m.
      assert (Hone : forall d o,
                replaceDelimited (String "*" d) "*" o (String "*" (" " ++ x))
                = String "*" (" " ++ x)).
      { intros d o. unfold replaceDelimited. apply replaceFrom_unmatched.
        intros k. apply unmatched_single_delimiter. now apply Hsp. }
      now rewrite !Hone.
    + assert (Hla : lacks "*" (String m (" " ++ x))).
      { apply lacks_cons. split; [exact E|]. now apply Hsp. }
      rewrite (replaceDelimited_lacks "*" "" "_" _ Hla).
      exact (replaceDelimited_lacks "*" "*" "__" _ Hla).
Qed.

Lemma trim_visible_line c m x :
  isSpace c = false -> plainWords x ->
  trim (String c (m ++ x)) = String c (m ++ x).
Proof.
  intros Hc (Hne & Ht & _). apply trim_prefixed; auto.
  apply trimmedText_trimEnd. split; assumption.
Qed.

Lemma digits_lack ch d :
  isDigit ch = false -> forallb isDigit d = true -> lacks ch d.
Proof.
  intros Hch. apply forallb_impl. intros c Hc.
  destruct (Ascii.eqb c ch) eqn:E; [|reflexivity].
  apply Ascii.eqb_eq in E. subst c. rewrite Hc in Hch. discriminate.
Qed.

(** X19.  The list step on a text of one line.  A numbered item becomes a
    [*] bullet under the [bullet] style and stays under [numbered]; a
    bullet item becomes item [1.] under [numbered] and stays under
    [bullet]. *)
Theorem list_style_rewrites_the_marker (d : string) (m : ascii) (x : string)
  (config : StructureConfig) :
  d <> "" ->
  forallb isDigit d = true ->
  oneOf "-*" m = true ->
  plainWords x ->
  processDocument (d ++ ". " ++ x) config
  = Returned match listStyle config with
             | ls_bullet => "* " ++ x
             | ls_numbered => d ++ ". " ++ x
             end /\
  processDocument (String m (" " ++ x)) config
  = Returned match listStyle config with
             | ls_numbered => "1. " ++ x
             | ls_bullet => String m (" " ++ x)
             end.
Proof.
  intros Hne Hd Hm Hx. pose proof Hx as (Hxne & Hxt & Hxno & _ & Hu & Ha).
  destruct d as [|d0 d]; [contradiction|].
  cbn [forallb] in Hd. apply andb_true_iff in Hd as [Hd0 Hd].
  destruct (digit_facts d0 Hd0) as (Hs0 & _ & _ & _ & Hup0).
  assert (Hd0c : Ascii.eqb d0 "_" = false /\ Ascii.eqb d0 "*" = false
                 /\ Ascii.eqb d0 LF = false).
  { pose proof (char_implies isDigit
                  (fun c => negb (Ascii.eqb c "_") && negb (Ascii.eqb c "*")
                            && negb (Ascii.eqb c LF))
                  ltac:(vm_compute; reflexivity) d0 Hd0) as F.
    cbv beta in F. rewrite !andb_true_iff, !negb_true_iff in F. tauto. }
  destruct Hd0c as (Hd0u & Hd0a & Hd0lf).
  assert (Hms : isSpace m = false /\ isUpper m = false /\ isDigit m = false
                /\ Ascii.eqb m LF = false).
  { pose proof (char_implies (oneOf "-*")
                  (fun c => negb (isSpace c) && negb (isUpper c)
                            && negb (isDigit c) && negb (Ascii.eqb c LF))
                  ltac:(vm_compute; reflexivity) m Hm) as F.
    cbv beta in F. rewrite !andb_true_iff, !negb_true_iff in F. tauto. }
  destruct Hms as (Hms & Hmup & Hmd & Hmlf).
  split.
  - (* the numbered item *)
    change (String d0 d ++ ". " ++ x) with (String d0 (d ++ ". " ++ x)).
    assert (Htrim : trim (String d0 (d ++ ". " ++ x)) = String d0 (d ++ ". " ++ x)).
    { rewrite <- append_assoc. now apply trim_visible_line. }
    rewrite processDocument_one_line.
    + unfold rewrittenLine. rewrite Htrim.
      assert (Hn : numberDot (String d0 (d ++ ". " ++ x)) = Some (" " ++ x)).
      { unfold numberDot. cbn [digits1]. rewrite Hd0.
        change (d ++ ". " ++ x) with (d ++ String "." (" " ++ x)).
        now rewrite (skipWhile_run isDigit d "." _ Hd eq_refl). }
      rewrite Hn.
      assert (Hsx : trim (" " ++ x) = x).
      { unfold trim, trimStart. cbn [append skipWhile].
        change (isSpace " ") with true. cbv iota.
        fold (trimStart x). exact Hxt. }
      destruct (listStyle config).
      * rewrite Hsx.
        rewrite (convertEmphasis_bullet_line _ "*" x eq_refl Hu Ha).
        rewrite (trim_visible_line "*" " " x eq_refl Hx). reflexivity.
      * rewrite convertEmphasis_plain.
        -- now rewrite Htrim.
        -- apply lacks_cons. split; [exact Hd0u|].
           apply lacks_app; [now apply digits_lack|].
           apply (lacks_app "_" ". "); [reflexivity|exact Hu].
        -- apply lacks_cons. split; [exact Hd0a|].
           apply lacks_app; [now apply digits_lack|].
           apply (lacks_app "*" ". "); [reflexivity|exact Ha].
    + apply lacks_cons. split; [exact Hd0lf|].
      apply noLF_app; [now apply digits_noLF|].
      apply (noLF_app ". "); [reflexivity|exact Hxno].
    + rewrite Htrim. cbn [headerTest]. now rewrite Hup0.
  - (* the bullet item *)
    assert (Htrim : trim (String m (" " ++ x)) = String m (" " ++ x))
      by now apply trim_visible_line.
    rewrite processDocument_one_line.
    + unfold rewrittenLine. rewrite Htrim.
      assert (Hn : numberDot (String m (" " ++ x)) = None).
      { unfold numberDot. cbn [digits1]. now rewrite Hmd. }
      assert (Hb : bulletHead (String m (" " ++ x)) = Some (" " ++ x)).
      { unfold bulletHead. cbn [one]. now rewrite Hm. }
      rewrite Hn, Hb.
      assert (Hsx : trim (" " ++ x) = x).
      { unfold trim, trimStart. cbn [append skipWhile].
        change (isSpace " ") with true. cbv iota.
        fold (trimStart x). exact Hxt. }
      destruct (listStyle config).
      * rewrite (convertEmphasis_bullet_line _ m x Hm Hu Ha).
        now rewrite Htrim.
      * rewrite Hsx.
        change (showZ (Z.of_nat (List.length
                  (filter (fun l => isSome (numberDot l)) (split LF "")) + 1)))
          with "1".
        rewrite convertEmphasis_plain.
        -- change ("1" ++ ". " ++ x) with (String "1" (". " ++ x)).
           now rewrite (trim_visible_line "1" ". " x eq_refl Hx).
        -- apply (lacks_app "_" "1. "); [reflexivity|exact Hu].
        -- apply (lacks_app "*" "1. "); [reflexivity|exact Ha].
    + apply lacks_cons. split; [exact Hmlf|].
      apply (noLF_app " "); [reflexivity|exact Hxno].
    + rewrite Htrim. cbn [headerTest]. now rewrite Hmup.
Qed.

Lemma list_style_rewrites_the_marker_witness :
  processDocument "12. twelfth item"
                  (mkConfig (int 2) ls_bullet single asterisk fenced)
  = Returned "* twelfth item" /\
  processDocument "- twelfth item"
                  (mkConfig (int 2) ls_bullet single asterisk fenced)
  = Returned "- twelfth item".
Proof.
  apply (list_style_rewrites_the_marker "12" "-" "twelfth item"
           (mkConfig (int 2) ls_bullet single asterisk fenced)).
  - discriminate.
  - reflexivity.
  - reflexivity.
  - repeat split; discriminate.
Defined.

(** *** Headers and paragraphs of one section *)

(** X20.  A text of one line that passes the header test comes out as a
    header of [min(headingDepth, 3)] hash signs, for every integer depth
    from 1 on (and for a depth with a fraction, of the hash signs of its
    integer part); the list step and the emphasis step never see it. *)
Theorem one_line_header_gets_hashes (text : string)
  (config : StructureConfig) (q : Q) :
  noLF text ->
  headerTest (trim text) = true ->
  headingDepth config = Finite q ->
  (inject_Z 1 <= q)%Q ->
  processDocument text config
  = Returned (JS.repeat "#" (headerLevel q) ++ " " ++ trim text) /\
  (forall depth : Z,
     q = inject_Z depth -> headerLevel q = Z.to_nat (Z.min depth 3)).
Proof.
  intros Hno Hh Hdepth Hd.
  split; [|intros depth ->; apply headerLevel_int].
  unfold processDocument.
  rewrite (splitSections_noLF text Hno). cbn [processSections].
  assert (Hlines : split LF (trim text) = [trim text])
    by (apply split_noLF, lacks_trim, Hno).
  unfold processSection. rewrite Hlines. cbn [hd tl]. rewrite Hh.
  rewrite Hdepth.
  rewrite repeatCount_level
    by (apply Qlt_le_trans with (inject_Z 1); [reflexivity|assumption]).
  cbn [bind fold_left currentParagraph d_markdown isEmpty negb append].
  f_equal. rewrite trim_idempotent.
  assert (Hlevel : (1 <= headerLevel q)%nat).
  { unfold headerLevel. apply truncate_mono in Hd.
    rewrite truncate_int in Hd. lia. }
  destruct (headerLevel q) as [|n] eqn:En; [lia|].
  cbn [JS.repeat append].
  assert (Ht : trimmedText (trim text)).
  { apply trimmedText_trim. destruct (trim text); [discriminate Hh|reflexivity]. }
  assert (Hfix : trim (String "#" ((JS.repeat "#" n ++ " ") ++ trim text))
                 = String "#" ((JS.repeat "#" n ++ " ") ++ trim text)).
  { apply trim_prefixed; [reflexivity|now apply trimmedText_trimEnd|apply Ht]. }
  rewrite append_assoc in Hfix.
  transitivity (trim (String "#" (JS.repeat "#" n ++ " " ++ trim text)
                      ++ nl ++ nl)).
  - f_equal. cbn [append]. f_equal. now rewrite !append_assoc.
  - rewrite trim_app_blank by reflexivity. exact Hfix.
Qed.

Lemma one_line_header_gets_hashes_witness :
  processDocument "Note: _keep_ this"
    (mkConfig (int 5) ls_bullet single asterisk fenced)
  = Returned "### Note: _keep_ this" /\
  (forall depth : Z,
     inject_Z 5 = inject_Z depth ->
     headerLevel (inject_Z 5) = Z.to_nat (Z.min depth 3)).
Proof.
  apply (one_line_header_gets_hashes "Note: _keep_ this"
           (mkConfig (int 5) ls_bullet single asterisk fenced) (inject_Z 5)).
  - reflexivity.
  - reflexivity.
  - reflexivity.
  - vm_compute. discriminate.
Defined.

Lemma replaceFrom_nonempty d ch o s :
  o <> "" -> s <> "" -> replaceFrom d ch o 0 s <> "".
Proof.
  intros Ho Hs. destruct s as [|c r]; [contradiction|].
  cbn [replaceFrom]. destruct (matchDelimited d ch (String c r)).
  - destruct o; [contradiction|discriminate].
  - discriminate.
Qed.

Lemma convertEmphasis_nonempty style line :
  line <> "" -> convertEmphasis style line <> "".
Proof.
  intros H. destruct style; cbn [convertEmphasis]; unfold replaceDelimited;
    repeat apply replaceFrom_nonempty; auto; discriminate.
Qed.

Lemma rewrittenLine_nonempty config markdown l :
  trimmedText l -> rewrittenLine config markdown l <> "".
Proof.
  intros [Hne Ht]. unfold rewrittenLine. rewrite Ht.
  apply convertEmphasis_nonempty.
  destruct (numberDot l).
  - destruct (listStyle config); [discriminate|exact Hne].
  - destruct (bulletHead l); [|exact Hne].
    destruct (listStyle config); [exact Hne|].
    destruct (showZ _); discriminate.
Qed.

Lemma paragraphLine_head l :
  paragraphLine l ->
  exists c r, l = String c r /\ isSpace c = false /\ isUpper c = false.
Proof.
  intros (Ht & _ & Hup).
  destruct (trimmedText_head l Ht) as (c & r & -> & Hc). eauto.
Qed.

Lemma joinLines_head c r ls :
  exists t, joinLines (String c r :: ls) = String c t.
Proof. destruct ls; cbn; eauto. Qed.

Lemma splitInside_lines ls :
  Forall paragraphLine ls ->
  splitInside (joinLines ls) = [joinLines ls].
Proof.
  induction ls as [|l ls IH]; intros H; [reflexivity|].
  inversion H as [|? ? Hl Hls]; subst. specialize (IH Hls).
  pose proof Hl as (_ & Hno & _).
  destruct ls as [|q ls].
  - cbn [joinLines]. rewrite <- (append_nil_r l) at 1 2.
    now apply splitInside_noLF.
  - rewrite joinLines_cons by discriminate.
    apply splitInside_noLF; [exact Hno|].
    inversion Hls as [|? ? Hq _]; subst.
    destruct (paragraphLine_head q Hq) as (c & r & -> & _ & Hup).
    destruct (joinLines_head c r ls) as (t & Et). rewrite Et in IH |- *.
    cbn [nl append splitInside headerAhead headerTest].
    rewrite Ascii.eqb_refl, Hup. cbn [andb].
    cbn [splitInside headerAhead] in IH. rewrite IH. reflexivity.
Qed.

Lemma splitSections_lines ls :
  Forall paragraphLine ls ->
  splitSections (joinLines ls) = [joinLines ls].
Proof.
  intros H. pose proof (splitInside_lines ls H) as Hs.
  destruct (joinLines ls) as [|c r] eqn:E; [reflexivity|].
  cbn [splitSections]. cbn [splitInside] in Hs.
  destruct (headerAhead (String c r)) in Hs.
  - injection Hs as Hs _. discriminate Hs.
  - exact Hs.
Qed.

Lemma joinLines_paragraph_shape ls :
  ls <> [] -> Forall paragraphLine ls ->
  (exists c r, joinLines ls = String c r /\ isSpace c = false) /\
  trimEnd (joinLines ls) = joinLines ls.
Proof.
  induction ls as [|l ls IH]; intros Hne H; [contradiction|].
  inversion H as [|? ? Hl Hls]; subst.
  destruct (paragraphLine_head l Hl) as (c & r & -> & Hc & _).
  pose proof (trimmedText_trimEnd _ (proj1 Hl)) as Hfix.
  destruct ls as [|q ls]; [cbn [joinLines]; eauto|].
  destruct (IH ltac:(discriminate) Hls) as [(c' & r' & E & _) Hfix'].
  rewrite joinLines_cons by discriminate. split; [cbn; eauto|].
  rewrite <- append_assoc. apply trimEnd_app_fixed; [exact Hfix'|].
  rewrite E. discriminate.
Qed.

Lemma concat_cons2' sep (p : string) ps :
  String.concat sep (p :: ps)
  = p ++ match ps with
         | [] => ""
         | _ => sep ++ String.concat sep ps
         end.
Proof. destruct ps; cbn [String.concat]; [now rewrite append_nil_r|reflexivity]. Qed.

(** The lines of a section without blank lines: each goes to the open
    paragraph, after a space when the paragraph is not empty. *)
Lemma fold_section_lines config ls :
  forall para,
    para <> "" ->
    Forall paragraphLine ls ->
    fold_left (rewriteLine config) ls (mkDocState "" para)
    = mkDocState "" (String.concat " " (para :: map (rewrittenLine config "") ls)).
Proof.
  induction ls as [|l ls IH]; intros para Hp H; [reflexivity|].
  inversion H as [|? ? Hl Hls]; subst. cbn [fold_left map].
  rewrite rewriteLine_without_fence by reflexivity.
  cbn [d_markdown currentParagraph].
  pose proof (rewrittenLine_nonempty config "" l (proj1 Hl)) as Hr.
  destruct (rewrittenLine config "" l) as [|x t] eqn:E; [contradiction|].
  destruct para as [|a p]; [contradiction|].
  cbn [isEmpty negb]. rewrite IH; [|discriminate|exact Hls].
  f_equal. rewrite !concat_cons2'. now rewrite !append_assoc.
Qed.

(** X21.  The lines of a section without blank lines become one
    paragraph: each line goes through the list step and the emphasis step
    on its own, and the results are joined by single spaces, list items
    included. *)
Theorem section_lines_are_joined_by_spaces (ls : list string)
  (config : StructureConfig) :
  ls <> [] ->
  Forall paragraphLine ls ->
  processDocument (joinLines ls) config
  = Returned (trim (String.concat " " (map (rewrittenLine config "") ls))).
Proof.
  intros Hne H. destruct ls as [|l ls]; [contradiction|].
  inversion H as [|? ? Hl Hls]; subst.
  unfold processDocument. rewrite (splitSections_lines _ H).
  cbn [processSections].
  destruct (joinLines_paragraph_shape _ Hne H) as [(c & r & Ein & Hc) Hfix].
  assert (Htrim : trim (joinLines (l :: ls)) = joinLines (l :: ls)).
  { unfold trim. rewrite Ein, (trimStart_fixed c r Hc), <- Ein. exact Hfix. }
  assert (Hlines : split LF (joinLines (l :: ls)) = l :: ls).
  { apply split_joinLines; [|discriminate].
    eapply Forall_impl; [|exact H]. intros a Ha. apply Ha. }
  assert (Hhd : sectionHasHeader (joinLines (l :: ls)) = false).
  { unfold sectionHasHeader. rewrite Htrim, Hlines. cbn [hd].
    destruct (paragraphLine_head l Hl) as (a & t & -> & _ & Hup).
    cbn [headerTest]. now rewrite Hup. }
  rewrite processSection_without_header by exact Hhd.
  cbn [bind]. rewrite Htrim, Hlines. cbn [fold_left map].
  rewrite rewriteLine_without_fence by reflexivity.
  cbn [d_markdown currentParagraph isEmpty negb append].
  pose proof (rewrittenLine_nonempty config "" l (proj1 Hl)) as Hr.
  pose proof (rewrittenLine_visible config "" l) as Hv.
  destruct (rewrittenLine config "" l) as [|x t] eqn:E; [contradiction|].
  cbn [isEmpty]. rewrite fold_section_lines by (try discriminate; exact Hls).
  cbn [d_markdown currentParagraph append].
  destruct (concat_head " " x t (map (rewrittenLine config "") ls))
    as (u & Eu).
  rewrite Eu. cbn [isEmpty negb append]. f_equal.
  change (String x (u ++ nl ++ nl)) with (String x u ++ nl ++ nl).
  now apply trim_app_blank.
Qed.

Lemma section_lines_are_joined_by_spaces_witness :
  processDocument ("1. first" ++ nl ++ "2. second" ++ nl ++ "and _more_")
                  (mkConfig (int 2) ls_bullet single asterisk fenced)
  = Returned "* first * second and *more*".
Proof.
  apply (section_lines_are_joined_by_spaces
           ["1. first"; "2. second"; "and _more_"]
           (mkConfig (int 2) ls_bullet single asterisk fenced)).
  - discriminate.
  - repeat constructor; discriminate.
Defined.

(** *** Texts without a hash sign *)

Lemma headerSomewhere_lacks md :
  lacks "#" md -> forall b, headerSomewhere b md = false.
Proof.
  induction md as [|c md IH]; intros H b; [reflexivity|].
  apply lacks_cons in H as [Hc H]. cbn [headerSomewhere].
  rewrite (IH H). rewrite orb_false_r.
  unfold headerAt. cbn [takeWhile].
  rewrite Ascii.eqb_sym, Hc. cbn. now rewrite andb_false_r.
Qed.

(** X22.  A text without a hash sign never validates, whatever else it
    holds. *)
Theorem no_hash_is_never_valid (md : string) :
  lacks "#" md -> validateMarkdown md = false.
Proof.
  intros H. unfold validateMarkdown.
  now rewrite (headerSomewhere_lacks md H).
Qed.

Lemma no_hash_is_never_valid_witness :
  validateMarkdown ("Title" ++ nl ++ "=====" ++ nl ++ nl ++ "*fine* text") = false.
Proof.
  apply (no_hash_is_never_valid
           ("Title" ++ nl ++ "=====" ++ nl ++ nl ++ "*fine* text")).
  reflexivity.
Defined.

(* ===================================================================== *)
(** ** The correction of the generated answer *)
(* ===================================================================== *)

Example splitBlank_samples :
  splitBlank 0 ("a" ++ nl ++ nl ++ "b") = ["a"; "b"] /\
  splitBlank 0 ("a" ++ nl ++ " " ++ String TAB "" ++ nl ++ nl ++ " b" ++ nl ++ "c")
  = ["a"; " b" ++ nl ++ "c"] /\
  splitBlank 0 ("a" ++ nl ++ "  b") = ["a" ++ nl ++ "  b"] /\
  splitBlank 0 (nl ++ nl) = [""; ""] /\
  splitBlank 0 ("a" ++ nl ++ nl) = ["a"; ""] /\
  splitBlank 0 "" = [""].
Proof. repeat split; reflexivity. Qed.

Example validateAndCorrect_samples :
  validateAndCorrect ("Intro:" ++ nl ++ nl ++ "- item" ++ nl ++ nl ++ "text")
                     ("## Intro:" ++ nl ++ nl ++ "extra" ++ nl ++ nl ++ "*text*")
  = "## Intro:" ++ nl ++ nl ++ "* item" ++ nl ++ nl ++ "*text*" /\
  validateAndCorrect ("Intro:" ++ nl ++ nl ++ "- item") "nothing alike"
  = "## Intro:" ++ nl ++ nl ++ "* item" /\
  looksLikeHeader "Title." = true /\ looksLikeHeader "Title. x" = false /\
  looksLikeHeader ("Ti" ++ nl ++ "tle:") = false /\
  includes "bc" "abcd" = true /\ includes "" "" = true /\
  includes "x" "" = false.
Proof. repeat split; reflexivity. Qed.

Lemma splitBlank_nonempty k s : splitBlank k s <> [].
Proof.
  revert k. induction s as [|c r IH]; intros k; cbn [splitBlank];
    [discriminate|].
  destruct k as [|k]; [|apply IH].
  destruct (blankLine (String c r)); [discriminate|].
  destruct (splitBlank 0 r); discriminate.
Qed.

Lemma splitBlank_noLF s : noLF s -> splitBlank 0 s = [s].
Proof.
  induction s as [|c r IH]; intros H; [reflexivity|].
  apply lacks_cons in H as [Hc H]. cbn [splitBlank blankLine].
  rewrite Hc, (IH H). reflexivity.
Qed.

Lemma startsWith_refl s : startsWith s s = true.
Proof. induction s as [|c s IH]; cbn; [reflexivity|]. now rewrite Ascii.eqb_refl. Qed.

Lemma includes_refl s : includes s s = true.
Proof. destruct s; cbn [includes]; now rewrite startsWith_refl. Qed.

Lemma includes_empty hay : includes "" hay = true.
Proof. destruct hay; reflexivity. Qed.

Lemma space_not_markup c : isSpace c = true -> isMarkup c = false.
Proof.
  intros H. apply negb_true_iff.
  exact (char_implies isSpace (fun c => negb (isMarkup c))
           ltac:(vm_compute; reflexivity) c H).
Qed.

Lemma trim_skip_space c s : isSpace c = true -> trim (String c s) = trim s.
Proof. intros H. unfold trim, trimStart. cbn [skipWhile]. now rewrite H. Qed.

Lemma startsWith_iff p s : startsWith p s = true <-> exists y, s = p ++ y.
Proof.
  revert s. induction p as [|a p IH]; intros s; cbn [startsWith append].
  - split; eauto.
  - destruct s as [|c s].
    + split; [discriminate|intros (y & H); discriminate H].
    + rewrite andb_true_iff, Ascii.eqb_eq, IH. split.
      * intros (-> & y & ->). eauto.
      * intros (y & [= -> ->]). eauto.
Qed.

Lemma includes_iff needle hay :
  includes needle hay = true <-> exists x y, hay = x ++ needle ++ y.
Proof.
  induction hay as [|c hay IH]; cbn [includes].
  - rewrite orb_false_r, startsWith_iff. split.
    + intros (y & ->). exists "", y. reflexivity.
    + intros ([|a x] & y & H); [eauto|discriminate H].
  - rewrite orb_true_iff, startsWith_iff, IH. split.
    + intros [(y & ->)|(x & y & ->)].
      * exists "", y. reflexivity.
      * exists (String c x), y. reflexivity.
    + intros ([|a x] & y & H); [left; eauto|].
      injection H as -> ->. right. eauto.
Qed.

Lemma includes_trans a b c :
  includes a b = true -> includes b c = true -> includes a c = true.
Proof.
  rewrite !includes_iff. intros (x & y & ->) (x' & y' & ->).
  exists (x' ++ x), (y ++ y'). now rewrite !append_assoc.
Qed.

Lemma withoutBullet_other a r :
  Ascii.eqb a "-" = false -> withoutBullet (String a r) = String a r.
Proof.
  unfold withoutBullet.
  destruct a as [[] [] [] [] [] [] [] []]; cbn; intros H;
    try discriminate H; reflexivity.
Qed.

(** The marker that [withoutBullet] removes is markup and white space:
    the text of the paragraph still holds what is left. *)
Lemma stripMarkup_withoutBullet p :
  includes (stripMarkup (withoutBullet p)) (stripMarkup p) = true.
Proof.
  destruct p as [|a r]; [reflexivity|].
  destruct (Ascii.eqb a "-") eqn:Ea.
  - apply Ascii.eqb_eq in Ea. subst a.
    destruct r as [|c r]; [apply includes_refl|].
    cbn [withoutBullet].
    destruct (isSpace c) eqn:Hc; [|apply includes_refl].
    unfold stripMarkup.
    change (removeAll isMarkup (String "-" (String c r)))
      with (removeAll isMarkup (String c r)).
    cbn [removeAll]. rewrite (space_not_markup c Hc).
    rewrite trim_skip_space by assumption. apply includes_refl.
  - rewrite withoutBullet_other by assumption. apply includes_refl.
Qed.

(** The basic marks change no text: without its markup characters the
    marked paragraph is the paragraph without its list marker. *)
Lemma stripMarkup_basicMarkdown p :
  stripMarkup (basicMarkdown p) = stripMarkup (withoutBullet p).
Proof.
  unfold basicMarkdown. destruct (looksLikeHeader p) eqn:Hh.
  - destruct p as [|a r]; [discriminate|].
    cbn [looksLikeHeader] in Hh. apply andb_true_iff in Hh as [Ha _].
    change ("## " ++ String a r) with (String "#" (String "#" (String " " (String a r)))).
    cbv iota beta.
    rewrite withoutBullet_other
      by (revert Ha; clear; destruct a as [[] [] [] [] [] [] [] []]; cbn;
          intros H; try discriminate H; reflexivity).
    unfold stripMarkup.
    change (removeAll isMarkup (String "#" (String "#" (String " " (String a r)))))
      with (String " " (removeAll isMarkup (String a r))).
    now apply trim_skip_space.
  - destruct p as [|a r]; [reflexivity|].
    destruct (Ascii.eqb a "-") eqn:Ea.
    + apply Ascii.eqb_eq in Ea. subst a.
      destruct r as [|c r]; [reflexivity|].
      cbn [withoutBullet].
      destruct (isSpace c) eqn:Hc; [|reflexivity].
      unfold stripMarkup.
      change (removeAll isMarkup ("* " ++ r))
        with (String " " (removeAll isMarkup r)).
      now rewrite trim_skip_space.
    + rewrite withoutBullet_other by assumption.
      replace (match String a r with
               | String "-" (String c r0) =>
                   if isSpace c then "* " ++ r0 else String a r
               | _ => String a r
               end) with (String a r); [reflexivity|].
      revert Ea. clear.
      destruct a as [[] [] [] [] [] [] [] []]; cbn; intros H;
        try discriminate H; reflexivity.
Qed.

Lemma correctParagraph_cases fs p :
  includes (stripMarkup (withoutBullet p)) (stripMarkup (correctParagraph fs p))
  = true /\
  (In (correctParagraph fs p) fs \/ correctParagraph fs p = basicMarkdown p).
Proof.
  assert (Hb : includes (stripMarkup (withoutBullet p))
                        (stripMarkup (basicMarkdown p)) = true)
    by (rewrite stripMarkup_basicMarkdown; apply includes_refl).
  unfold correctParagraph.
  destruct (find _ fs) as [fp|] eqn:Hf; [|auto].
  apply find_some in Hf as [Hin Hinc].
  destruct (isEmpty fp); cbn [negb]; auto.
  split; [|auto].
  apply includes_trans with (stripMarkup p);
    [apply stripMarkup_withoutBullet|assumption].
Qed.

(** X23.  The corrected answer keeps every paragraph of the original.  It
    has one paragraph for each paragraph of the original, in order; each is
    a paragraph of the answer or the original paragraph with basic marks,
    and each holds the text of the original paragraph without its leading
    list marker, markup characters and outer white space apart.  (The
    marker itself can go: the basic marks replace it by a star.) *)
Theorem corrected_answer_keeps_every_paragraph (original formatted : string) :
  exists pieces,
    validateAndCorrect original formatted = String.concat (nl ++ nl) pieces /\
    Forall2 (fun p piece =>
               includes (stripMarkup (withoutBullet p)) (stripMarkup piece)
               = true /\
               (In piece (paragraphsOf formatted) \/ piece = basicMarkdown p))
            (paragraphsOf original) pieces.
Proof.
  unfold validateAndCorrect.
  exists (map (correctParagraph (paragraphsOf formatted)) (paragraphsOf original)).
  split; [reflexivity|].
  induction (paragraphsOf original) as [|p ps IH]; cbn [map]; constructor;
    [apply correctParagraph_cases|exact IH].
Qed.

Lemma splitBlank_spaces s :
  forallb isSpace s = true ->
  forall k, Forall (fun x => forallb isSpace x = true) (splitBlank k s).
Proof.
  induction s as [|c r IH]; intros H k; [repeat constructor|].
  cbn [forallb] in H. apply andb_true_iff in H as [Hc H].
  cbn [splitBlank]. destruct k as [|k]; [|now apply IH].
  destruct (blankLine (String c r)).
  - constructor; [reflexivity|now apply IH].
  - specialize (IH H 0%nat). destruct (splitBlank 0 r) as [|w ws]; cbn [consHead].
    + repeat constructor. cbn. now rewrite Hc.
    + inversion IH; subst. constructor; [|assumption]. cbn. now rewrite Hc.
Qed.

Lemma trim_spaces w : forallb isSpace w = true -> trim w = "".
Proof.
  intros H. unfold trim, trimStart.
  assert (skipWhile isSpace w = "") as ->; [|reflexivity].
  induction w as [|a w IH]; [reflexivity|]. cbn in H |- *.
  apply andb_true_iff in H as [Ha Hw]. rewrite Ha. now apply IH.
Qed.

Lemma correctParagraph_blank fs p :
  Forall (fun fp => fp = "") fs -> correctParagraph fs p = basicMarkdown p.
Proof.
  intros H. unfold correctParagraph.
  destruct (find _ fs) as [fp|] eqn:Hf; [|reflexivity].
  apply find_some in Hf as [Hin _].
  rewrite Forall_forall in H. now rewrite (H fp Hin).
Qed.

(** X24.  An answer of white space only is no answer: every paragraph of
    the original comes back with the basic marks.  The empty paragraph that
    [find] then returns counts as not found. *)
Theorem blank_answer_gives_basic_markdown (original formatted : string) :
  forallb isSpace formatted = true ->
  validateAndCorrect original formatted
  = String.concat (nl ++ nl) (map basicMarkdown (paragraphsOf original)).
Proof.
  intros H. unfold validateAndCorrect. f_equal.
  apply map_ext. intros p. apply correctParagraph_blank.
  unfold paragraphsOf. apply Forall_map.
  eapply Forall_impl; [|exact (splitBlank_spaces formatted H 0)].
  exact trim_spaces.
Qed.

Lemma blank_answer_gives_basic_markdown_witness :
  validateAndCorrect ("Summary:" ++ nl ++ nl ++ "- first point") nl
  = "## Summary:" ++ nl ++ nl ++ "* first point".
Proof.
  apply (blank_answer_gives_basic_markdown
           ("Summary:" ++ nl ++ nl ++ "- first point") nl).
  reflexivity.
Defined.

(** X25.  A one-line original that holds markup characters and white space
    only, such as a rule or a number, matches every answer: it is replaced
    by the first paragraph of the answer. *)
Theorem markup_only_text_takes_the_first_answer (original formatted : string) :
  noLF original ->
  stripMarkup (trim original) = "" ->
  hd "" (paragraphsOf formatted) <> "" ->
  validateAndCorrect original formatted = hd "" (paragraphsOf formatted).
Proof.
  intros Hno Hs Hf. unfold validateAndCorrect, paragraphsOf at 2.
  rewrite (splitBlank_noLF original Hno). cbn [map String.concat].
  unfold correctParagraph. rewrite Hs.
  destruct (paragraphsOf formatted) as [|f fs]; [contradiction Hf; reflexivity|].
  cbn [find hd] in Hf |- *. rewrite includes_empty.
  destruct f; [contradiction|reflexivity].
Qed.

Lemma markup_only_text_takes_the_first_answer_witness :
  validateAndCorrect "2024." ("Hello there" ++ nl ++ nl ++ "more") = "Hello there".
Proof.
  apply (markup_only_text_takes_the_first_answer
           "2024." ("Hello there" ++ nl ++ nl ++ "more")).
  - reflexivity.
  - reflexivity.
  - discriminate.
Defined.

(** *** The order of the answer's paragraphs *)

Lemma lastLineFeed_visible s : visibleHead s -> lastLineFeed s = None.
Proof.
  destruct s as [|c r]; [reflexivity|]. cbn [visibleHead lastLineFeed].
  now intros ->.
Qed.

Lemma splitBlank_prefix p s :
  noLF p -> splitBlank 0 s = "" :: tl (splitBlank 0 s) ->
  splitBlank 0 (p ++ s) = p :: tl (splitBlank 0 s).
Proof.
  intros Hp Hs. induction p as [|c p IH]; [exact Hs|].
  apply lacks_cons in Hp as [Hc Hp]. cbn [append splitBlank blankLine].
  rewrite Hc, (IH Hp). reflexivity.
Qed.

Lemma paragraphsOf_two p q :
  trimmedText p -> noLF p -> trimmedText q -> noLF q ->
  paragraphsOf (p ++ nl ++ nl ++ q) = [p; q].
Proof.
  intros Hp Hpn Hq Hqn.
  destruct (trimmedText_head q Hq) as (c & t & Eq & Hc).
  assert (Hs : splitBlank 0 (nl ++ nl ++ q) = [""; q]).
  { cbn [nl append splitBlank blankLine]. rewrite Ascii.eqb_refl.
    cbn [lastLineFeed]. change (isSpace LF) with true. cbv iota.
    rewrite (lastLineFeed_visible q) by (rewrite Eq; exact Hc).
    rewrite Ascii.eqb_refl.
    replace (String.length (String LF q) - String.length q)%nat with 1%nat
      by (cbn [String.length]; lia).
    cbn [splitBlank]. now rewrite (splitBlank_noLF q Hqn). }
  unfold paragraphsOf. rewrite (splitBlank_prefix p _ Hpn); rewrite Hs;
    [|reflexivity].
  cbn [tl map]. now rewrite (proj2 Hp), (proj2 Hq).
Qed.

(** X26.  An answer that repeats the original is not always returned as
    it is.  [find] takes the first paragraph of the answer that contains
    the text, so of two one-line paragraphs the second is replaced by the
    first whenever the first contains its text, markup apart. *)
Theorem contained_paragraph_is_replaced_by_the_earlier_one (p q : string) :
  trimmedText p -> noLF p ->
  trimmedText q -> noLF q ->
  includes (stripMarkup q) (stripMarkup p) = true ->
  validateAndCorrect (p ++ nl ++ nl ++ q) (p ++ nl ++ nl ++ q)
  = p ++ nl ++ nl ++ p.
Proof.
  intros Hp Hpn Hq Hqn Hinc. unfold validateAndCorrect.
  rewrite (paragraphsOf_two p q Hp Hpn Hq Hqn).
  cbn [map]. unfold correctParagraph. cbn [find].
  rewrite includes_refl, Hinc.
  destruct p as [|a r]; [destruct Hp as [Hne _]; contradiction|].
  reflexivity.
Qed.

Lemma contained_paragraph_is_replaced_by_the_earlier_one_witness :
  validateAndCorrect ("The long story" ++ nl ++ nl ++ "long")
                     ("The long story" ++ nl ++ nl ++ "long")
  = "The long story" ++ nl ++ nl ++ "The long story".
Proof.
  apply (contained_paragraph_is_replaced_by_the_earlier_one
           "The long story" "long");
    first [reflexivity|split; [discriminate|reflexivity]].
Defined.

(* ===================================================================== *)
(** ** Markers through the transformer *)
(* ===================================================================== *)

(** *** Counts of markers *)






















(** *** The count of a text, line by line *)






(** *** What the analysis keeps of a line *)












(** *** The count of the state, line by line *)










(** *** The count of the rendering *)











(** The counts of the example, and how the analysis read it. *)
Example fencedAndStarred_transform :
  transform fencedAndStarred
  = "# T *x*" ++ nl ++ nl ++ "- a **b**" ++ nl ++ "```" ++ nl
    ++ "y = 2 * 3 * 4" ++ nl ++ "```"
  /\ countChar "*" fencedAndStarred = 8%nat
  /\ countFences fencedAndStarred = 2%nat.
Proof. repeat split; reflexivity. Qed.


(** Each condition of [markersSurvive] is needed.  These balanced texts
    with an ATX heading fail one condition each, and their renderings are
    rejected: an asterisk on a fence line, a fence that is never closed,
    and an asterisk behind a carriage return in the heading line. *)
Example dropped_markers_fail_validation :
  let onFence := "# T" ++ nl ++ "```*" ++ nl ++ "x" ++ nl ++ "```" ++ nl ++ "*" in
  let unclosed := "# T" ++ nl ++ "a ``` b" ++ nl ++ "```" ++ nl ++ "x" in
  let behindCR := "# T" ++ String CR "*x" ++ nl ++ "*" in
  (Nat.even (countChar "*" onFence) = true
   /\ Nat.even (countFences onFence) = true
   /\ validateMarkdown (transform onFence) = false)
  /\ (Nat.even (countChar "*" unclosed) = true
      /\ Nat.even (countFences unclosed) = true
      /\ validateMarkdown (transform unclosed) = false)
  /\ (Nat.even (countChar "*" behindCR) = true
      /\ Nat.even (countFences behindCR) = true
      /\ validateMarkdown (transform behindCR) = false).
Proof. repeat split; reflexivity. Qed.
